(** * Gym-Manager: the Express backend of the fitness tracker and its
      React frontend

    A shallow embedding of the server (authentication middleware and the
    nine resource routes) together with a reference semantics for the calls
    it makes to its two external collaborators: the identity service
    ([auth.getUser]) and the row store reached through the query builder
    ([from(..).select/insert/update/delete ... .eq(..).order(..).single()]);
    and of the event handlers and view state of the frontend components
    that call the server.

    Layout:
    - [JS]      the JavaScript values and built-ins the handlers use
                (truthiness, [||], [String.prototype.split], [parseInt],
                [parseFloat], numbers as doubles and their text);
    - [Model]   rows, query-builder chains and replies;
    - [Api]     the middleware and the handlers, written as programs over
                the two kinds of external call, in the order the source
                awaits them, and the application under its body parser;
    - [Backend] an executable model of the store and the interpreter that
                runs a program against it;
    - observations on programs, a sample world and the vocabulary of the
      statements;
    - [Ui]      the forms, the dashboard and the detail view, each handler
                one step on the view state and the store;
    - the theorems: built-ins, middleware, store, routes, the server as a
      whole, the frontend against the server, and the theorems applied in
      the sample world. *)

From Stdlib Require Import Ascii String.
From stdpp Require Import gmap strings list sorting stringmap pretty.

Local Open Scope string_scope.
Local Open Scope Z_scope.

(* ===================================================================== *)
(** * JavaScript values and built-ins *)
(* ===================================================================== *)

Module JS.

(** Numbers are IEEE 754 doubles.  A finite double is held as the decimal
    the engine prints for it: [Fin m e] stands for [m * 10^e], [m] being the
    digits of [Number::toString] with their sign ([double], below, computes
    them).  The sign of zero, which no operation of the server or the
    frontend observes, is not represented.

    Strings are held as their UTF-8 bytes. *)
Inductive jsnum : Type :=
  | NaN
  | Inf (negative : bool)
  | Fin (m e : Z).

(** Values that reach the handlers: members of a JSON request body, or
    [undefined] for a member that is not there.  An array or object is kept
    as [JObj repr], [repr] being the text its string conversion yields. *)
Inductive jsval : Type :=
  | JUndefined
  | JNull
  | JBool (b : bool)
  | JNum (n : jsnum)
  | JStr (s : string)
  | JObj (repr : string).

Global Instance jsnum_eq_dec : EqDecision jsnum.
Proof. solve_decision. Defined.
Global Instance jsval_eq_dec : EqDecision jsval.
Proof. solve_decision. Defined.

(** ** Truthiness, [!x] and [a || b] *)

Definition num_truthy (n : jsnum) : bool :=
  match n with
  | NaN => false
  | Inf _ => true
  | Fin m _ => negb (m =? 0)
  end.

Definition str_truthy (s : string) : bool :=
  match s with
  | EmptyString => false
  | String _ _ => true
  end.

Definition truthy (v : jsval) : bool :=
  match v with
  | JUndefined | JNull => false
  | JBool b => b
  | JNum n => num_truthy n
  | JStr s => str_truthy s
  | JObj _ => true
  end.

Definition js_or (a b : jsval) : jsval := if truthy a then a else b.

(** A value that may be [undefined] and is a string otherwise, such as a
    request header or an array element of [split]. *)
Definition opt_truthy (o : option string) : bool :=
  match o with
  | None => false
  | Some s => str_truthy s
  end.

(** ** [String.prototype.split] with a one-character separator *)

Fixpoint split (sep : ascii) (s : string) : list string :=
  match s with
  | EmptyString => [EmptyString]
  | String c rest =>
      if Ascii.eqb c sep then EmptyString :: split sep rest
      else match split sep rest with
           | [] => [String c EmptyString]
           | piece :: pieces => String c piece :: pieces
           end
  end.

(** ** Scanning digits *)

Definition digit_of (c : ascii) : option Z :=
  let n := Z.of_N (N_of_ascii c) in
  if (48 <=? n) && (n <=? 57) then Some (n - 48) else None.

Definition hex_digit_of (c : ascii) : option Z :=
  let n := Z.of_N (N_of_ascii c) in
  if (48 <=? n) && (n <=? 57) then Some (n - 48)
  else if (97 <=? n) && (n <=? 102) then Some (n - 87)
  else if (65 <=? n) && (n <=? 70) then Some (n - 55)
  else None.

(** The longest prefix of digits of [s], and what follows it. *)
Fixpoint span_digits (digit : ascii -> option Z) (s : string)
  : list Z * string :=
  match s with
  | EmptyString => ([], EmptyString)
  | String c rest =>
      match digit c with
      | Some d => let '(ds, tl) := span_digits digit rest in (d :: ds, tl)
      | None => ([], s)
      end
  end.

Definition digits_value (radix : Z) (ds : list Z) : Z :=
  fold_left (fun acc d => acc * radix + d) ds 0.

(** Line terminators and white space of the ASCII range. *)
Definition is_space (c : ascii) : bool :=
  let n := Z.of_N (N_of_ascii c) in
  (n =? 32) || ((9 <=? n) && (n <=? 13)).

Definition byte (c : ascii) : Z := Z.of_N (N_of_ascii c).

(** The number of bytes of the WhiteSpace or LineTerminator code point [s]
    starts with, [0] when it starts with none.  TAB, LF, VT, FF, CR and SP
    take one byte; U+00A0 is [C2 A0]; U+1680 is [E1 9A 80]; U+2000 to
    U+200A, U+2028, U+2029 and U+202F are [E2 80] followed by [80] to [8A],
    [A8], [A9] and [AF]; U+205F is [E2 81 9F]; U+3000 is [E3 80 80]; U+FEFF
    is [EF BB BF]. *)
Definition space_width (s : string) : nat :=
  match s with
  | String c1 rest =>
      let b1 := byte c1 in
      if is_space c1 then 1%nat
      else if b1 =? 194 then
        match rest with
        | String c2 _ => if byte c2 =? 160 then 2%nat else 0%nat
        | EmptyString => 0%nat
        end
      else if (b1 =? 225) || (b1 =? 226) || (b1 =? 227) || (b1 =? 239) then
        match rest with
        | String c2 (String c3 _) =>
            let b2 := byte c2 in
            let b3 := byte c3 in
            if (b1 =? 225) && (b2 =? 154) && (b3 =? 128) then 3%nat
            else if (b1 =? 226) && (b2 =? 128) &&
                    ((128 <=? b3) && (b3 <=? 138) || (b3 =? 168)
                     || (b3 =? 169) || (b3 =? 175)) then 3%nat
            else if (b1 =? 226) && (b2 =? 129) && (b3 =? 159) then 3%nat
            else if (b1 =? 227) && (b2 =? 128) && (b3 =? 128) then 3%nat
            else if (b1 =? 239) && (b2 =? 187) && (b3 =? 191) then 3%nat
            else 0%nat
        | _ => 0%nat
        end
      else 0%nat
  | EmptyString => 0%nat
  end.

Fixpoint trim_start (s : string) : string :=
  match space_width s, s with
  | 1%nat, String _ rest => trim_start rest
  | 2%nat, String _ (String _ rest) => trim_start rest
  | 3%nat, String _ (String _ (String _ rest)) => trim_start rest
  | _, _ => s
  end.

Definition strip_sign (s : string) : bool * string :=
  match s with
  | String "-" rest => (true, rest)
  | String "+" rest => (false, rest)
  | _ => (false, s)
  end.

Definition signed (negative : bool) (z : Z) : Z := if negative then - z else z.

(** ** The double nearest to a decimal, and the decimal printed for it *)

(** [m * 10^e] without trailing zeros in [m]. *)
Fixpoint strip_zeros (fuel : nat) (m e : Z) : Z * Z :=
  match fuel with
  | O => (m, e)
  | S fuel' =>
      if (m mod 10 =? 0) && negb (m =? 0)
      then strip_zeros fuel' (m / 10) (e + 1)
      else (m, e)
  end.

(** [num / den] rounded to the nearest integer, a tie to the even one. *)
Definition half_even (num den : Z) : Z :=
  let q := num / den in
  match 2 * (num mod den) ?= den with
  | Lt => q
  | Gt => q + 1
  | Eq => if Z.even q then q else q + 1
  end.

(** [base^e <= N / D], for positive [N] and [D]. *)
Definition at_least (N D : Z) (base e : Z) : bool :=
  if 0 <=? e then D * base ^ e <=? N else D <=? N * base ^ (- e).

(** The integer [L] with [2^L <= N / D < 2^(L+1)]. *)
Definition log2_ratio (N D : Z) : Z :=
  let L := Z.log2 N - Z.log2 D in
  if at_least N D 2 L then L else L - 1.

(** The double nearest to [N / D] (round to nearest, ties to even), as
    [(q, k)] for [q * 2^k]: [2^52 <= q < 2^53] for a normal number,
    [k = -1074] and [q < 2^52] for a subnormal one or zero.  [None] when
    the result is beyond the largest double. *)
Definition nearest (N D : Z) : option (Z * Z) :=
  let k := Z.max (log2_ratio N D - 52) (-1074) in
  let q := if 0 <=? k then half_even N (D * 2 ^ k)
           else half_even (N * 2 ^ (- k)) D in
  let '(q, k) := if q =? 2 ^ 53 then (2 ^ 52, k + 1) else (q, k) in
  if 971 <? k then None else Some (q, k).

(** [m * 10^e] as a fraction. *)
Definition fraction (m e : Z) : Z * Z :=
  (m * 10 ^ Z.max e 0, 10 ^ Z.max (- e) 0).

(** The positive decimal [c.1 * 10^c.2] reads as the double [q * 2^k]. *)
Definition reads (q k : Z) (c : Z * Z) : bool :=
  (0 <? c.1) &&
  match nearest (fraction c.1 c.2).1 (fraction c.1 c.2).2 with
  | Some (q', k') => (q' =? q) && (k' =? k)
  | None => false
  end.

(** The integer [n] with [10^(n-1) <= N / D < 10^n]. *)
Definition decade (N D : Z) : Z :=
  let e0 := log2_ratio N D * 30103 / 100000 in
  if at_least N D 10 (e0 + 1) then e0 + 2
  else if at_least N D 10 e0 then e0 + 1 else e0.

(** The two multiples of [10^t] around [N / D], the nearer one first. *)
Definition candidates (N D : Z) (t : Z) : list (Z * Z) :=
  let '(num, den) := if 0 <=? t then (N, D * 10 ^ t) else (N * 10 ^ (- t), D) in
  let lo := num / den in
  let near_lo := match 2 * (num mod den) ?= den with
                 | Lt => true
                 | Gt => false
                 | Eq => Z.even lo
                 end in
  let clean c := strip_zeros (Z.to_nat (Z.log2_up (Z.abs c))) c t in
  if near_lo then [clean lo; clean (lo + 1)] else [clean (lo + 1); clean lo].

(** [Number::toString] asks for the fewest digits that read back as the
    number and, among those, for the decimal nearest to it. *)
Fixpoint shortest_from (fuel : nat) (digits : Z) (q k N D n10 : Z)
  : option (Z * Z) :=
  match fuel with
  | O => None
  | S fuel' =>
      match List.find (reads q k) (candidates N D (n10 - digits)) with
      | Some c => Some c
      | None => shortest_from fuel' (digits + 1) q k N D n10
      end
  end.

(** Seventeen significant digits tell any two doubles apart, so the search
    finds its decimal by then. *)
Definition shortest (q k : Z) : option (Z * Z) :=
  let N := q * 2 ^ Z.max k 0 in
  let D := 2 ^ Z.max (- k) 0 in
  shortest_from 17 1 q k N D (decade N D).

(** The Number value of the decimal [m * 10^e], [0 <= m], with the given
    sign: the nearest double in its printed form, [Infinity] beyond the
    largest double, [0] below half the smallest one. *)
Definition double (negative : bool) (m e : Z) : jsnum :=
  if m <=? 0 then Fin 0 0
  else
    match nearest (fraction m e).1 (fraction m e).2 with
    | None => Inf negative
    | Some (q, k) =>
        if q =? 0 then Fin 0 0
        else
          match shortest q k with
          | Some (s, t) => Fin (signed negative s) t
          | None => NaN
          end
    end.

(** ** [Number::toString], radix 10 *)

Definition zeros (n : Z) : string := String.concat "" (replicate (Z.to_nat n) "0").

Definition nat_of (z : Z) : nat := Z.to_nat z.

Definition num_to_string (x : jsnum) : string :=
  match x with
  | NaN => "NaN"
  | Inf false => "Infinity"
  | Inf true => "-Infinity"
  | Fin m e =>
      if m =? 0 then "0"
      else
        let sign := if m <? 0 then "-" else "" in
        let s := pretty (Z.abs m) in
        let k := Z.of_nat (String.length s) in
        let n := k + e in
        sign +:+
        (if (k <=? n) && (n <=? 21) then s +:+ zeros (n - k)
         else if (0 <? n) && (n <=? 21)
              then substring 0 (nat_of n) s +:+ "." +:+
                   substring (nat_of n) (nat_of (k - n)) s
         else if (-6 <? n) && (n <=? 0) then "0." +:+ zeros (- n) +:+ s
         else
           let ex := n - 1 in
           let exs := (if ex <? 0 then "-" else "+") +:+ pretty (Z.abs ex) in
           if k =? 1 then s +:+ "e" +:+ exs
           else substring 0 1 s +:+ "." +:+
                substring 1 (nat_of (k - 1)) s +:+ "e" +:+ exs)
  end.

(** ** [ToString] *)

Definition to_string (v : jsval) : string :=
  match v with
  | JUndefined => "undefined"
  | JNull => "null"
  | JBool true => "true"
  | JBool false => "false"
  | JNum n => num_to_string n
  | JStr s => s
  | JObj repr => repr
  end.

(** ** [parseInt(v)], no radix argument *)

(** Radix 16 after a [0x] or [0X] prefix, radix 10 otherwise. *)
Definition radix_prefix (s : string) : Z * (ascii -> option Z) * string :=
  match s with
  | String "0" (String "x" rest) => (16, hex_digit_of, rest)
  | String "0" (String "X" rest) => (16, hex_digit_of, rest)
  | _ => (10, digit_of, s)
  end.

Definition parseInt_string (input : string) : jsnum :=
  let '(negative, s) := strip_sign (trim_start input) in
  let '(radix, digit, s) := radix_prefix s in
  match span_digits digit s with
  | ([], _) => NaN
  | (ds, _) => double negative (digits_value radix ds) 0
  end.

Definition parseInt (v : jsval) : jsnum := parseInt_string (to_string v).

(** ** [parseFloat(v)] *)

(** The exponent part [e|E, optional sign, digits]; [0] when there is no
    well-formed one. *)
Definition scan_exponent (s : string) : Z :=
  match s with
  | String c rest =>
      if Ascii.eqb c "e" || Ascii.eqb c "E" then
        let '(negative, rest') := strip_sign rest in
        match span_digits digit_of rest' with
        | ([], _) => 0
        | (ds, _) => signed negative (digits_value 10 ds)
        end
      else 0
  | EmptyString => 0
  end.

(** The digits after a decimal point, when [s] starts with one. *)
Definition fraction_part (s : string) : list Z * string :=
  match s with
  | String "." rest => span_digits digit_of rest
  | _ => ([], s)
  end.

Definition parseFloat_string (input : string) : jsnum :=
  let '(negative, s) := strip_sign (trim_start input) in
  if String.prefix "Infinity" s then Inf negative
  else
    let '(ip, after_int) := span_digits digit_of s in
    let '(fp, after_frac) := fraction_part after_int in
    match (ip ++ fp)%list with
    | [] => NaN
    | ds => double negative (digits_value 10 ds)
                   (scan_exponent after_frac - Z.of_nat (length fp))
    end.

Definition parseFloat (v : jsval) : jsnum := parseFloat_string (to_string v).

End JS.

Import JS.

(* ===================================================================== *)
(** * Data model: rows, queries and replies *)
(* ===================================================================== *)

Module Model.

(** A row of [workouts]; its [id] is the key under which the table holds it. *)
Record workout : Type := {
  w_user_id : string;
  w_name : jsval;
  w_workout_date : jsval;
  w_notes : jsval;
  w_created_at : nat;
  w_updated_at : jsval
}.

(** A row of [exercises]. *)
Record exercise : Type := {
  e_workout_id : string;
  e_user_id : string;
  e_exercise_name : jsval;
  e_sets : jsval;
  e_reps : jsval;
  e_weight : jsval;
  e_created_at : nat
}.

(** The object literals the handlers pass to [insert] and [update]. *)
Record workout_new : Type := {
  wn_user_id : string;
  wn_name : jsval;
  wn_workout_date : jsval;
  wn_notes : jsval
}.

Record workout_patch : Type := {
  wp_name : jsval;
  wp_workout_date : jsval;
  wp_notes : jsval;
  wp_updated_at : string
}.

Record exercise_new : Type := {
  en_workout_id : string;
  en_user_id : string;
  en_exercise_name : jsval;
  en_sets : jsnum;
  en_reps : jsnum;
  en_weight : jsnum
}.

Record exercise_patch : Type := {
  ep_exercise_name : jsval;
  ep_sets : jsnum;
  ep_reps : jsnum;
  ep_weight : jsnum
}.

Inductive table : Type := workouts | exercises.

(** The four column lists the handlers select: every column; every column
    and the count of the embedded exercises; every column and the embedded
    exercises with every column of theirs; the [id] column alone. *)
Inductive columns : Type :=
  | star
  | star_exercise_count
  | star_exercises
  | id_only.

Inductive verb : Type :=
  | Select (cols : columns)
  | InsertWorkout (r : workout_new)
  | UpdateWorkout (r : workout_patch)
  | InsertExercise (r : exercise_new)
  | UpdateExercise (r : exercise_patch)
  | Delete.

(** A finished builder chain.  [q_eq] lists the [.eq(column, value)] calls and
    [q_order] the [.order(column, {ascending})] calls, in call order;
    [q_returning] records a [.select()] after a mutation and [q_single] a
    final [.single()]. *)
Record query : Type := {
  q_from : table;
  q_verb : verb;
  q_eq : list (string * string);
  q_order : list (string * bool);
  q_returning : bool;
  q_single : bool
}.

Definition from (t : table) (v : verb) : query :=
  {| q_from := t; q_verb := v; q_eq := []; q_order := [];
     q_returning := false; q_single := false |}.

Definition eq (column value : string) (q : query) : query :=
  {| q_from := q_from q; q_verb := q_verb q;
     q_eq := q_eq q ++ [(column, value)]; q_order := q_order q;
     q_returning := q_returning q; q_single := q_single q |}.

Definition order (column : string) (ascending : bool) (q : query) : query :=
  {| q_from := q_from q; q_verb := q_verb q; q_eq := q_eq q;
     q_order := q_order q ++ [(column, ascending)];
     q_returning := q_returning q; q_single := q_single q |}.

Definition returning (q : query) : query :=
  {| q_from := q_from q; q_verb := q_verb q; q_eq := q_eq q;
     q_order := q_order q; q_returning := true; q_single := q_single q |}.

Definition single (q : query) : query :=
  {| q_from := q_from q; q_verb := q_verb q; q_eq := q_eq q;
     q_order := q_order q; q_returning := q_returning q; q_single := true |}.

(** What a workout object carries under its [exercises] member. *)
Inductive embed : Type :=
  | no_embed
  | embed_count (counts : list nat)
  | embed_rows (es : list (string * exercise)).

(** One object of a result set. *)
Inductive record : Type :=
  | workout_obj (id : string) (w : workout) (exs : embed)
  | workout_id_obj (id : string)
  | exercise_obj (id : string) (e : exercise).

Inductive dataset : Type :=
  | rows (rs : list record)
  | one (r : record).

(** The [{ data, error }] pair every store call resolves to; [error] holds
    the message of the error object. *)
Record reply : Type := {
  data : option dataset;
  error : option string
}.

Record user : Type := { id : string }.

(** Outcome of [auth.getUser(token)]: the call throws, or it resolves to
    [{ data: { user }, error }]. *)
Inductive getUser_reply : Type :=
  | getUser_throws
  | getUser_resolves (user : option user) (error : option string).

End Model.

Import Model.

Notation "q |> f" := (f q) (at level 45, left associativity, only parsing).

(* ===================================================================== *)
(** * The server: middleware and route handlers *)
(* ===================================================================== *)

Module Api.

(** A handler is a program that ends in a response and, on the way, awaits
    calls to the identity service and to the store.  [Store a q k] is a call
    made through a client that presents the [Authorization] value [a]. *)
Inductive prog (R : Type) : Type :=
  | Ret (r : R)
  | GetUser (token : string) (k : getUser_reply -> prog R)
  | Store (authorization : string) (q : query) (k : reply -> prog R).
Arguments Ret {R} r.
Arguments GetUser {R} token k.
Arguments Store {R} authorization q k.

(** The part of an incoming request the server reads. [now] is the reading
    [new Date().toISOString()] gives while the request is handled. *)
Record request : Type := {
  authorization : option string;
  body : gmap string jsval;
  now : string
}.

(** [req.body.<name>]: [undefined] when the member is not there. *)
Definition field (b : gmap string jsval) (name : string) : jsval :=
  default JUndefined (b !! name).

(** What the middleware attaches: [req.supabase] (represented by the
    [Authorization] value the client was created with) and [req.user]. *)
Record session : Type := {
  req_supabase : string;
  req_user : user
}.

(** A workout of the list response: the row spread, plus [exercise_count]. *)
Record listed_workout : Type := {
  lw_row : record;
  exercise_count : nat
}.

Inductive json_body : Type :=
  | error_body (message : string)
  | message_body (message : string)
  | health_body (status message : string)
  | workouts_body (ws : list listed_workout)
  | workout_body (d : option dataset)
  | exercises_body (d : option dataset)
  | exercise_body (d : option dataset).

Record response : Type := {
  status : Z;
  json : json_body
}.

(** [res.status(code).json(b)]; [res.json(b)] is [respond 200 b]. *)
Definition respond (code : Z) (b : json_body) : response :=
  {| status := code; json := b |}.

(** Message of the [TypeError] the engine raises; its wording is the
    engine's and is not reproduced. *)
Definition type_error : string := "TypeError".

(** The [catch] block every handler ends with. *)
Definition caught (message : string) : prog response :=
  Ret (respond 500 (error_body message)).

(** ** Auth middleware *)

(** The [try] block of [authenticateUser] from the point where
    [auth.getUser(token)] has settled. *)
Definition verified (token : string) (next : session -> prog response)
    (r : getUser_reply) : prog response :=
  match r with
  | getUser_throws => Ret (respond 500 (error_body "Authentication failed"))
  | getUser_resolves (Some u) None =>
      next {| req_supabase := "Bearer " +:+ token; req_user := u |}
  | getUser_resolves _ _ => Ret (respond 401 (error_body "Invalid token"))
  end.

Definition authenticateUser (req : request) (next : session -> prog response)
  : prog response :=
  let authHeader := authorization req in
  if negb (opt_truthy authHeader) then
    Ret (respond 401 (error_body "No token provided"))
  else
    let token := h ← authHeader; split " " h !! 1%nat in
    if negb (opt_truthy token) then
      Ret (respond 401 (error_body "Invalid authorization format"))
    else
      let token := default "" token in
      GetUser token (verified token next).

(** ** Workouts routes *)

(** [w.exercises[0]?.count || 0]; [None] when evaluating it throws because
    [w.exercises] is undefined. *)
Definition exercise_count_of (w : record) : option nat :=
  match w with
  | workout_obj _ _ (embed_count (c :: _)) => Some c
  | workout_obj _ _ (embed_count []) => Some 0%nat
  | workout_obj _ _ (embed_rows _) => Some 0%nat
  | workout_obj _ _ no_embed => None
  | workout_id_obj _ => None
  | exercise_obj _ _ => None
  end.

Definition with_exercise_count (w : record) : option listed_workout :=
  c ← exercise_count_of w; Some {| lw_row := w; exercise_count := c |}.

Definition get_workouts (req : request) (s : session) : prog response :=
  Store (req_supabase s)
    (from workouts (Select star_exercise_count)
       |> eq "user_id" (id (req_user s))
       |> order "workout_date" false
       |> order "created_at" false)
    (fun r =>
       match error r with
       | Some message => caught message
       | None =>
           match data r with
           | Some (rows ds) =>
               match mapM with_exercise_count ds with
               | Some ws => Ret (respond 200 (workouts_body ws))
               | None => caught type_error
               end
           | _ => caught type_error
           end
       end).

Definition get_workout (id_param : string) (req : request) (s : session)
  : prog response :=
  Store (req_supabase s)
    (from workouts (Select star_exercises)
       |> eq "id" id_param
       |> eq "user_id" (id (req_user s))
       |> single)
    (fun r =>
       match error r with
       | Some message => caught message
       | None =>
           match data r with
           | None => Ret (respond 404 (error_body "Workout not found"))
           | Some d => Ret (respond 200 (workout_body (Some d)))
           end
       end).

Definition post_workouts (req : request) (s : session) : prog response :=
  let name := field (body req) "name" in
  let workout_date := field (body req) "workout_date" in
  let notes := field (body req) "notes" in
  if negb (truthy name) || negb (truthy workout_date) then
    Ret (respond 400 (error_body "Name and date are required"))
  else
    Store (req_supabase s)
      (from workouts
         (InsertWorkout {| wn_user_id := id (req_user s);
                           wn_name := name;
                           wn_workout_date := workout_date;
                           wn_notes := js_or notes JNull |})
         |> returning
         |> single)
      (fun r =>
         match error r with
         | Some message => caught message
         | None => Ret (respond 201 (workout_body (data r)))
         end).

Definition patch_workout (id_param : string) (req : request) (s : session)
  : prog response :=
  let name := field (body req) "name" in
  let workout_date := field (body req) "workout_date" in
  let notes := field (body req) "notes" in
  Store (req_supabase s)
    (from workouts
       (UpdateWorkout {| wp_name := name;
                         wp_workout_date := workout_date;
                         wp_notes := notes;
                         wp_updated_at := now req |})
       |> eq "id" id_param
       |> eq "user_id" (id (req_user s))
       |> returning
       |> single)
    (fun r =>
       match error r with
       | Some message => caught message
       | None => Ret (respond 200 (workout_body (data r)))
       end).

Definition delete_workout (id_param : string) (req : request) (s : session)
  : prog response :=
  Store (req_supabase s)
    (from workouts Delete
       |> eq "id" id_param
       |> eq "user_id" (id (req_user s)))
    (fun r =>
       match error r with
       | Some message => caught message
       | None => Ret (respond 200 (message_body "Workout deleted successfully"))
       end).

(** ** Exercises routes *)

Definition get_exercises (workoutId : string) (req : request) (s : session)
  : prog response :=
  Store (req_supabase s)
    (from exercises (Select star)
       |> eq "workout_id" workoutId
       |> order "created_at" true)
    (fun r =>
       match error r with
       | Some message => caught message
       | None => Ret (respond 200 (exercises_body (data r)))
       end).

Definition post_exercises (workoutId : string) (req : request) (s : session)
  : prog response :=
  let exercise_name := field (body req) "exercise_name" in
  let sets := field (body req) "sets" in
  let reps := field (body req) "reps" in
  let weight := field (body req) "weight" in
  if negb (truthy exercise_name) || negb (truthy sets) || negb (truthy reps)
     || bool_decide (weight = JUndefined) then
    Ret (respond 400 (error_body "All fields are required"))
  else
    (* Verify workout belongs to user *)
    Store (req_supabase s)
      (from workouts (Select id_only)
         |> eq "id" workoutId
         |> eq "user_id" (id (req_user s))
         |> single)
      (fun found =>
         match data found with
         | None => Ret (respond 404 (error_body "Workout not found"))
         | Some _ =>
             Store (req_supabase s)
               (from exercises
                  (InsertExercise {| en_workout_id := workoutId;
                                     en_user_id := id (req_user s);
                                     en_exercise_name := exercise_name;
                                     en_sets := parseInt sets;
                                     en_reps := parseInt reps;
                                     en_weight := parseFloat weight |})
                  |> returning
                  |> single)
               (fun r =>
                  match error r with
                  | Some message => caught message
                  | None => Ret (respond 201 (exercise_body (data r)))
                  end)
         end).

Definition patch_exercise (id_param : string) (req : request) (s : session)
  : prog response :=
  let exercise_name := field (body req) "exercise_name" in
  let sets := field (body req) "sets" in
  let reps := field (body req) "reps" in
  let weight := field (body req) "weight" in
  Store (req_supabase s)
    (from exercises
       (UpdateExercise {| ep_exercise_name := exercise_name;
                          ep_sets := parseInt sets;
                          ep_reps := parseInt reps;
                          ep_weight := parseFloat weight |})
       |> eq "id" id_param
       |> returning
       |> single)
    (fun r =>
       match error r with
       | Some message => caught message
       | None => Ret (respond 200 (exercise_body (data r)))
       end).

Definition delete_exercise (id_param : string) (req : request) (s : session)
  : prog response :=
  Store (req_supabase s)
    (from exercises Delete |> eq "id" id_param)
    (fun r =>
       match error r with
       | Some message => caught message
       | None => Ret (respond 200 (message_body "Exercise deleted successfully"))
       end).

(** ** The routing table *)

Inductive route : Type :=
  | GET_health
  | GET_workouts
  | GET_workout (id_param : string)
  | POST_workouts
  | PATCH_workout (id_param : string)
  | DELETE_workout (id_param : string)
  | GET_exercises (workoutId : string)
  | POST_exercises (workoutId : string)
  | PATCH_exercise (id_param : string)
  | DELETE_exercise (id_param : string).

(** The handler registered behind [authenticateUser] for a protected route;
    [None] for the one route registered without it. *)
Definition handler (r : route) : option (request -> session -> prog response) :=
  match r with
  | GET_health => None
  | GET_workouts => Some get_workouts
  | GET_workout i => Some (get_workout i)
  | POST_workouts => Some post_workouts
  | PATCH_workout i => Some (patch_workout i)
  | DELETE_workout i => Some (delete_workout i)
  | GET_exercises w => Some (get_exercises w)
  | POST_exercises w => Some (post_exercises w)
  | PATCH_exercise i => Some (patch_exercise i)
  | DELETE_exercise i => Some (delete_exercise i)
  end.

Definition app (r : route) (req : request) : prog response :=
  match handler r with
  | None => Ret (respond 200 (health_body "ok" "Server is running"))
  | Some h => authenticateUser req (h req)
  end.

(** ** The stack in front of the routes *)









(** ** Calls a program can make *)

(** [issues p a q]: on some run of [p] the store is sent query [q] through a
    client presenting [a]. *)
Inductive issues {R : Type} : prog R -> string -> query -> Prop :=
  | issues_here a q k : issues (Store a q k) a q
  | issues_after_store a q k r a' q' :
      issues (k r) a' q' -> issues (Store a q k) a' q'
  | issues_after_getUser t k r a' q' :
      issues (k r) a' q' -> issues (GetUser t k) a' q'.

(** [verifies p t]: on some run of [p] the identity service is sent [t]. *)
Inductive verifies {R : Type} : prog R -> string -> Prop :=
  | verifies_here t k : verifies (GetUser t k) t
  | verifies_after_store a q k r t' :
      verifies (k r) t' -> verifies (Store a q k) t'
  | verifies_after_getUser t k r t' :
      verifies (k r) t' -> verifies (GetUser t k) t'.

End Api.

Import Api.

(* ===================================================================== *)
(** * The external collaborators: identity service and row store *)
(* ===================================================================== *)

(** The store is a hosted service and no code of it is in the repository.
    What follows is a reference semantics of the builder calls the handlers
    make, after the documented contract of the client library:
    - a table is a finite map from primary key to row; the store chooses the
      key and the creation time of an inserted row;
    - [.eq] keeps the rows whose column equals the value; [.order] sorts;
    - [.single()] turns a result of exactly one row into that row and any
      other result into an error with [data = null]; a mutation whose
      result fails this check is rolled back;
    - a mutation without [.select()] resolves to [data = null];
    - a payload travels as JSON: an [undefined] member is dropped, [NaN] and
      the infinities become [null];
    - deleting a workout deletes the exercises that reference it.
    Row-level policies and column types are declared outside the repository
    and are not modelled: every row is visible to every client, a cell
    holds whatever value the payload carried, and a query fails only when
    it names a column the model does not know or misses [.single()]. *)

Module Backend.

Record db : Type := {
  db_workouts : gmap string workout;
  db_exercises : gmap string exercise;
  db_clock : nat
}.

(** ** JSON encoding of payload members *)

Definition json_num (n : jsnum) : jsval :=
  match n with
  | Fin _ _ => JNum n
  | _ => JNull
  end.

Definition json_member (v : jsval) : option jsval :=
  match v with
  | JUndefined => None
  | JNum n => Some (json_num n)
  | _ => Some v
  end.

(** ** Filters *)

Definition workout_has (i : string) (w : workout) (f : string * string) : bool :=
  if bool_decide (f.1 = "id") then bool_decide (i = f.2)
  else if bool_decide (f.1 = "user_id") then bool_decide (w_user_id w = f.2)
  else false.

Definition exercise_has (i : string) (e : exercise) (f : string * string) : bool :=
  if bool_decide (f.1 = "id") then bool_decide (i = f.2)
  else if bool_decide (f.1 = "user_id") then bool_decide (e_user_id e = f.2)
  else if bool_decide (f.1 = "workout_id") then bool_decide (e_workout_id e = f.2)
  else false.

Definition workout_matches (fs : list (string * string)) (r : string * workout) : bool :=
  forallb (workout_has r.1 r.2) fs.

Definition exercise_matches (fs : list (string * string)) (r : string * exercise) : bool :=
  forallb (exercise_has r.1 r.2) fs.

Definition filter_columns (t : table) : list string :=
  match t with
  | workouts => ["id"; "user_id"]
  | exercises => ["id"; "user_id"; "workout_id"]
  end.

Definition order_columns (t : table) : list string :=
  match t with
  | workouts => ["workout_date"; "created_at"]
  | exercises => ["created_at"]
  end.

Definition columns_known (q : query) : bool :=
  forallb (fun f => bool_decide (f.1 ∈ filter_columns (q_from q))) (q_eq q) &&
  forallb (fun o => bool_decide (o.1 ∈ order_columns (q_from q))) (q_order q).

(** ** Ordering *)

(** Lexicographic comparison of sort keys. *)
Fixpoint lex_leb (xs ys : list Z) : bool :=
  match xs, ys with
  | x :: xs', y :: ys' => (x <? y) || ((x =? y) && lex_leb xs' ys')
  | _, _ => true
  end.

Definition directed (ascending : bool) (k : Z) : Z := if ascending then k else - k.

Section Sorting.

Context {A : Type} (key : string -> A -> Z).

Definition sort_key (os : list (string * bool)) (a : A) : list Z :=
  map (fun o => directed o.2 (key o.1 a)) os.

Definition before (os : list (string * bool)) : relation A :=
  fun a b => lex_leb (sort_key os a) (sort_key os b) = true.

Global Instance before_dec os a b : Decision (before os a b).
Proof. unfold before. apply _. Defined.

Definition sorted_by (os : list (string * bool)) (l : list A) : list A :=
  merge_sort (before os) l.

End Sorting.

Section Store.

(** The store's reading of a [workout_date] cell as a day number. *)
Variable date_rank : jsval -> Z.

Definition workout_key (column : string) (r : string * workout) : Z :=
  if bool_decide (column = "workout_date") then date_rank (w_workout_date r.2)
  else Z.of_nat (w_created_at r.2).

Definition exercise_key (column : string) (r : string * exercise) : Z :=
  Z.of_nat (e_created_at r.2).

(** ** Results *)

Definition exercises_of (d : db) (workout_id : string) : list (string * exercise) :=
  map_to_list (filter (fun r => e_workout_id r.2 = workout_id) (db_exercises d)).

Definition project_workout (d : db) (cols : columns) (r : string * workout) : record :=
  match cols with
  | star => workout_obj r.1 r.2 no_embed
  | star_exercise_count =>
      workout_obj r.1 r.2 (embed_count [length (exercises_of d r.1)])
  | star_exercises => workout_obj r.1 r.2 (embed_rows (exercises_of d r.1))
  | id_only => workout_id_obj r.1
  end.

Definition project_exercise (r : string * exercise) : record :=
  exercise_obj r.1 r.2.

Definition cardinality_error : string :=
  "JSON object requested, multiple (or no) rows returned".
Definition unknown_column : string := "column does not exist".
Definition bad_request : string := "request does not fit the table".

Definition ok (ds : dataset) : reply := {| data := Some ds; error := None |}.
Definition no_data : reply := {| data := None; error := None |}.
Definition failed (message : string) : reply :=
  {| data := None; error := Some message |}.

(** Shape the result [rs] of a query that leaves the store as [after];
    [before_] is the store to fall back to when [.single()] fails. *)
Definition conclude (q : query) (represented : bool) (rs : list record)
    (after before_ : db) : reply * db :=
  if represented then
    if q_single q then
      match rs with
      | [r] => (ok (one r), after)
      | _ => (failed cardinality_error, before_)
      end
    else (ok (rows rs), after)
  else (no_data, after).

(** ** Mutations of a row *)

Definition new_workout (d : db) (r : workout_new) : workout :=
  {| w_user_id := wn_user_id r;
     w_name := default JNull (json_member (wn_name r));
     w_workout_date := default JNull (json_member (wn_workout_date r));
     w_notes := default JNull (json_member (wn_notes r));
     w_created_at := db_clock d;
     w_updated_at := JNull |}.

Definition patched_workout (p : workout_patch) (w : workout) : workout :=
  {| w_user_id := w_user_id w;
     w_name := default (w_name w) (json_member (wp_name p));
     w_workout_date := default (w_workout_date w) (json_member (wp_workout_date p));
     w_notes := default (w_notes w) (json_member (wp_notes p));
     w_created_at := w_created_at w;
     w_updated_at := JStr (wp_updated_at p) |}.

Definition new_exercise (d : db) (r : exercise_new) : exercise :=
  {| e_workout_id := en_workout_id r;
     e_user_id := en_user_id r;
     e_exercise_name := default JNull (json_member (en_exercise_name r));
     e_sets := json_num (en_sets r);
     e_reps := json_num (en_reps r);
     e_weight := json_num (en_weight r);
     e_created_at := db_clock d |}.

Definition patched_exercise (p : exercise_patch) (e : exercise) : exercise :=
  {| e_workout_id := e_workout_id e;
     e_user_id := e_user_id e;
     e_exercise_name := default (e_exercise_name e) (json_member (ep_exercise_name p));
     e_sets := json_num (ep_sets p);
     e_reps := json_num (ep_reps p);
     e_weight := json_num (ep_weight p);
     e_created_at := e_created_at e |}.

(** ** Executing one query *)

Definition exec_workouts (q : query) (d : db) : reply * db :=
  let hit := workout_matches (q_eq q) in
  match q_verb q with
  | Select cols =>
      let found := sorted_by workout_key (q_order q)
                     (map_to_list (filter (fun r => hit r = true) (db_workouts d))) in
      conclude q true (map (project_workout d cols) found) d d
  | InsertWorkout r =>
      let i := fresh_string "w" (db_workouts d) in
      let w := new_workout d r in
      conclude q (q_returning q) [workout_obj i w no_embed]
        {| db_workouts := <[i := w]> (db_workouts d);
           db_exercises := db_exercises d;
           db_clock := S (db_clock d) |} d
  | UpdateWorkout p =>
      let after_ := {| db_workouts :=
                         map_imap (fun i w => Some (if hit (i, w) then patched_workout p w else w))
                                  (db_workouts d);
                       db_exercises := db_exercises d;
                       db_clock := db_clock d |} in
      let changed := map_to_list (patched_workout p <$>
                        filter (fun r => hit r = true) (db_workouts d)) in
      conclude q (q_returning q) (map (project_workout after_ star) changed) after_ d
  | Delete =>
      let gone := filter (fun r => hit r = true) (db_workouts d) in
      conclude q (q_returning q) (map (project_workout d star) (map_to_list gone))
        {| db_workouts := filter (fun r => hit r = false) (db_workouts d);
           db_exercises := filter (fun r => gone !! e_workout_id r.2 = None) (db_exercises d);
           db_clock := db_clock d |} d
  | InsertExercise _ | UpdateExercise _ => (failed bad_request, d)
  end.

Definition exec_exercises (q : query) (d : db) : reply * db :=
  let hit := exercise_matches (q_eq q) in
  match q_verb q with
  | Select star =>
      let found := sorted_by exercise_key (q_order q)
                     (map_to_list (filter (fun r => hit r = true) (db_exercises d))) in
      conclude q true (map project_exercise found) d d
  | Select _ => (failed bad_request, d)
  | InsertExercise r =>
      let i := fresh_string "e" (db_exercises d) in
      let e := new_exercise d r in
      conclude q (q_returning q) [exercise_obj i e]
        {| db_workouts := db_workouts d;
           db_exercises := <[i := e]> (db_exercises d);
           db_clock := S (db_clock d) |} d
  | UpdateExercise p =>
      let changed := map_to_list (patched_exercise p <$>
                        filter (fun r => hit r = true) (db_exercises d)) in
      conclude q (q_returning q) (map project_exercise changed)
        {| db_workouts := db_workouts d;
           db_exercises :=
             map_imap (fun i e => Some (if hit (i, e) then patched_exercise p e else e))
                      (db_exercises d);
           db_clock := db_clock d |} d
  | Delete =>
      let gone := filter (fun r => hit r = true) (db_exercises d) in
      conclude q (q_returning q) (map project_exercise (map_to_list gone))
        {| db_workouts := db_workouts d;
           db_exercises := filter (fun r => hit r = false) (db_exercises d);
           db_clock := db_clock d |} d
  | InsertWorkout _ | UpdateWorkout _ => (failed bad_request, d)
  end.

Definition exec (q : query) (d : db) : reply * db :=
  if columns_known q then
    match q_from q with
    | workouts => exec_workouts q d
    | exercises => exec_exercises q d
    end
  else (failed unknown_column, d).

(** ** Running a handler *)

(** The identity service: what [auth.getUser] does with each token. *)
Variable getUser : string -> getUser_reply.

Fixpoint run {R : Type} (p : prog R) (d : db) : R * db :=
  match p with
  | Ret r => (r, d)
  | GetUser token k => run (k (getUser token)) d
  | Store _ q k => let '(r, d') := exec q d in run (k r) d'
  end.

(** The queries a run sends to the store, in order. *)
Fixpoint sent {R : Type} (p : prog R) (d : db) : list query :=
  match p with
  | Ret _ => []
  | GetUser token k => sent (k (getUser token)) d
  | Store _ q k => let '(r, d') := exec q d in q :: sent (k r) d'
  end.

End Store.

End Backend.

Import Backend.

(* ===================================================================== *)
(** * Observations on programs *)
(* ===================================================================== *)


(** A request that passes the middleware, and the session it is given. *)
Definition authenticated (getUser : string -> getUser_reply)
    (req : request) (s : session) : Prop :=
  exists header token u,
    authorization req = Some header /\
    split " " header !! 1%nat = Some token /\ token <> "" /\
    getUser token = getUser_resolves (Some u) None /\
    s = {| req_supabase := "Bearer " +:+ token; req_user := u |}.

(** No space character occurs in [s]. *)
Fixpoint spaceless (s : string) : bool :=
  match s with
  | EmptyString => true
  | String c rest => negb (Ascii.eqb c " ") && spaceless rest
  end.



(** The text of the decimal digits [ds]. *)
Definition numeral (ds : list Z) : string :=
  fold_right (fun d s => String (pretty_N_char (Z.to_N d)) s) EmptyString ds.

(** [n] is a number as the engine holds it: a finite one is the printed
    form of a double. *)
Definition is_double (n : jsnum) : Prop :=
  match n with
  | Fin m e => double (m <? 0) (Z.abs m) e = Fin m e
  | _ => True
  end.

(** [cell] holds member [v] coerced to an integer: a whole number below
    [10^21] in size is kept, a number of at least [10^-6] in size with a
    fraction loses the fraction, a decimal numeral in a string gives its
    number; and whatever [v] is, [cell] is [null] or the Number value of an
    integer. *)
Definition integer_coercion (v cell : jsval) : Prop :=
  (forall m x, v = JNum (Fin m x) -> is_double (Fin m x) ->
     m <> 0 -> 0 <= x -> Z.abs m * 10 ^ x < 10 ^ 21 -> cell = JNum (Fin m x)) /\
  (forall m x, v = JNum (Fin m x) ->
     m <> 0 -> x < 0 -> 10 ^ (- x) <= Z.abs m * 10 ^ 6 -> Z.abs m < 10 ^ (21 - x) ->
     cell = json_num (double (m <? 0) (Z.abs m / 10 ^ (- x)) 0)) /\
  (forall z, v = JStr (pretty z) -> z <> 0 ->
     cell = json_num (double (z <? 0) (Z.abs z) 0)) /\
  (cell = JNull \/
   exists (negative : bool) z, 0 <= z /\ cell = json_num (double negative z 0)).

(** [cell] holds member [v] coerced to a decimal: a finite number is kept
    as it is, and a string that holds the text of a finite number gives
    that number. *)
Definition decimal_coercion (v cell : jsval) : Prop :=
  (forall n, v = JNum n -> is_double n -> (exists m x, n = Fin m x) ->
     cell = JNum n) /\
  (forall n, v = JStr (num_to_string n) -> is_double n -> (exists m x, n = Fin m x) ->
     cell = JNum n).

(* ===================================================================== *)
(** * A small world to run the server in *)
(* ===================================================================== *)

Module Sample.

(** Two accounts, [alice] and [bob]; an identity service that knows one
    token of each, fails on ["down"] and rejects everything else. *)
Definition alice : user := {| id := "alice" |}.
Definition bob : user := {| id := "bob" |}.

Definition getUser (token : string) : getUser_reply :=
  if bool_decide (token = "tok-alice") then getUser_resolves (Some alice) None
  else if bool_decide (token = "tok-bob") then getUser_resolves (Some bob) None
  else if bool_decide (token = "xyz") then getUser_resolves (Some bob) None
  else if bool_decide (token = "down") then getUser_throws
  else getUser_resolves None (Some "invalid JWT").

(** Dates are ranked by their day of the month: enough to tell the days
    of the sample, all of one month, apart. *)
Definition date_rank (v : jsval) : Z :=
  match parseInt (JStr (substring 8 2 (to_string v))) with
  | Fin m _ => m
  | _ => 0
  end.

Definition request_of (auth : option string) (b : gmap string jsval) : request :=
  {| authorization := auth; body := b; now := "2024-02-01T08:00:00.000Z" |}.

Definition as_alice : gmap string jsval -> request := request_of (Some "Bearer tok-alice").
Definition as_bob : gmap string jsval -> request := request_of (Some "Bearer tok-bob").

Definition alice_session : session :=
  {| req_supabase := "Bearer tok-alice"; req_user := alice |}.
Definition bob_session : session :=
  {| req_supabase := "Bearer tok-bob"; req_user := bob |}.

Definition leg_day : workout :=
  {| w_user_id := "alice"; w_name := JStr "Leg Day";
     w_workout_date := JStr "2024-01-01"; w_notes := JNull;
     w_created_at := 0; w_updated_at := JNull |}.

Definition push_day : workout :=
  {| w_user_id := "alice"; w_name := JStr "Push Day";
     w_workout_date := JStr "2024-01-03"; w_notes := JStr "heavy";
     w_created_at := 1; w_updated_at := JNull |}.

Definition bob_run : workout :=
  {| w_user_id := "bob"; w_name := JStr "Run";
     w_workout_date := JStr "2024-01-02"; w_notes := JNull;
     w_created_at := 2; w_updated_at := JNull |}.

Definition squat : exercise :=
  {| e_workout_id := "w"; e_user_id := "alice"; e_exercise_name := JStr "Squat";
     e_sets := JNum (Fin 3 0); e_reps := JNum (Fin 10 0);
     e_weight := JNum (Fin 725 (-1)); e_created_at := 3 |}.

Definition lunge : exercise :=
  {| e_workout_id := "w"; e_user_id := "alice"; e_exercise_name := JStr "Lunge";
     e_sets := JNum (Fin 2 0); e_reps := JNum (Fin 12 0);
     e_weight := JNum (Fin 0 0); e_created_at := 4 |}.

Definition empty_db : db :=
  {| db_workouts := ∅; db_exercises := ∅; db_clock := 0 |}.

Definition gym : db :=
  {| db_workouts := {[ "w" := leg_day; "w0" := push_day; "w1" := bob_run ]};
     db_exercises := {[ "e" := squat; "e0" := lunge ]};
     db_clock := 5 |}.

Definition new_workout_body : gmap string jsval :=
  {[ "name" := JStr "Pull Day"; "workout_date" := JStr "2024-01-05" ]}.

Definition bodyweight_body : gmap string jsval :=
  {[ "exercise_name" := JStr "Plank"; "sets" := JNum (Fin 3 0);
     "reps" := JStr "1"; "weight" := JNum (Fin 0 0) ]}.

Definition no_weight_body : gmap string jsval :=
  {[ "exercise_name" := JStr "Plank"; "sets" := JNum (Fin 3 0);
     "reps" := JStr "1" ]}.

End Sample.

(* ===================================================================== *)
(** * Vocabulary of the statements *)
(* ===================================================================== *)

Section Vocabulary.

Variable date_rank : jsval -> Z.

(** The body passes the field check of [POST .../exercises]. *)
Definition passes_validation (b : gmap string jsval) : Prop :=
  truthy (field b "exercise_name") = true /\ truthy (field b "sets") = true /\
  truthy (field b "reps") = true /\ field b "weight" <> JUndefined.

(** The store after [.delete().eq('id', i).eq('user_id', u)] on [workouts]. *)
Definition without_workout (d : db) (i u : string) : db :=
  let hit := workout_matches [("id", i); ("user_id", u)] in
  {| db_workouts := filter (fun r => hit r = false) (db_workouts d);
     db_exercises :=
       filter (fun r => filter (fun r => hit r = true) (db_workouts d)
                          !! e_workout_id r.2 = None) (db_exercises d);
     db_clock := db_clock d |}.

(** The object [patch_exercise] hands to [.update]. *)
Definition coerced (b : gmap string jsval) : exercise_patch :=
  {| ep_exercise_name := field b "exercise_name";
     ep_sets := parseInt (field b "sets");
     ep_reps := parseInt (field b "reps");
     ep_weight := parseFloat (field b "weight") |}.

(** A query is scoped to [u] when it carries [.eq('user_id', u)]. *)
Definition scoped_to (u : string) (q : query) : Prop := ("user_id", u) ∈ q_eq q.

(** The number of exercise rows whose [workout_id] is [i]. *)
Definition exercise_rows (d : db) (i : string) : nat :=
  size (filter (fun r => e_workout_id r.2 = i) (db_exercises d)).

Definition record_id (r : record) : string :=
  match r with
  | workout_obj i _ _ => i
  | workout_id_obj i => i
  | exercise_obj i _ => i
  end.

Definition workout_of (lw : listed_workout) : option workout :=
  match lw_row lw with
  | workout_obj _ w _ => Some w
  | _ => None
  end.

(** [a] may come before [b] in the list: its date is later, or the dates
    are the same and it was not created earlier. *)
Definition newest_first (a b : listed_workout) : Prop :=
  match workout_of a, workout_of b with
  | Some wa, Some wb =>
      date_rank (w_workout_date wb) < date_rank (w_workout_date wa) \/
      (date_rank (w_workout_date wb) = date_rank (w_workout_date wa) /\
       (w_created_at wb <= w_created_at wa)%nat)
  | _, _ => False
  end.

Definition listed (d : db) (r : string * workout) : listed_workout :=
  {| lw_row := workout_obj r.1 r.2 (embed_count [exercise_rows d r.1]);
     exercise_count := exercise_rows d r.1 |}.

Definition list_order : list (string * bool) :=
  [("workout_date", false); ("created_at", false)].

(** The rows the list query finds, in the order it returns them. *)
Definition own_workouts (d : db) (u : string) : list (string * workout) :=
  sorted_by (workout_key date_rank) list_order
    (map_to_list
       (filter (fun r => workout_matches [("user_id", u)] r = true) (db_workouts d))).

(** The row a validated request adds. *)
Definition requested_exercise (req : request) (s : session) (wid : string)
  : exercise_new :=
  {| en_workout_id := wid;
     en_user_id := id (req_user s);
     en_exercise_name := field (body req) "exercise_name";
     en_sets := parseInt (field (body req) "sets");
     en_reps := parseInt (field (body req) "reps");
     en_weight := parseFloat (field (body req) "weight") |}.

End Vocabulary.

(* ===================================================================== *)
(** * The frontend: forms and view state *)
(* ===================================================================== *)

(** The components of [App.jsx] that decide something: the two forms, the
    delete button of the list and the state handlers of the dashboard.  A
    click handler is a function of the component state and the store; it
    reaches the server through [server], the HTTP client: the data object
    travels as JSON, and a status outside 200..299 makes the client throw. *)

Module Ui.

(** The [Authorization] header every call is given: the text [Bearer],
    a space, and [session.access_token]. *)
Definition bearer (access_token : string) : string := "Bearer " +:+ access_token.

(** A data object as the server reads it back from the wire. *)
Definition json_data (data : gmap string jsval) : gmap string jsval :=
  omap json_member data.

Definition resolves (resp : response) : bool :=
  (200 <=? status resp) && (status resp <? 300).

(** [error.message] of the error the client throws on another status. *)
Definition rejection (resp : response) : string :=
  "Request failed with status code " +:+ pretty (status resp).

(** What a click leaves behind: the component state, the text of the alert
    it raised, the value it handed to its [on...] callback, the store. *)
Record outcome (S : Type) : Type := {
  state_after : S;
  alert : option string;
  handed : option (option dataset);
  store_after : db
}.
Arguments state_after {S} _.
Arguments alert {S} _.
Arguments handed {S} _.
Arguments store_after {S} _.

(** State of [ExerciseForm]: the four inputs hold text. *)
Record exercise_form : Type := {
  f_exercise : string;
  f_sets : string;
  f_reps : string;
  f_weight : string;
  f_loading : bool
}.

(** State of [CreateWorkoutModal]. *)
Record workout_form : Type := {
  c_name : string;
  c_date : string;
  c_notes : string;
  c_loading : bool
}.

(** A workout object held by the dashboard: an element of the list
    response, or whatever [response.data.workout] was after a creation. *)
Inductive item : Type :=
  | listed_item (lw : listed_workout)
  | created_item (w : option dataset).

(** [workout.id]; [None] when the object has no such member. *)
Definition item_id (w : item) : option string :=
  match w with
  | listed_item lw =>
      match lw_row lw with
      | workout_obj i _ _ | workout_id_obj i | exercise_obj i _ => Some i
      end
  | created_item (Some (one (workout_obj i _ _)))
  | created_item (Some (one (workout_id_obj i)))
  | created_item (Some (one (exercise_obj i _))) => Some i
  | created_item _ => None
  end.

(** [workout.exercise_count] *)
Definition item_count (w : item) : option nat :=
  match w with
  | listed_item lw => Some (exercise_count lw)
  | created_item _ => None
  end.

(** State of [Dashboard]. *)
Record dashboard : Type := {
  shown : list item;
  selectedWorkout : option item;
  showCreateModal : bool;
  loading : bool
}.

(** An exercise object held by [WorkoutDetail]: an element of the list
    response, or whatever [response.data.exercise] was after an addition. *)
Inductive entry : Type :=
  | fetched_entry (r : record)
  | added_entry (e : option dataset).

(** [e.id]; [None] when the object has no such member. *)
Definition entry_id (e : entry) : option string :=
  match e with
  | fetched_entry (workout_obj i _ _)
  | fetched_entry (workout_id_obj i)
  | fetched_entry (exercise_obj i _)
  | added_entry (Some (one (workout_obj i _ _)))
  | added_entry (Some (one (workout_id_obj i)))
  | added_entry (Some (one (exercise_obj i _))) => Some i
  | added_entry _ => None
  end.

(** State of [WorkoutDetail]. *)
Record detail : Type := {
  exercises_shown : list entry;
  detail_loading : bool
}.

(** [workout.id] inside a template literal. *)
Definition path_id (workout : item) : string :=
  match item_id workout with
  | Some i => i
  | None => "undefined"
  end.

Section Components.

Variable server : route -> request -> db -> response * db.

(** The server's clock while it handles the call. *)
Variable server_time : string.

Definition call (r : route) (access_token : string) (data : gmap string jsval)
    (d : db) : response * db :=
  server r {| authorization := Some (bearer access_token);
              body := json_data data;
              now := server_time |} d.

(** ** ExerciseForm *)

Definition exercise_data (f : exercise_form) : gmap string jsval :=
  {[ "exercise_name" := JStr (f_exercise f);
     "sets" := JNum (parseInt (JStr (f_sets f)));
     "reps" := JNum (parseInt (JStr (f_reps f)));
     "weight" := JNum (parseFloat (JStr (f_weight f))) ]}.

Definition handleAdd (access_token workoutId : string) (f : exercise_form) (d : db)
  : outcome exercise_form :=
  if negb (str_truthy (f_exercise f)) || negb (str_truthy (f_sets f))
     || negb (str_truthy (f_reps f)) || negb (str_truthy (f_weight f)) then
    {| state_after := f; alert := Some "Please fill in all fields";
       handed := None; store_after := d |}
  else
    let '(resp, d') := call (POST_exercises workoutId) access_token (exercise_data f) d in
    if resolves resp then
      {| state_after := {| f_exercise := ""; f_sets := ""; f_reps := "";
                           f_weight := ""; f_loading := false |};
         alert := None;
         handed := Some (match json resp with exercise_body e => e | _ => None end);
         store_after := d' |}
    else
      {| state_after := {| f_exercise := f_exercise f; f_sets := f_sets f;
                           f_reps := f_reps f; f_weight := f_weight f;
                           f_loading := false |};
         alert := Some ("Error adding exercise: " +:+ rejection resp);
         handed := None; store_after := d' |}.

(** ** CreateWorkoutModal *)

Definition workout_data (f : workout_form) : gmap string jsval :=
  {[ "name" := JStr (c_name f);
     "workout_date" := JStr (c_date f);
     "notes" := JStr (c_notes f) ]}.

Definition handleCreate (access_token : string) (f : workout_form) (d : db)
  : outcome workout_form :=
  if negb (str_truthy (c_name f)) then
    {| state_after := f; alert := Some "Please enter a workout name";
       handed := None; store_after := d |}
  else
    let '(resp, d') := call POST_workouts access_token (workout_data f) d in
    let f' := {| c_name := c_name f; c_date := c_date f; c_notes := c_notes f;
                 c_loading := false |} in
    if resolves resp then
      {| state_after := f'; alert := None;
         handed := Some (match json resp with workout_body w => w | _ => None end);
         store_after := d' |}
    else
      {| state_after := f';
         alert := Some ("Error creating workout: " +:+ rejection resp);
         handed := None; store_after := d' |}.

(** ** WorkoutsList *)

(** The delete button of a card: [confirmed] is the user's answer to the
    confirmation dialog; the result tells whether [onDeleteWorkout(id)] was
    called. *)
Definition handleDelete (confirmed : bool) (access_token id_ : string) (d : db)
  : bool * option string * db :=
  if negb confirmed then (false, None, d)
  else
    let '(resp, d') := call (DELETE_workout id_) access_token ∅ d in
    if resolves resp then (true, None, d')
    else (false, Some ("Error deleting workout: " +:+ rejection resp), d').

(** ** Dashboard *)

Definition handleWorkoutCreated (workout : item) (st : dashboard) : dashboard :=
  {| shown := workout :: shown st;
     selectedWorkout := Some workout;
     showCreateModal := showCreateModal st;
     loading := loading st |}.

Definition handleDeleteWorkout (id_ : string) (st : dashboard) : dashboard :=
  {| shown := filter (fun w => item_id w <> Some id_) (shown st);
     selectedWorkout :=
       match selectedWorkout st with
       | Some w => if bool_decide (item_id w = Some id_) then None else Some w
       | None => None
       end;
     showCreateModal := showCreateModal st;
     loading := loading st |}.

(** [fetchWorkouts]; [None] when a resolved response has no [workouts]
    array to put into the state. *)
Definition fetchWorkouts (access_token : string) (st : dashboard) (d : db)
  : option (dashboard * db) :=
  let '(resp, d') := call GET_workouts access_token ∅ d in
  let settled (ws : list item) :=
    {| shown := ws; selectedWorkout := selectedWorkout st;
       showCreateModal := showCreateModal st; loading := false |} in
  if resolves resp then
    match json resp with
    | workouts_body ws => Some (settled (listed_item <$> ws), d')
    | _ => None
    end
  else Some (settled (shown st), d').

(** The modal as the dashboard mounts it: [onWorkoutCreated] is
    [handleWorkoutCreated] and [onClose] hides the modal. *)
Definition create_clicked (access_token : string) (f : workout_form)
    (st : dashboard) (d : db) : dashboard * outcome workout_form :=
  let o := handleCreate access_token f d in
  match handed o with
  | Some w =>
      let st' := handleWorkoutCreated (created_item w) st in
      ({| shown := shown st'; selectedWorkout := selectedWorkout st';
          showCreateModal := false; loading := loading st' |}, o)
  | None => (st, o)
  end.

(** The list as the dashboard mounts it: [onDeleteWorkout] is
    [handleDeleteWorkout]. *)
Definition delete_clicked (confirmed : bool) (access_token id_ : string)
    (st : dashboard) (d : db) : dashboard * option string * db :=
  let '(called, alerted, d') := handleDelete confirmed access_token id_ d in
  (if called then handleDeleteWorkout id_ st else st, alerted, d').

(** ** ExercisesList *)

(** The delete button of an exercise: [confirmed] is the user's answer to
    the confirmation dialog; the result tells whether
    [onDeleteExercise(id)] was called. *)
Definition ExercisesList_handleDelete (confirmed : bool)
    (access_token id_ : string) (d : db) : bool * option string * db :=
  if negb confirmed then (false, None, d)
  else
    let '(resp, d') := call (DELETE_exercise id_) access_token ∅ d in
    if resolves resp then (true, None, d')
    else (false, Some ("Error deleting exercise: " +:+ rejection resp), d').

(** ** WorkoutDetail *)

(** [fetchExercises]; [None] when a resolved response has no [exercises]
    array to put into the state. *)
Definition fetchExercises (access_token : string) (workout : item)
    (st : detail) (d : db) : option (detail * db) :=
  let '(resp, d') := call (GET_exercises (path_id workout)) access_token ∅ d in
  if resolves resp then
    match json resp with
    | exercises_body (Some (rows rs)) =>
        Some ({| exercises_shown := fetched_entry <$> rs;
                 detail_loading := false |}, d')
    | _ => None
    end
  else Some ({| exercises_shown := exercises_shown st;
                detail_loading := false |}, d').

Definition handleExerciseAdded (exercise : option dataset) (st : detail) : detail :=
  {| exercises_shown := (exercises_shown st ++ [added_entry exercise])%list;
     detail_loading := detail_loading st |}.

Definition handleDeleteExercise (id_ : string) (st : detail) : detail :=
  {| exercises_shown := filter (fun e => entry_id e <> Some id_) (exercises_shown st);
     detail_loading := detail_loading st |}.

(** The form as the detail view mounts it: [workoutId] is [workout.id] and
    [onExerciseAdded] is [handleExerciseAdded]. *)
Definition add_clicked (access_token : string) (workout : item)
    (f : exercise_form) (st : detail) (d : db) : detail * outcome exercise_form :=
  let o := handleAdd access_token (path_id workout) f d in
  match handed o with
  | Some e => (handleExerciseAdded e st, o)
  | None => (st, o)
  end.

(** The exercise list as the detail view mounts it: [onDeleteExercise] is
    [handleDeleteExercise]. *)
Definition exercise_delete_clicked (confirmed : bool) (access_token id_ : string)
    (st : detail) (d : db) : detail * option string * db :=
  let '(called, alerted, d') :=
    ExercisesList_handleDelete confirmed access_token id_ d in
  (if called then handleDeleteExercise id_ st else st, alerted, d').

End Components.

End Ui.

Import Ui.

(* ===================================================================== *)
(** * Vocabulary of the store's evolution *)
(* ===================================================================== *)

(** One step of the store on behalf of caller [u]: nothing; a workout of
    [u] added under a free key, changed in place or removed with the
    exercises that reference it; an exercise added to a workout of [u]; an
    exercise of anybody changed in place or removed. *)
Inductive touches (u : string) (d : db) : db -> Prop :=
  | touches_nothing : touches u d d
  | adds_workout i w :
      db_workouts d !! i = None -> w_user_id w = u ->
      touches u d {| db_workouts := <[i := w]> (db_workouts d);
                     db_exercises := db_exercises d;
                     db_clock := S (db_clock d) |}
  | edits_workout i w w' :
      db_workouts d !! i = Some w -> w_user_id w = u ->
      w_user_id w' = u -> w_created_at w' = w_created_at w ->
      touches u d {| db_workouts := <[i := w']> (db_workouts d);
                     db_exercises := db_exercises d;
                     db_clock := db_clock d |}
  | drops_workout i w :
      db_workouts d !! i = Some w -> w_user_id w = u ->
      touches u d {| db_workouts := delete i (db_workouts d);
                     db_exercises :=
                       filter (fun r => e_workout_id r.2 <> i) (db_exercises d);
                     db_clock := db_clock d |}
  | adds_exercise i e w :
      db_exercises d !! i = None ->
      db_workouts d !! e_workout_id e = Some w -> w_user_id w = u ->
      e_user_id e = u ->
      touches u d {| db_workouts := db_workouts d;
                     db_exercises := <[i := e]> (db_exercises d);
                     db_clock := S (db_clock d) |}
  | edits_exercise i e e' :
      db_exercises d !! i = Some e ->
      e_workout_id e' = e_workout_id e -> e_user_id e' = e_user_id e ->
      e_created_at e' = e_created_at e ->
      touches u d {| db_workouts := db_workouts d;
                     db_exercises := <[i := e']> (db_exercises d);
                     db_clock := db_clock d |}
  | drops_exercise i :
      touches u d {| db_workouts := db_workouts d;
                     db_exercises := delete i (db_exercises d);
                     db_clock := db_clock d |}.

(** Every exercise references a workout that exists and has its owner. *)
Definition consistent (d : db) : Prop :=
  forall i e, db_exercises d !! i = Some e ->
    exists w, db_workouts d !! e_workout_id e = Some w /\
              w_user_id w = e_user_id e.

Definition is_get (r : route) : bool :=
  match r with
  | GET_health | GET_workouts | GET_workout _ | GET_exercises _ => true
  | _ => false
  end.


Definition is_error (b : json_body) : bool :=
  match b with
  | error_body _ => true
  | _ => false
  end.

(** The rows the exercise list query finds, in the order it returns them. *)
Definition workout_exercises (d : db) (wid : string) : list (string * exercise) :=
  sorted_by exercise_key [("created_at", true)]
    (map_to_list
       (filter (fun r => exercise_matches [("workout_id", wid)] r = true)
               (db_exercises d))).

(** The object [patch_workout] hands to [.update]. *)
Definition workout_changes (req : request) : workout_patch :=
  {| wp_name := field (body req) "name";
     wp_workout_date := field (body req) "workout_date";
     wp_notes := field (body req) "notes";
     wp_updated_at := now req |}.

(** The row [post_workouts] hands to [.insert]. *)
Definition requested_workout (req : request) (s : session) : workout_new :=
  {| wn_user_id := id (req_user s);
     wn_name := field (body req) "name";
     wn_workout_date := field (body req) "workout_date";
     wn_notes := js_or (field (body req) "notes") JNull |}.

(** The dashboard lists the keys of exactly the workouts [u] owns, each
    once, and every object it lists has a key. *)
Definition in_step (u : string) (st : dashboard) (d : db) : Prop :=
  (forall i, Some i ∈ item_id <$> shown st <->
     exists w, db_workouts d !! i = Some w /\ w_user_id w = u) /\
  NoDup (item_id <$> shown st) /\
  None ∉ item_id <$> shown st.

(** The workout shown in detail, if any, is one of the listed ones. *)
Definition selection_listed (st : dashboard) : Prop :=
  forall w, selectedWorkout st = Some w -> w ∈ shown st.

(** The detail view lists the keys of exactly the exercise rows that
    reference workout [wid], each once, and every object it lists has a
    key. *)
Definition detail_in_step (wid : string) (st : detail) (d : db) : Prop :=
  (forall i, Some i ∈ entry_id <$> exercises_shown st <->
     exists e, db_exercises d !! i = Some e /\ e_workout_id e = wid) /\
  NoDup (entry_id <$> exercises_shown st) /\
  None ∉ entry_id <$> exercises_shown st.


(** The server the frontend talks to. *)
Definition backend (date_rank : jsval -> Z) (getUser : string -> getUser_reply)
    (r : route) (req : request) (d : db) : response * db :=
  run date_rank getUser (app r req) d.

(** The access token of a signed-in user: text without a space that the
    identity service resolves to [u]. *)
Definition signed_in (getUser : string -> getUser_reply) (access_token : string)
    (u : user) : Prop :=
  spaceless access_token = true /\ access_token <> "" /\
  getUser access_token = getUser_resolves (Some u) None.

(** The form with its inputs emptied, as [handleAdd] leaves it. *)
Definition emptied : exercise_form :=
  {| f_exercise := ""; f_sets := ""; f_reps := ""; f_weight := "";
     f_loading := false |}.

(* ===================================================================== *)
(** * More of the sample world *)
(* ===================================================================== *)

Module Demo.

Definition no_header : request := Sample.request_of None ∅.

Definition rename_body : gmap string jsval := {[ "name" := JStr "Legs" ]}.

Definition zero_sets_body : gmap string jsval :=
  {[ "exercise_name" := JStr "Plank"; "sets" := JNum (Fin 0 0);
     "reps" := JNum (Fin 1 0); "weight" := JNum (Fin 5 0) ]}.

(** Sets with a fraction, reps in a string, a weight with a fraction. *)
Definition mixed_body : gmap string jsval :=
  {[ "exercise_name" := JStr "Squat"; "sets" := JNum (Fin 37 (-1));
     "reps" := JStr "12"; "weight" := JNum (Fin 725 (-1)) ]}.





Definition plank : exercise_form :=
  {| f_exercise := "Plank"; f_sets := "3"; f_reps := "1"; f_weight := "0";
     f_loading := false |}.

Definition no_sets : exercise_form :=
  {| f_exercise := "Plank"; f_sets := "0"; f_reps := "1"; f_weight := "0";
     f_loading := false |}.

(** Sets typed as [2^53 + 1], which no double holds. *)
Definition beyond_exact : exercise_form :=
  {| f_exercise := "Plank"; f_sets := "9007199254740993"; f_reps := "1";
     f_weight := "0"; f_loading := false |}.

Definition pull_day : workout_form :=
  {| c_name := "Pull Day"; c_date := "2024-01-05"; c_notes := "";
     c_loading := false |}.

Definition undated : workout_form :=
  {| c_name := "Pull Day"; c_date := ""; c_notes := ""; c_loading := false |}.

Definition blank : dashboard :=
  {| shown := []; selectedWorkout := None; showCreateModal := false;
     loading := true |}.

End Demo.

(* ===================================================================== *)
(** * The built-ins on sample inputs *)
(* ===================================================================== *)

Example split_bearer : split " " "Bearer abc.def" = ["Bearer"; "abc.def"].
Proof. reflexivity. Qed.
Example split_empty : split " " "" = [""].
Proof. reflexivity. Qed.
Example split_double_space : split " " "Bearer  tok" = ["Bearer"; ""; "tok"].
Proof. reflexivity. Qed.
Example parseInt_samples :
  parseInt (JStr "12") = Fin 12 0 /\ parseInt (JNum (Fin 3 0)) = Fin 3 0 /\
  parseInt (JNum (Fin 37 (-1))) = Fin 3 0 /\ parseInt (JStr "  -8 reps") = Fin (-8) 0 /\
  parseInt (JStr "0x1F") = Fin 31 0 /\ parseInt (JStr "abc") = NaN /\
  parseInt JUndefined = NaN /\ parseInt JNull = NaN /\ parseInt (JBool true) = NaN.
Proof. repeat split; vm_compute; reflexivity. Qed.
Example parseFloat_samples :
  parseFloat (JStr "72.5") = Fin 725 (-1) /\ parseFloat (JNum (Fin 725 (-1))) = Fin 725 (-1) /\
  parseFloat (JNum (Fin 0 0)) = Fin 0 0 /\ parseFloat (JStr "72.50kg") = Fin 725 (-1) /\
  parseFloat (JStr ".5") = Fin 5 (-1) /\ parseFloat (JStr "1e3") = Fin 1 3 /\
  parseFloat (JStr "5.") = Fin 5 0 /\ parseFloat (JStr ".") = NaN /\
  parseFloat (JStr "-Infinity") = Inf true /\ parseFloat (JStr "heavy") = NaN /\
  parseFloat JUndefined = NaN /\ parseFloat (JNum (Fin 1 21)) = Fin 1 21.
Proof. repeat split; vm_compute; reflexivity. Qed.
(** Rounding to the nearest double, overflow, underflow, and white space
    beyond ASCII (a no-break space, a line separator). *)
Example double_samples :
  parseInt (JStr "9007199254740993") = Fin 9007199254740992 0 /\
  parseInt (JStr "123456789012345678901234567890") = Fin 12345678901234568 13 /\
  parseFloat (JStr "1e400") = Inf false /\ parseFloat (JStr "-1e400") = Inf true /\
  parseFloat (JStr "1e-400") = Fin 0 0 /\
  parseFloat (JStr "0.1000000000000000055") = Fin 1 (-1) /\
  parseFloat (JStr "0.30000000000000004") = Fin 30000000000000004 (-17) /\
  parseInt (JStr (String (ascii_of_nat 194) (String (ascii_of_nat 160) "12"))) = Fin 12 0 /\
  parseFloat (JStr (String (ascii_of_nat 226) (String (ascii_of_nat 128)
                      (String (ascii_of_nat 168) "7.5")))) = Fin 75 (-1) /\
  json_num (parseFloat (JStr "1e400")) = JNull.
Proof. repeat split; vm_compute; reflexivity. Qed.
Example num_to_string_samples :
  num_to_string (Fin 725 (-1)) = "72.5" /\ num_to_string (Fin 5 (-3)) = "0.005" /\
  num_to_string (Fin 12 2) = "1200" /\ num_to_string (Fin 1 21) = "1e+21" /\
  num_to_string (Fin 15 (-8)) = "1.5e-7" /\ num_to_string (Fin (-3) 0) = "-3".
Proof. repeat split; vm_compute; reflexivity. Qed.

(* ===================================================================== *)
(** * Numbers and their text *)
(* ===================================================================== *)

(** ** Digit strings *)

Lemma string_app_empty (s : string) : s +:+ "" = s.
Proof.
  induction s as [|c s IH]; [done|].
  change (String c (s +:+ "") = String c s). by rewrite IH.
Qed.

Lemma string_app_assoc (a b c : string) : (a +:+ b) +:+ c = a +:+ (b +:+ c).
Proof.
  induction a as [|x a IH]; [done|].
  change (String x ((a +:+ b) +:+ c) = String x (a +:+ (b +:+ c))). by rewrite IH.
Qed.

Lemma digit_of_pretty_char m :
  (m < 10)%N -> digit_of (pretty_N_char m) = Some (Z.of_N m).
Proof.
  intros Hm.
  assert (m = 0 \/ m = 1 \/ m = 2 \/ m = 3 \/ m = 4 \/ m = 5 \/ m = 6 \/ m = 7
          \/ m = 8 \/ m = 9)%N as Hcases by lia.
  repeat (destruct Hcases as [->|Hcases]; [reflexivity|]). by subst.
Qed.

Lemma digit_of_digit d :
  0 <= d < 10 -> digit_of (pretty_N_char (Z.to_N d)) = Some d.
Proof. intros Hd. rewrite digit_of_pretty_char by lia. f_equal. lia. Qed.

Lemma numeral_app ds1 ds2 : numeral (ds1 ++ ds2) = numeral ds1 +:+ numeral ds2.
Proof.
  induction ds1 as [|d ds1 IH]; [done|].
  change (String (pretty_N_char (Z.to_N d)) (numeral (ds1 ++ ds2)) =
          String (pretty_N_char (Z.to_N d)) (numeral ds1 +:+ numeral ds2)).
  by rewrite IH.
Qed.

Lemma length_numeral ds : String.length (numeral ds) = length ds.
Proof.
  induction ds as [|d ds IH]; [done|].
  change (S (String.length (numeral ds)) = S (length ds)). by rewrite IH.
Qed.

Lemma substring_numeral n j ds :
  substring n j (numeral ds) = numeral (take j (drop n ds)).
Proof.
  revert n j. induction ds as [|d ds IH]; intros n j.
  - destruct n, j; reflexivity.
  - destruct n as [|n].
    + destruct j as [|j]; [reflexivity|].
      cbn [numeral fold_right substring drop take]. f_equal. apply (IH 0%nat j).
    + cbn [numeral fold_right substring drop]. apply IH.
Qed.

Lemma zeros_numeral j : zeros j = numeral (replicate (Z.to_nat j) 0).
Proof.
  unfold zeros. induction (Z.to_nat j) as [|n IH]; [done|].
  destruct n as [|n]; [reflexivity|].
  cbn [replicate String.concat] in *. rewrite IH. reflexivity.
Qed.

Lemma span_numeral ds rest :
  Forall (fun d => 0 <= d < 10) ds ->
  span_digits digit_of (numeral ds +:+ rest) =
  ((ds ++ (span_digits digit_of rest).1)%list, (span_digits digit_of rest).2).
Proof.
  induction 1 as [|d ds Hd _ IH].
  { change (numeral [] +:+ rest) with rest. by destruct (span_digits digit_of rest). }
  change (numeral (d :: ds) +:+ rest)
    with (String (pretty_N_char (Z.to_N d)) (numeral ds +:+ rest)).
  cbn [span_digits]. rewrite (digit_of_digit _ Hd), IH. reflexivity.
Qed.

Lemma span_numeral_all ds :
  Forall (fun d => 0 <= d < 10) ds ->
  span_digits digit_of (numeral ds) = (ds, "").
Proof.
  intros Hds. rewrite <- (string_app_empty (numeral ds)), (span_numeral _ _ Hds).
  cbn. by rewrite app_nil_r.
Qed.

Lemma digits_value_app radix ds1 ds2 :
  digits_value radix (ds1 ++ ds2) =
  fold_left (fun acc d => acc * radix + d) ds2 (digits_value radix ds1).
Proof. unfold digits_value. apply fold_left_app. Qed.

Lemma fold_zeros j acc :
  fold_left (fun acc d => acc * 10 + d) (replicate j 0) acc = acc * 10 ^ Z.of_nat j.
Proof.
  revert acc. induction j as [|j IH]; intros acc; [cbn; lia|].
  cbn [replicate fold_left]. rewrite IH, Nat2Z.inj_succ, Z.pow_succ_r by lia. lia.
Qed.

Lemma digits_zeros_right ds j :
  digits_value 10 (ds ++ replicate j 0) = digits_value 10 ds * 10 ^ Z.of_nat j.
Proof. by rewrite digits_value_app, fold_zeros. Qed.

Lemma digits_zeros_left j ds :
  digits_value 10 (replicate j 0 ++ ds) = digits_value 10 ds.
Proof.
  unfold digits_value. by rewrite fold_left_app, fold_zeros, Z.mul_0_l.
Qed.

Lemma fold_digits_bound ds acc :
  Forall (fun d => 0 <= d < 10) ds ->
  acc * 10 ^ Z.of_nat (length ds) <=
    fold_left (fun acc d => acc * 10 + d) ds acc <
  (acc + 1) * 10 ^ Z.of_nat (length ds).
Proof.
  intros Hds. revert acc. induction Hds as [|d ds Hd _ IH]; intros acc.
  - cbn. lia.
  - cbn [fold_left length]. rewrite Nat2Z.inj_succ, Z.pow_succ_r by lia.
    specialize (IH (acc * 10 + d)). nia.
Qed.

(** The digits before position [n] are the quotient by the weight of the
    digits after it. *)
Lemma digits_value_take n ds :
  Forall (fun d => 0 <= d < 10) ds ->
  digits_value 10 (take n ds) =
  digits_value 10 ds / 10 ^ Z.of_nat (length (drop n ds)).
Proof.
  intros Hds. rewrite <- (take_drop n ds) at 2. rewrite digits_value_app.
  pose proof (fold_digits_bound (drop n ds) (digits_value 10 (take n ds))
                (Forall_drop _ _ _ Hds)) as Hb.
  apply Z.div_unique with
    (fold_left (fun acc d => acc * 10 + d) (drop n ds) (digits_value 10 (take n ds))
     - digits_value 10 (take n ds) * 10 ^ Z.of_nat (length (drop n ds))).
  - left. lia.
  - lia.
Qed.

(** ** The digits [pretty] prints *)

Lemma pretty_numeral x s :
  exists ds,
    pretty_N_go x s = numeral ds +:+ s /\
    Forall (fun d => 0 <= d < 10) ds /\
    digits_value 10 ds = Z.of_N x /\
    (x = 0%N -> ds = []) /\
    ((0 < x)%N -> exists d ds', ds = d :: ds' /\ 0 < d).
Proof.
  revert s. induction (N.lt_wf_0 x) as [x _ IH]; intros s.
  destruct (decide (x = 0%N)) as [->|Hx].
  { exists []. rewrite pretty_N_go_0.
    split; [reflexivity|]. split; [constructor|]. split; [reflexivity|].
    split; [done|lia]. }
  rewrite pretty_N_go_step by lia.
  destruct (IH (x `div` 10)%N ltac:(apply N.div_lt; lia)
              (String (pretty_N_char (x `mod` 10)) s))
    as (ds & Hgo & Hds & Hval & Hnil & Hhead).
  assert (Hr : (x `mod` 10 < 10)%N) by (apply N.mod_lt; lia).
  exists (ds ++ [Z.of_N (x `mod` 10)])%list. split; [|split; [|split; [|split]]].
  - rewrite Hgo, numeral_app, string_app_assoc. cbn [numeral fold_right].
    by rewrite N2Z.id.
  - apply Forall_app. split; [done|]. constructor; [|constructor].
    clear -Hr. set (r := (x `mod` 10)%N) in *. lia.
  - rewrite digits_value_app, Hval. cbn [fold_left].
    rewrite N2Z.inj_div, N2Z.inj_mod. change (Z.of_N 10) with 10.
    pose proof (Z.div_mod (Z.of_N x) 10 ltac:(lia)). lia.
  - done.
  - intros _. destruct (decide (x `div` 10 = 0)%N) as [Hq|Hq].
    + rewrite (Hnil Hq). exists (Z.of_N (x `mod` 10)), []. split; [done|].
      apply N.div_small_iff in Hq; [|lia]. rewrite N.mod_small by done. lia.
    + destruct (Hhead ltac:(by apply N.neq_0_lt_0)) as (d & ds' & -> & Hd).
      by exists d, (ds' ++ [Z.of_N (x `mod` 10)])%list.
Qed.

Lemma pretty_pos_numeral p :
  exists d ds,
    pretty (Z.pos p) = numeral (d :: ds) /\
    0 < d < 10 /\ Forall (fun d => 0 <= d < 10) ds /\
    digits_value 10 (d :: ds) = Z.pos p.
Proof.
  change (pretty (Z.pos p)) with (pretty_N_go (N.pos p) "").
  destruct (pretty_numeral (N.pos p) "") as (l & Hgo & Hds & Hval & _ & Hhead).
  destruct (Hhead ltac:(lia)) as (d & ds & -> & Hd).
  exists d, ds. rewrite Hgo, string_app_empty.
  inversion Hds; subst. repeat split; try done; lia.
Qed.

(** [x < 10^n] is printed with at most [n] digits. *)
Lemma digits_length ds :
  Forall (fun d => 0 <= d < 10) ds ->
  forall d, 0 < d ->
  10 ^ Z.of_nat (length ds) <= digits_value 10 (d :: ds).
Proof.
  intros Hds d Hd. unfold digits_value. cbn [fold_left].
  pose proof (fold_digits_bound ds (0 * 10 + d) Hds) as Hb.
  assert (0 < 10 ^ Z.of_nat (length ds)) by (apply Z.pow_pos_nonneg; lia).
  nia.
Qed.

(** ** What [Number::toString] prints *)

Lemma digits_of_nonzero m :
  m <> 0 ->
  exists d ds,
    pretty (Z.abs m) = numeral (d :: ds) /\
    0 < d < 10 /\ Forall (fun d => 0 <= d < 10) ds /\
    digits_value 10 (d :: ds) = Z.abs m.
Proof.
  destruct m as [|p|p]; [done|..]; intros _; apply (pretty_pos_numeral p).
Qed.

Lemma digits_bounds d ds :
  0 < d < 10 -> Forall (fun d => 0 <= d < 10) ds ->
  10 ^ Z.of_nat (length ds) <= digits_value 10 (d :: ds)
    < 10 ^ Z.of_nat (S (length ds)).
Proof.
  intros Hd Hds. unfold digits_value. cbn [fold_left].
  pose proof (fold_digits_bound ds (0 * 10 + d) Hds) as Hb.
  rewrite Nat2Z.inj_succ, Z.pow_succ_r by lia.
  assert (0 < 10 ^ Z.of_nat (length ds)) by (apply Z.pow_pos_nonneg; lia).
  nia.
Qed.

(** Written out in full, a whole number is its digits and then its zeros. *)
Lemma to_string_whole m e d ds :
  m <> 0 -> pretty (Z.abs m) = numeral (d :: ds) ->
  0 <= e -> Z.of_nat (S (length ds)) + e <= 21 ->
  num_to_string (Fin m e) =
  (if m <? 0 then "-" else "") +:+
  numeral ((d :: ds) ++ replicate (Z.to_nat e) 0).
Proof.
  intros Hm Hp He Hn. unfold num_to_string.
  rewrite (proj2 (Z.eqb_neq _ _) Hm), Hp, length_numeral. cbn [length].
  rewrite (proj2 (Z.leb_le _ _)) by lia.
  rewrite (proj2 (Z.leb_le _ 21)) by lia. cbn [andb].
  replace (Z.of_nat (S (length ds)) + e - Z.of_nat (S (length ds))) with e by lia.
  by rewrite zeros_numeral, numeral_app.
Qed.

(** With a point inside the digits. *)
Lemma to_string_point m e d ds :
  m <> 0 -> pretty (Z.abs m) = numeral (d :: ds) ->
  e < 0 -> 0 < Z.of_nat (S (length ds)) + e <= 21 ->
  num_to_string (Fin m e) =
  (if m <? 0 then "-" else "") +:+
  numeral (take (Z.to_nat (Z.of_nat (S (length ds)) + e)) (d :: ds)) +:+ "." +:+
  numeral (drop (Z.to_nat (Z.of_nat (S (length ds)) + e)) (d :: ds)).
Proof.
  intros Hm Hp He Hn. unfold num_to_string.
  rewrite (proj2 (Z.eqb_neq _ _) Hm), Hp, length_numeral. cbn [length].
  rewrite (proj2 (Z.leb_gt _ _)) by lia. cbn [andb].
  rewrite (proj2 (Z.ltb_lt 0 _)) by lia.
  rewrite (proj2 (Z.leb_le _ 21)) by lia. cbn [andb].
  unfold nat_of. rewrite !substring_numeral. cbn [drop].
  rewrite (take_ge (drop _ _)); [done|].
  rewrite length_drop. cbn [length]. lia.
Qed.

(** A small fraction: [0.], zeros, digits. *)
Lemma to_string_small m e d ds :
  m <> 0 -> pretty (Z.abs m) = numeral (d :: ds) ->
  -6 < Z.of_nat (S (length ds)) + e <= 0 ->
  num_to_string (Fin m e) =
  (if m <? 0 then "-" else "") +:+
  numeral [0] +:+ "." +:+
  numeral (replicate (Z.to_nat (- (Z.of_nat (S (length ds)) + e))) 0 ++ d :: ds).
Proof.
  intros Hm Hp Hn. unfold num_to_string.
  rewrite (proj2 (Z.eqb_neq _ _) Hm), Hp, length_numeral. cbn [length].
  rewrite (proj2 (Z.leb_gt _ _)) by lia. cbn [andb].
  rewrite (proj2 (Z.ltb_ge 0 _)) by lia. cbn [andb].
  rewrite (proj2 (Z.ltb_lt (-6) _)) by lia.
  rewrite (proj2 (Z.leb_le _ 0)) by lia. cbn [andb].
  by rewrite zeros_numeral, numeral_app.
Qed.

(** Beyond 21 digits or below [1e-6]: one digit, the others after a point,
    and the exponent. *)
Lemma to_string_exponent m e d ds :
  m <> 0 -> pretty (Z.abs m) = numeral (d :: ds) ->
  21 < Z.of_nat (S (length ds)) + e \/ Z.of_nat (S (length ds)) + e <= -6 ->
  num_to_string (Fin m e) =
  (if m <? 0 then "-" else "") +:+
  numeral [d] +:+
  (match ds with [] => "" | _ => "." +:+ numeral ds end) +:+
  "e" +:+ (if Z.of_nat (S (length ds)) + e - 1 <? 0 then "-" else "+") +:+
  pretty (Z.abs (Z.of_nat (S (length ds)) + e - 1)).
Proof.
  intros Hm Hp Hn. unfold num_to_string.
  rewrite (proj2 (Z.eqb_neq _ _) Hm), Hp, length_numeral. cbn [length].
  set (n := Z.of_nat (S (length ds)) + e) in *.
  assert ((Z.of_nat (S (length ds)) <=? n) && (n <=? 21) = false) as ->.
  { apply andb_false_iff. destruct Hn; [right|left]; [apply Z.leb_gt|apply Z.leb_gt]; lia. }
  assert ((0 <? n) && (n <=? 21) = false) as ->.
  { apply andb_false_iff. destruct Hn; [right; apply Z.leb_gt|left; apply Z.ltb_ge]; lia. }
  assert ((-6 <? n) && (n <=? 0) = false) as ->.
  { apply andb_false_iff. destruct Hn; [right; apply Z.leb_gt|left; apply Z.ltb_ge]; lia. }
  destruct ds as [|d' ds].
  - reflexivity.
  - rewrite (proj2 (Z.eqb_neq _ 1)) by (cbn [length]; lia).
    unfold nat_of. rewrite !substring_numeral. cbn [drop take].
    replace (Z.to_nat (Z.of_nat (S (length (d' :: ds))) - 1))
      with (length (d' :: ds)) by lia.
    rewrite take_ge by done. reflexivity.
Qed.

(** ** What [parseInt] and [parseFloat] read from a numeral *)

Ltac each_digit d :=
  match goal with
  | H : _ <= d < 10 |- _ =>
      let Hc := fresh in
      assert (d = 0 \/ d = 1 \/ d = 2 \/ d = 3 \/ d = 4 \/ d = 5 \/ d = 6
              \/ d = 7 \/ d = 8 \/ d = 9) as Hc by lia;
      clear H;
      repeat (destruct Hc as [->|Hc]; [try reflexivity|]);
      try (subst d; reflexivity)
  | H : _ < d < 10 |- _ =>
      let Hc := fresh in
      assert (d = 1 \/ d = 2 \/ d = 3 \/ d = 4 \/ d = 5 \/ d = 6
              \/ d = 7 \/ d = 8 \/ d = 9) as Hc by lia;
      clear H;
      repeat (destruct Hc as [->|Hc]; [try reflexivity|]);
      try (subst d; reflexivity)
  end.

Lemma sign_then_digit (negative : bool) d rest :
  0 <= d < 10 ->
  strip_sign (trim_start ((if negative then "-" else "") +:+
                          String (pretty_N_char (Z.to_N d)) rest)) =
  (negative, String (pretty_N_char (Z.to_N d)) rest).
Proof. intros Hd. destruct negative; each_digit d. Qed.

Lemma digit_is_not_Infinity d rest :
  0 <= d < 10 ->
  String.prefix "Infinity" (String (pretty_N_char (Z.to_N d)) rest) = false.
Proof. intros Hd. each_digit d. Qed.

Lemma radix_ten d rest :
  0 < d < 10 ->
  radix_prefix (String (pretty_N_char (Z.to_N d)) rest) =
  (10, digit_of, String (pretty_N_char (Z.to_N d)) rest).
Proof. intros Hd. each_digit d. Qed.

Lemma parseInt_numeral (negative : bool) d ds rest :
  0 < d < 10 -> Forall (fun d => 0 <= d < 10) ds ->
  (span_digits digit_of rest).1 = [] ->
  parseInt_string ((if negative then "-" else "") +:+ numeral (d :: ds) +:+ rest) =
  double negative (digits_value 10 (d :: ds)) 0.
Proof.
  intros Hd Hds Hrest. unfold parseInt_string.
  assert (Hall : Forall (fun d => 0 <= d < 10) (d :: ds))
    by (constructor; [lia|done]).
  pose proof (span_numeral (d :: ds) rest Hall) as Hspan.
  change (numeral (d :: ds) +:+ rest)
    with (String (pretty_N_char (Z.to_N d)) (numeral ds +:+ rest)) in *.
  rewrite sign_then_digit by lia. rewrite radix_ten by done.
  rewrite Hspan, Hrest, app_nil_r. reflexivity.
Qed.

Lemma parseFloat_numeral (negative : bool) d ds rest :
  0 <= d < 10 -> Forall (fun d => 0 <= d < 10) ds ->
  span_digits digit_of rest = ([], rest) ->
  parseFloat_string ((if negative then "-" else "") +:+ numeral (d :: ds) +:+ rest) =
  double negative
    (digits_value 10 ((d :: ds) ++ (fraction_part rest).1))
    (scan_exponent (fraction_part rest).2
     - Z.of_nat (length (fraction_part rest).1)).
Proof.
  intros Hd Hds Hrest. unfold parseFloat_string.
  assert (Hall : Forall (fun d => 0 <= d < 10) (d :: ds))
    by (constructor; [lia|done]).
  pose proof (span_numeral (d :: ds) rest Hall) as Hspan.
  change (numeral (d :: ds) +:+ rest)
    with (String (pretty_N_char (Z.to_N d)) (numeral ds +:+ rest)) in *.
  rewrite sign_then_digit by lia. rewrite digit_is_not_Infinity by done.
  rewrite Hspan, Hrest. cbn [fst snd]. rewrite app_nil_r.
  destruct (fraction_part rest) as [fp after]. reflexivity.
Qed.

Lemma fraction_part_numeral fp rest :
  Forall (fun d => 0 <= d < 10) fp ->
  fraction_part ("." +:+ numeral fp +:+ rest) =
  ((fp ++ (span_digits digit_of rest).1)%list, (span_digits digit_of rest).2).
Proof.
  intros Hfp. change ("." +:+ numeral fp +:+ rest)
    with (String "." (numeral fp +:+ rest)).
  cbn [fraction_part]. by apply span_numeral.
Qed.

Lemma scan_exponent_printed ex :
  ex <> 0 ->
  scan_exponent ("e" +:+ (if ex <? 0 then "-" else "+") +:+ pretty (Z.abs ex)) = ex.
Proof.
  intros Hex.
  destruct (digits_of_nonzero ex Hex) as (d & ds & Hp & Hd & Hds & Hval).
  assert (Hspan : span_digits digit_of (pretty (Z.abs ex)) = (d :: ds, ""))
    by (rewrite Hp; apply span_numeral_all; constructor; [lia|done]).
  destruct (ex <? 0) eqn:Hs.
  - change (scan_exponent (String "e" (String "-" (pretty (Z.abs ex)))) = ex).
    cbn [scan_exponent strip_sign]. change (Ascii.eqb "e" "e") with true.
    cbn [orb]. rewrite Hspan. cbn [signed]. rewrite Hval.
    apply Z.ltb_lt in Hs. lia.
  - change (scan_exponent (String "e" (String "+" (pretty (Z.abs ex)))) = ex).
    cbn [scan_exponent strip_sign]. change (Ascii.eqb "e" "e") with true.
    cbn [orb]. rewrite Hspan. cbn [signed]. rewrite Hval.
    apply Z.ltb_ge in Hs. lia.
Qed.

(** ** One value, several decimals *)

Lemma double_scaled (negative : bool) m e :
  0 < m -> 0 <= e -> double negative (m * 10 ^ e) 0 = double negative m e.
Proof.
  intros Hm He. unfold double, fraction.
  assert (0 < 10 ^ e) by (apply Z.pow_pos_nonneg; lia).
  rewrite (proj2 (Z.leb_gt _ _)) by nia.
  rewrite (proj2 (Z.leb_gt m _)) by lia.
  cbn [fst snd]. change (Z.max 0 0) with 0. change (Z.max (- 0) 0) with 0.
  replace (Z.max e 0) with e by lia. replace (Z.max (- e) 0) with 0 by lia.
  by rewrite Z.pow_0_r, Z.mul_1_r.
Qed.

Lemma shortest_from_reads fuel digits q k N D n10 c :
  shortest_from fuel digits q k N D n10 = Some c -> reads q k c = true.
Proof.
  revert digits. induction fuel as [|fuel IH]; intros digits; [done|].
  cbn [shortest_from].
  destruct (List.find _ _) as [c'|] eqn:Hfind.
  - intros [= <-]. by apply find_some in Hfind as [_ Hr].
  - apply IH.
Qed.

Lemma signed_sign (negative : bool) s :
  0 < s -> (signed negative s <? 0) = negative /\ Z.abs (signed negative s) = s.
Proof.
  intros Hs. destruct negative; cbn [signed]; (split; [|lia]).
  - apply Z.ltb_lt. lia.
  - apply Z.ltb_ge. lia.
Qed.

(** What [double] returns is a number in its printed form. *)
Lemma double_is_double (negative : bool) v ex : is_double (double negative v ex).
Proof.
  unfold double.
  destruct (v <=? 0); [reflexivity|].
  destruct (nearest _ _) as [[q k]|] eqn:Hn; [|exact I].
  destruct (q =? 0) eqn:Hq; [reflexivity|].
  destruct (shortest q k) as [[s t]|] eqn:Hs; [|exact I].
  pose proof (shortest_from_reads _ _ _ _ _ _ _ _ Hs) as Hr.
  unfold reads in Hr. cbn [fst snd] in Hr.
  apply andb_true_iff in Hr as [Hpos Hr]. apply Z.ltb_lt in Hpos.
  destruct (nearest (fraction s t).1 (fraction s t).2) as [[q' k']|] eqn:Hn';
    [|done].
  apply andb_true_iff in Hr as [->%Z.eqb_eq ->%Z.eqb_eq].
  unfold is_double. destruct (signed_sign negative s Hpos) as [-> ->].
  unfold double. rewrite (proj2 (Z.leb_gt s 0)) by lia.
  by rewrite Hn', Hq, Hs.
Qed.

(** ** A printed number read back *)

Lemma span_point x : span_digits digit_of ("." +:+ x) = ([], "." +:+ x).
Proof. reflexivity. Qed.

Lemma span_exponent x : span_digits digit_of ("e" +:+ x) = ([], "e" +:+ x).
Proof. reflexivity. Qed.

(** [parseFloat] reads a printed number back as the number. *)
Lemma parseFloat_printed m e :
  m <> 0 ->
  parseFloat_string (num_to_string (Fin m e)) = double (m <? 0) (Z.abs m) e.
Proof.
  intros Hm.
  destruct (digits_of_nonzero m Hm) as (d & ds & Hp & Hd & Hds & Hval).
  set (k := Z.of_nat (S (length ds))).
  assert (Hk : 0 < k) by (unfold k; lia).
  destruct (decide (0 <= e /\ k + e <= 21)) as [[He Hn]|HA];
    [|destruct (decide (0 < k + e <= 21)) as [Hn|HB];
      [|destruct (decide (-6 < k + e <= 0)) as [Hn|HC]]].
  - (* digits and zeros *)
    rewrite (to_string_whole m e d ds Hm Hp He Hn).
    change ((d :: ds) ++ replicate (Z.to_nat e) 0)%list
      with (d :: (ds ++ replicate (Z.to_nat e) 0))%list.
    rewrite <- (string_app_empty (numeral _)).
    rewrite parseFloat_numeral; [|lia| |reflexivity].
    2: { apply Forall_app. split; [done|]. apply Forall_replicate. lia. }
    cbn [fraction_part fst snd scan_exponent length]. rewrite app_nil_r.
    change (d :: (ds ++ replicate (Z.to_nat e) 0))%list
      with ((d :: ds) ++ replicate (Z.to_nat e) 0)%list.
    rewrite digits_zeros_right, Hval, Z2Nat.id by lia.
    change (0 - Z.of_nat 0) with 0. apply double_scaled; lia.
  - (* a point inside the digits *)
    assert (He : e < 0) by lia.
    rewrite (to_string_point m e d ds Hm Hp He Hn). fold k.
    destruct (Z.to_nat (k + e)) as [|j] eqn:Hj; [lia|].
    cbn [take drop].
    rewrite <- (string_app_empty (numeral (drop j ds))).
    rewrite parseFloat_numeral; [|lia|by apply Forall_take|apply span_point].
    rewrite (fraction_part_numeral _ _ (Forall_drop _ _ _ Hds)).
    cbn [span_digits fst snd scan_exponent]. rewrite app_nil_r.
    change ((d :: take j ds) ++ drop j ds)%list
      with (d :: (take j ds ++ drop j ds))%list.
    rewrite take_drop, Hval, length_drop. f_equal. unfold k in *. lia.
  - (* zero, point, zeros, digits *)
    rewrite (to_string_small m e d ds Hm Hp Hn). fold k.
    set (j := Z.to_nat (- (k + e))).
    rewrite <- (string_app_empty (numeral (replicate j 0 ++ d :: ds))).
    rewrite parseFloat_numeral; [|lia|constructor|apply span_point].
    rewrite fraction_part_numeral.
    2: { apply Forall_app. split; [apply Forall_replicate; lia|].
         constructor; [lia|done]. }
    cbn [span_digits fst snd scan_exponent]. rewrite app_nil_r.
    change ([0] ++ replicate j 0 ++ d :: ds)%list
      with (replicate (S j) 0 ++ d :: ds)%list.
    rewrite digits_zeros_left, Hval, length_app, length_replicate. f_equal.
    cbn [length]. unfold j, k in *. lia.
  - (* one digit, the others, the exponent *)
    assert (Hn : 21 < k + e \/ k + e <= -6) by lia.
    rewrite (to_string_exponent m e d ds Hm Hp Hn). fold k.
    assert (Hex : k + e - 1 <> 0) by lia.
    destruct ds as [|d' ds'].
    + change ("" +:+ ?x) with x.
      rewrite parseFloat_numeral; [|lia|constructor|apply span_exponent].
      change (fraction_part ("e" +:+ ?x)) with (@pair (list Z) string [] ("e" +:+ x)).
      cbn [fst snd length]. rewrite (scan_exponent_printed _ Hex), app_nil_r, Hval.
      f_equal. unfold k. cbn [length]. lia.
    + rewrite string_app_assoc.
      rewrite parseFloat_numeral; [|lia|constructor|apply span_point].
      rewrite (fraction_part_numeral _ _ Hds), span_exponent.
      cbn [fst snd]. rewrite (scan_exponent_printed _ Hex), app_nil_r.
      change ([d] ++ d' :: ds')%list with (d :: d' :: ds')%list.
      rewrite Hval. f_equal. unfold k. lia.
Qed.

Lemma printed_length m e d ds :
  0 < d < 10 -> Forall (fun d => 0 <= d < 10) ds ->
  digits_value 10 (d :: ds) = Z.abs m ->
  (Z.abs m < 10 ^ (21 - e) -> e <= 21 -> Z.of_nat (S (length ds)) + e <= 21) /\
  (e < 0 -> 10 ^ (- e) <= Z.abs m * 10 ^ 6 -> -6 < Z.of_nat (S (length ds)) + e).
Proof.
  intros Hd Hds Hval. pose proof (digits_bounds d ds Hd Hds) as [Hlo Hhi].
  rewrite Hval in Hlo, Hhi. split.
  - intros Hm He.
    assert (Z.of_nat (length ds) < 21 - e); [|lia].
    apply (Z.pow_lt_mono_r_iff 10); lia.
  - intros He Hm.
    assert (- e < Z.of_nat (S (length ds)) + 6); [|lia].
    apply (Z.pow_lt_mono_r_iff 10); [lia..|].
    rewrite Z.pow_add_r by lia. lia.
Qed.

(** [parseInt] reads a printed whole number back as the number. *)
Lemma parseInt_printed_whole m e :
  m <> 0 -> 0 <= e -> Z.abs m * 10 ^ e < 10 ^ 21 ->
  parseInt_string (num_to_string (Fin m e)) = double (m <? 0) (Z.abs m) e.
Proof.
  intros Hm He Hb.
  destruct (digits_of_nonzero m Hm) as (d & ds & Hp & Hd & Hds & Hval).
  assert (He' : e <= 21).
  { destruct (decide (e <= 21)); [done|].
    assert (10 ^ 21 < 10 ^ e) by (apply Z.pow_lt_mono_r; lia). nia. }
  assert (Hn : Z.of_nat (S (length ds)) + e <= 21).
  { apply (printed_length m e d ds Hd Hds Hval); [|done].
    replace 21 with ((21 - e) + e) in Hb by lia.
    rewrite Z.pow_add_r in Hb by lia.
    assert (0 < 10 ^ e) by (apply Z.pow_pos_nonneg; lia). nia. }
  rewrite (to_string_whole m e d ds Hm Hp He Hn).
  change ((d :: ds) ++ replicate (Z.to_nat e) 0)%list
    with (d :: (ds ++ replicate (Z.to_nat e) 0))%list.
  rewrite <- (string_app_empty (numeral _)).
  rewrite parseInt_numeral; [|done| |reflexivity].
  2: { apply Forall_app. split; [done|]. apply Forall_replicate. lia. }
  change (d :: (ds ++ replicate (Z.to_nat e) 0))%list
    with ((d :: ds) ++ replicate (Z.to_nat e) 0)%list.
  rewrite digits_zeros_right, Hval, Z2Nat.id by lia.
  apply double_scaled; lia.
Qed.

(** [parseInt] reads a printed fraction back as its whole part. *)
Lemma parseInt_printed_fraction m e :
  m <> 0 -> e < 0 ->
  10 ^ (- e) <= Z.abs m * 10 ^ 6 -> Z.abs m < 10 ^ (21 - e) ->
  parseInt_string (num_to_string (Fin m e)) =
  double (m <? 0) (Z.abs m / 10 ^ (- e)) 0.
Proof.
  intros Hm He Hlo Hhi.
  destruct (digits_of_nonzero m Hm) as (d & ds & Hp & Hd & Hds & Hval).
  destruct (printed_length m e d ds Hd Hds Hval) as [Hn21 Hn6].
  specialize (Hn21 Hhi ltac:(lia)). specialize (Hn6 He Hlo).
  set (k := Z.of_nat (S (length ds))) in *.
  destruct (decide (0 < k + e)) as [Hn|Hn].
  - rewrite (to_string_point m e d ds Hm Hp He ltac:(fold k; lia)). fold k.
    destruct (Z.to_nat (k + e)) as [|j] eqn:Hj; [lia|].
    cbn [take drop].
    rewrite parseInt_numeral; [|done|by apply Forall_take|reflexivity].
    change (d :: take j ds) with (take (S j) (d :: ds)).
    rewrite digits_value_take by (constructor; [lia|done]).
    rewrite Hval. cbn [drop]. rewrite length_drop. do 3 f_equal.
    unfold k in *. lia.
  - rewrite (to_string_small m e d ds Hm Hp ltac:(fold k; lia)). fold k.
    pose proof (digits_bounds d ds Hd Hds) as [_ Hup]. rewrite Hval in Hup.
    fold k in Hup.
    assert (10 ^ k <= 10 ^ (- e)) by (apply Z.pow_le_mono_r; lia).
    rewrite Z.div_small by lia.
    destruct (m <? 0); reflexivity.
Qed.

(** ** Numbers of a request body through the two conversions *)

Lemma is_double_zero e : is_double (Fin 0 e) -> e = 0.
Proof. unfold is_double. cbn. by intros [= <-]. Qed.

Lemma parseFloat_number n :
  is_double n -> (exists m e, n = Fin m e) -> parseFloat (JNum n) = n.
Proof.
  intros Hn (m & e & ->). unfold parseFloat. cbn [to_string].
  destruct (decide (m = 0)) as [->|Hm].
  - by rewrite (is_double_zero _ Hn).
  - by rewrite parseFloat_printed.
Qed.

Lemma parseInt_whole m e :
  is_double (Fin m e) -> m <> 0 -> 0 <= e -> Z.abs m * 10 ^ e < 10 ^ 21 ->
  parseInt (JNum (Fin m e)) = Fin m e.
Proof.
  intros Hn Hm He Hb. unfold parseInt. cbn [to_string].
  by rewrite parseInt_printed_whole.
Qed.

Lemma parseInt_fraction m e :
  m <> 0 -> e < 0 ->
  10 ^ (- e) <= Z.abs m * 10 ^ 6 -> Z.abs m < 10 ^ (21 - e) ->
  parseInt (JNum (Fin m e)) = double (m <? 0) (Z.abs m / 10 ^ (- e)) 0.
Proof. intros. unfold parseInt. cbn [to_string]. by apply parseInt_printed_fraction. Qed.

(** A numeral in a string. *)
Lemma parseInt_text z :
  z <> 0 -> parseInt (JStr (pretty z)) = double (z <? 0) (Z.abs z) 0.
Proof.
  intros Hz. unfold parseInt. cbn [to_string].
  destruct (digits_of_nonzero z Hz) as (d & ds & Hp & Hd & Hds & Hval).
  assert (Htext : pretty z = (if z <? 0 then "-" else "") +:+ numeral (d :: ds) +:+ "").
  { rewrite string_app_empty, <- Hp. by destruct z. }
  rewrite Htext, parseInt_numeral by done. by rewrite Hval.
Qed.

(** ** What [parseInt] can return *)

Lemma digit_of_nonneg c d : digit_of c = Some d -> 0 <= d.
Proof.
  unfold digit_of. case_match eqn:Hc; [|done]. intros [= <-].
  apply andb_true_iff in Hc as [?%Z.leb_le _]. lia.
Qed.

Lemma hex_digit_of_nonneg c d : hex_digit_of c = Some d -> 0 <= d.
Proof.
  unfold hex_digit_of. repeat case_match; try done; intros [= <-];
    repeat match goal with
           | H : (_ && _) = true |- _ => apply andb_true_iff in H as [?%Z.leb_le ?]
           end; lia.
Qed.

Lemma span_digits_nonneg (digit : ascii -> option Z) s :
  (forall c d, digit c = Some d -> 0 <= d) ->
  Forall (fun d => 0 <= d) (span_digits digit s).1.
Proof.
  intros Hdigit. induction s as [|c s IH]; [constructor|].
  cbn [span_digits]. destruct (digit c) as [d|] eqn:Hc; [|constructor].
  destruct (span_digits digit s) as [ds tl]. constructor; [|exact IH].
  by apply (Hdigit c).
Qed.

Lemma digits_value_nonneg radix ds :
  0 <= radix -> Forall (fun d => 0 <= d) ds -> 0 <= digits_value radix ds.
Proof.
  intros Hr Hds. unfold digits_value.
  assert (forall acc, 0 <= acc ->
            0 <= fold_left (fun acc d => acc * radix + d) ds acc) as Hfold.
  { induction Hds as [|d ds Hd _ IH]; intros acc Hacc; [done|].
    cbn [fold_left]. apply IH. nia. }
  by apply Hfold.
Qed.

Lemma radix_prefix_cases s :
  ((radix_prefix s).1.1 = 16 /\ (radix_prefix s).1.2 = hex_digit_of) \/
  ((radix_prefix s).1.1 = 10 /\ (radix_prefix s).1.2 = digit_of).
Proof. unfold radix_prefix. repeat case_match; auto. Qed.

(** [parseInt] gives [NaN] or the Number value of an integer. *)
Lemma parseInt_cases v :
  parseInt v = NaN \/
  exists (negative : bool) z, 0 <= z /\ parseInt v = double negative z 0.
Proof.
  unfold parseInt, parseInt_string.
  destruct (strip_sign _) as [negative s].
  pose proof (radix_prefix_cases s) as Hradix.
  destruct (radix_prefix s) as [[radix digit] s']. cbn [fst snd] in Hradix.
  pose proof (span_digits_nonneg digit s') as Hds.
  destruct (span_digits digit s') as [[|z ds] tl]; [by left|].
  right. exists negative, (digits_value radix (z :: ds)). split; [|done].
  destruct Hradix as [[-> ->]|[-> ->]].
  - apply digits_value_nonneg; [lia|]. apply Hds, hex_digit_of_nonneg.
  - apply digits_value_nonneg; [lia|]. apply Hds, digit_of_nonneg.
Qed.

Lemma parseInt_is_double v : is_double (parseInt v).
Proof.
  destruct (parseInt_cases v) as [->|(negative & z & _ & ->)]; [exact I|].
  apply double_is_double.
Qed.

Lemma integer_coerced v : integer_coercion v (json_num (parseInt v)).
Proof.
  split; [|split; [|split]].
  - intros m x -> Hn Hm Hx Hb. by rewrite parseInt_whole.
  - intros m x -> Hm Hx Hlo Hhi. by rewrite parseInt_fraction.
  - intros z -> Hz. by rewrite parseInt_text.
  - destruct (parseInt_cases v) as [->|(negative & z & Hz & ->)]; [by left|].
    right. by exists negative, z.
Qed.

Lemma decimal_coerced v : decimal_coercion v (json_num (parseFloat v)).
Proof.
  split.
  - intros n -> Hn (m & x & ->). by rewrite (parseFloat_number _ Hn) by eauto.
  - intros n -> Hn (m & x & ->).
    fold (to_string (JNum (Fin m x))). 
    change (parseFloat (JStr (to_string (JNum (Fin m x)))))
      with (parseFloat (JNum (Fin m x))).
    by rewrite (parseFloat_number _ Hn) by eauto.
Qed.

(* ===================================================================== *)
(** * Programs and their runs *)
(* ===================================================================== *)

Lemma split_spaceless s : spaceless s = true -> split " " s = [s].
Proof.
  induction s as [|c s IH]; simpl; [done|].
  intros [Hc Hs]%andb_prop. apply negb_true_iff in Hc. rewrite Hc.
  by rewrite (IH Hs).
Qed.

Lemma split_cons_spaceless s rest :
  spaceless s = true -> split " " (s +:+ String " " rest) = s :: split " " rest.
Proof.
  induction s as [|c s IH]; simpl; [done|].
  intros [Hc Hs]%andb_prop. apply negb_true_iff in Hc. rewrite Hc.
  by rewrite (IH Hs).
Qed.



Lemma issues_run {R} getUser date_rank (p : prog R) d q :
  q ∈ sent date_rank getUser p d -> exists a, issues p a q.
Proof.
  revert d. induction p as [r|t k IH|a q' k IH]; intros d; simpl.
  - by intros ?%elem_of_nil.
  - intros [a Ha]%IH. exists a. by econstructor.
  - destruct (exec date_rank q' d) as [rep d'] eqn:E.
    intros [->|[a' Ha]%IH]%elem_of_cons.
    + exists a. constructor.
    + exists a'. by econstructor.
Qed.

(** The handlers never call the identity service themselves. *)
Lemma handler_verifies_nothing r h req s t :
  handler r = Some h -> ~ verifies (h req s) t.
Proof.
  intros Hh Hv. destruct r; simplify_eq/=;
    unfold get_workouts, get_workout, post_workouts, patch_workout,
      delete_workout, get_exercises, post_exercises, patch_exercise,
      delete_exercise, caught in Hv;
    repeat match goal with
    | H : verifies (if ?b then _ else _) _ |- _ => destruct b
    | H : verifies (match ?x with _ => _ end) _ |- _ => destruct x
    | H : verifies (Ret _) _ |- _ => inversion H
    | H : verifies (Store _ _ _) _ |- _ => inversion H; clear H; subst
    end.
Qed.

(** Every query a handler can send is tied to the caller, by a filter on
    [user_id] or by the [user_id] of the row it inserts, except on the three
    exercise routes that go by a bare key. *)
Lemma queries_tied_to_caller r h req s a q :
  handler r = Some h -> issues (h req s) a q ->
  scoped_to (id (req_user s)) q \/
  (exists w, q_verb q = InsertWorkout w /\ wn_user_id w = id (req_user s)) \/
  (exists e, q_verb q = InsertExercise e /\ en_user_id e = id (req_user s)) \/
  (exists k, r = GET_exercises k \/ r = PATCH_exercise k \/ r = DELETE_exercise k).
Proof.
  intros Hh Hq. destruct r; simplify_eq/=;
    try (right; right; right; eauto; fail);
    unfold get_workouts, get_workout, post_workouts, patch_workout,
      delete_workout, post_exercises, caught in Hq;
    repeat match goal with
    | H : issues (if ?b then _ else _) _ _ |- _ => destruct b
    | H : issues (match ?x with _ => _ end) _ _ |- _ => destruct x
    | H : issues (Ret _) _ _ |- _ => inversion H
    | H : issues (Store _ _ _) _ _ |- _ => inversion H; clear H; subst
    end;
    first [ left; unfold scoped_to; cbn; set_solver
          | right; left; eexists; split; reflexivity
          | right; right; left; eexists; split; reflexivity ].
Qed.

(* ===================================================================== *)
(** * The authentication middleware *)
(* ===================================================================== *)

Section Middleware.

Variable date_rank : jsval -> Z.
Variable getUser : string -> getUser_reply.

Lemma app_protected r h req :
  handler r = Some h -> app r req = authenticateUser req (h req).
Proof. unfold app. by intros ->. Qed.

Lemma authenticateUser_token req next header token :
  authorization req = Some header ->
  split " " header !! 1%nat = Some token -> token <> "" ->
  authenticateUser req next = GetUser token (verified token next).
Proof.
  intros Ha Ht Hne. unfold authenticateUser. rewrite Ha.
  destruct header as [|c header]; [done|]. cbn [opt_truthy str_truthy negb mbind option_bind].
  rewrite Ht. by destruct token.
Qed.

Lemma authenticateUser_malformed req next header :
  authorization req = Some header -> header <> "" ->
  split " " header !! 1%nat = None \/ split " " header !! 1%nat = Some "" ->
  authenticateUser req next =
    Ret (respond 401 (error_body "Invalid authorization format")).
Proof.
  intros Ha Hne Ht. unfold authenticateUser. rewrite Ha.
  destruct header as [|c header]; [done|]. cbn [opt_truthy str_truthy negb mbind option_bind].
  by destruct Ht as [-> | ->].
Qed.

(** A request that passes the middleware is served by its handler. *)
Lemma authenticated_app r h req s :
  handler r = Some h -> authenticated getUser req s ->
  forall d, run date_rank getUser (app r req) d = run date_rank getUser (h req s) d /\
            sent date_rank getUser (app r req) d = sent date_rank getUser (h req s) d.
Proof.
  intros Hh (header & token & u & Ha & Ht & Hne & Hg & ->) d.
  rewrite (app_protected _ _ _ Hh).
  rewrite (authenticateUser_token _ _ _ _ Ha Ht Hne). simpl. by rewrite Hg.
Qed.

(** C2. On a protected route the middleware is a chain of exits: a header
    that is absent (or empty, which [!authHeader] does not tell apart)
    gives 401 "No token provided"; a header without a second segment
    between spaces, or with an empty one, gives 401 "Invalid authorization
    format"; otherwise the identity service is asked about that segment:
    when the call throws the answer is 500, when it reports an error or no
    user the answer is 401 "Invalid token", and when it resolves a user the
    route's handler runs with that user and a client bound to the token. *)
Theorem authenticateUser_chain r h req d :
  handler r = Some h ->
  let served := run date_rank getUser (app r req) d in
  ((authorization req = None \/ authorization req = Some "") ->
     served = (respond 401 (error_body "No token provided"), d)) /\
  (forall header, authorization req = Some header -> header <> "" ->
     (split " " header !! 1%nat = None \/ split " " header !! 1%nat = Some "") ->
     served = (respond 401 (error_body "Invalid authorization format"), d)) /\
  (forall header token, authorization req = Some header ->
     split " " header !! 1%nat = Some token -> token <> "" ->
     (getUser token = getUser_throws ->
        served = (respond 500 (error_body "Authentication failed"), d)) /\
     (forall u e, getUser token = getUser_resolves u e ->
        (e <> None \/ u = None) ->
        served = (respond 401 (error_body "Invalid token"), d)) /\
     (forall u, getUser token = getUser_resolves (Some u) None ->
        served = run date_rank getUser
                   (h req {| req_supabase := "Bearer " +:+ token; req_user := u |}) d)).
Proof.
  intros Hh served. subst served. rewrite (app_protected _ _ _ Hh).
  split; [|split].
  - intros [Ha|Ha]; unfold authenticateUser; by rewrite Ha.
  - intros header Ha Hne Ht.
    by rewrite (authenticateUser_malformed _ _ _ Ha Hne Ht).
  - intros header token Ha Ht Hne.
    rewrite (authenticateUser_token _ _ _ _ Ha Ht Hne). simpl.
    split; [|split].
    + by intros ->.
    + intros u e -> [He| ->]; simpl; [|by destruct e].
      destruct u, e; done.
    + by intros u ->.
Qed.

(** C10. The scheme word is never looked at.  Whatever the header, a token
    reaches the identity service only as the second of the segments that
    single spaces delimit, and that segment is sent as soon as it is not
    empty: for a header [scheme token], any [scheme] will do.  A non-empty
    header without a space is answered 401 "Invalid authorization format". *)
Theorem token_is_second_segment r h req header :
  handler r = Some h -> authorization req = Some header ->
  (forall t, verifies (app r req) t -> split " " header !! 1%nat = Some t) /\
  (forall t, split " " header !! 1%nat = Some t -> t <> "" ->
     app r req = GetUser t (verified t (h req))) /\
  (forall scheme t, spaceless scheme = true -> spaceless t = true -> t <> "" ->
     header = scheme +:+ " " +:+ t ->
     app r req = GetUser t (verified t (h req))) /\
  (header <> "" -> spaceless header = true ->
     app r req = Ret (respond 401 (error_body "Invalid authorization format"))).
Proof.
  intros Hh Ha. rewrite (app_protected _ _ _ Hh).
  assert (Hsend : forall t, split " " header !! 1%nat = Some t -> t <> "" ->
     authenticateUser req (h req) = GetUser t (verified t (h req))).
  { intros t Ht Hne. by apply authenticateUser_token with header. }
  split; [|split; [exact Hsend|split]].
  - intros t Hv. unfold authenticateUser in Hv. rewrite Ha in Hv.
    destruct header as [|c header]; [inversion Hv|].
    cbn [opt_truthy str_truthy negb mbind option_bind] in Hv.
    destruct (split " " (String c header) !! 1%nat) as [[|c' t']|] eqn:Ht;
      try (inversion Hv; fail).
    cbn [opt_truthy str_truthy negb default] in Hv.
    inversion Hv as [| |t0 k g t1 Hk]; subst; [done|].
    exfalso. unfold verified in Hk.
    destruct g as [|[u|] [e|]]; try (inversion Hk; fail).
    by eapply handler_verifies_nothing.
  - intros scheme t Hs Ht Hne ->. apply Hsend; [|done].
    change (scheme +:+ " " +:+ t) with (scheme +:+ String " " t).
    by rewrite (split_cons_spaceless _ _ Hs), (split_spaceless _ Ht).
  - intros Hne Hs. apply authenticateUser_malformed with header; [done..|].
    left. by rewrite (split_spaceless _ Hs).
Qed.

End Middleware.

(* ===================================================================== *)
(** * Facts about the store *)
(* ===================================================================== *)

Section StoreFacts.

Variable date_rank : jsval -> Z.

Lemma workout_matches_scoped j w i u :
  workout_matches [("id", i); ("user_id", u)] (j, w) = true <->
  j = i /\ w_user_id w = u.
Proof.
  unfold workout_matches, workout_has; simpl.
  rewrite !andb_true_iff, !bool_decide_eq_true. tauto.
Qed.

(** The rows [.eq('id', i).eq('user_id', u)] keeps: the row under key [i]
    when [u] owns it, and no row otherwise. *)
Lemma scoped_rows (m : gmap string workout) i u :
  filter (fun r => workout_matches [("id", i); ("user_id", u)] r = true) m =
  match m !! i with
  | Some w => if bool_decide (w_user_id w = u) then {[ i := w ]} else ∅
  | None => ∅
  end.
Proof.
  apply map_eq; intros j.
  destruct (filter _ m !! j) as [w|] eqn:Hf.
  - apply map_lookup_filter_Some in Hf as [Hj [-> Hu]%workout_matches_scoped].
    rewrite Hj, bool_decide_eq_true_2 by done. by rewrite lookup_singleton_eq.
  - symmetry. destruct (m !! i) as [w|] eqn:Hi; [|done].
    case_bool_decide as Hu; [|done].
    apply lookup_singleton_None. intros ->.
    apply map_lookup_filter_None in Hf as [Hf|Hf]; [congruence|].
    apply (Hf w Hi). by apply workout_matches_scoped.
Qed.

Lemma unscoped_rows (m : gmap string workout) i u :
  (forall w, m !! i = Some w -> w_user_id w <> u) ->
  filter (fun r => workout_matches [("id", i); ("user_id", u)] r = true) m = ∅.
Proof.
  intros Hno. rewrite scoped_rows. destruct (m !! i) as [w|] eqn:Hi; [|done].
  by rewrite bool_decide_eq_false_2 by by apply Hno.
Qed.

Lemma owned_rows (m : gmap string workout) i u w :
  m !! i = Some w -> w_user_id w = u ->
  filter (fun r => workout_matches [("id", i); ("user_id", u)] r = true) m = {[ i := w ]}.
Proof.
  intros Hi Hu. rewrite scoped_rows, Hi. by rewrite bool_decide_eq_true_2.
Qed.

(** The select that looks one workout up by key and owner. *)
Lemma exec_lookup cols d i u :
  exec date_rank
    (from workouts (Select cols) |> eq "id" i |> eq "user_id" u |> single) d =
  match db_workouts d !! i with
  | Some w =>
      if bool_decide (w_user_id w = u)
      then (ok (one (project_workout d cols (i, w))), d)
      else (failed cardinality_error, d)
  | None => (failed cardinality_error, d)
  end.
Proof.
  unfold exec. replace (columns_known _) with true by reflexivity.
  cbn [q_from from eq single]. unfold exec_workouts.
  cbn [q_verb q_eq q_order from eq single Datatypes.app].
  rewrite scoped_rows.
  destruct (db_workouts d !! i) as [w|]; [case_bool_decide|];
    rewrite ?map_to_list_singleton, ?map_to_list_empty; reflexivity.
Qed.

End StoreFacts.

(* ===================================================================== *)
(** * The routes *)
(* ===================================================================== *)

Section Routes.

Variable date_rank : jsval -> Z.
Variable getUser : string -> getUser_reply.

Local Abbreviation serve r req d := (run date_rank getUser (app r req) d).
Local Abbreviation queries r req d := (sent date_rank getUser (app r req) d).

(** ** GET /api/workouts/:id *)

Lemma get_workout_found req s i w d :
  authenticated getUser req s ->
  db_workouts d !! i = Some w -> w_user_id w = id (req_user s) ->
  serve (GET_workout i) req d =
    (respond 200
       (workout_body (Some (one (workout_obj i w (embed_rows (exercises_of d i)))))),
     d).
Proof.
  intros Hauth Hi Hu.
  destruct (authenticated_app date_rank getUser (GET_workout i) _ req s eq_refl Hauth d)
    as [-> _].
  unfold get_workout. cbn [run]. rewrite exec_lookup, Hi.
  by rewrite bool_decide_eq_true_2.
Qed.

(** C6 (as the code behaves).  When the caller owns no workout under the
    requested key, the single-row select comes back with an error, which
    the handler throws before it reaches its [404] test: the request is
    answered 500 with the store's message. *)
Theorem get_workout_missing_is_500 req s i d :
  authenticated getUser req s ->
  (forall w, db_workouts d !! i = Some w -> w_user_id w <> id (req_user s)) ->
  serve (GET_workout i) req d = (respond 500 (error_body cardinality_error), d).
Proof.
  intros Hauth Hno.
  destruct (authenticated_app date_rank getUser (GET_workout i) _ req s eq_refl Hauth d)
    as [-> _].
  unfold get_workout. cbn [run]. rewrite exec_lookup.
  destruct (db_workouts d !! i) as [w|] eqn:Hi; [|done].
  by rewrite bool_decide_eq_false_2 by by apply Hno.
Qed.

(** ** POST /api/workouts/:workoutId/exercises *)

Lemma exec_insert_exercise r d :
  exec date_rank (from exercises (InsertExercise r) |> returning |> single) d =
  (ok (one (exercise_obj (fresh_string "e" (db_exercises d)) (new_exercise d r))),
   {| db_workouts := db_workouts d;
      db_exercises := <[fresh_string "e" (db_exercises d) := new_exercise d r]> (db_exercises d);
      db_clock := S (db_clock d) |}).
Proof. reflexivity. Qed.

Lemma post_exercises_validated wid req s :
  passes_validation (body req) ->
  post_exercises wid req s =
  Store (req_supabase s)
    (from workouts (Select id_only) |> eq "id" wid
       |> eq "user_id" (id (req_user s)) |> single)
    (fun found =>
       match data found with
       | None => Ret (respond 404 (error_body "Workout not found"))
       | Some _ =>
           Store (req_supabase s)
             (from exercises
                (InsertExercise
                   {| en_workout_id := wid;
                      en_user_id := id (req_user s);
                      en_exercise_name := field (body req) "exercise_name";
                      en_sets := parseInt (field (body req) "sets");
                      en_reps := parseInt (field (body req) "reps");
                      en_weight := parseFloat (field (body req) "weight") |})
                |> returning |> single)
             (fun r =>
                match error r with
                | Some message => caught message
                | None => Ret (respond 201 (exercise_body (data r)))
                end)
       end).
Proof.
  intros (Hn & Hs & Hr & Hw). unfold post_exercises.
  rewrite Hn, Hs, Hr. by rewrite bool_decide_eq_false_2.
Qed.

Lemma post_exercises_unowned req s wid d :
  passes_validation (body req) ->
  (forall w, db_workouts d !! wid = Some w -> w_user_id w <> id (req_user s)) ->
  run date_rank getUser (post_exercises wid req s) d =
    (respond 404 (error_body "Workout not found"), d).
Proof.
  intros Hval Hno. rewrite (post_exercises_validated _ _ _ Hval).
  cbn [run]. rewrite exec_lookup.
  destruct (db_workouts d !! wid) as [w|] eqn:Hi; [|done].
  by rewrite bool_decide_eq_false_2 by by apply Hno.
Qed.

Lemma post_exercises_owned req s wid d w :
  passes_validation (body req) ->
  db_workouts d !! wid = Some w -> w_user_id w = id (req_user s) ->
  run date_rank getUser (post_exercises wid req s) d =
    (respond 201
       (exercise_body
          (Some (one (exercise_obj (fresh_string "e" (db_exercises d))
                        (new_exercise d (requested_exercise req s wid)))))),
     {| db_workouts := db_workouts d;
        db_exercises :=
          <[fresh_string "e" (db_exercises d) :=
              new_exercise d (requested_exercise req s wid)]> (db_exercises d);
        db_clock := S (db_clock d) |}).
Proof.
  intros Hval Hi Hu. rewrite (post_exercises_validated _ _ _ Hval).
  cbn [run]. rewrite exec_lookup, Hi, bool_decide_eq_true_2 by done.
  cbn [data ok run]. by rewrite exec_insert_exercise.
Qed.

(** C4. A validated request for a workout the caller does not own is
    answered 404 and leaves the store as it was.  For a workout the caller
    owns, one exercise row is added under a key that was free and returned
    with status 201: it names the workout and the caller; [sets] and [reps]
    hold what [parseInt] made of the body, [null] when that is no finite
    number, and are coerced to integers: a whole number is stored as it is,
    a number with a fraction without the fraction, a numeral in a string as
    its number; [weight] holds what [parseFloat] made of the body, a number
    being stored as it is. *)
Theorem post_exercises_checks_workout req s wid d :
  authenticated getUser req s ->
  passes_validation (body req) ->
  ((forall w, db_workouts d !! wid = Some w -> w_user_id w <> id (req_user s)) ->
     serve (POST_exercises wid) req d =
       (respond 404 (error_body "Workout not found"), d)) /\
  (forall w, db_workouts d !! wid = Some w -> w_user_id w = id (req_user s) ->
     exists i e,
       db_exercises d !! i = None /\
       e_workout_id e = wid /\ e_user_id e = id (req_user s) /\
       e_sets e = json_num (parseInt (field (body req) "sets")) /\
       e_reps e = json_num (parseInt (field (body req) "reps")) /\
       e_weight e = json_num (parseFloat (field (body req) "weight")) /\
       integer_coercion (field (body req) "sets") (e_sets e) /\
       integer_coercion (field (body req) "reps") (e_reps e) /\
       decimal_coercion (field (body req) "weight") (e_weight e) /\
       serve (POST_exercises wid) req d =
         (respond 201 (exercise_body (Some (one (exercise_obj i e)))),
          {| db_workouts := db_workouts d;
             db_exercises := <[i := e]> (db_exercises d);
             db_clock := S (db_clock d) |})).
Proof.
  intros Hauth Hval.
  destruct (authenticated_app date_rank getUser (POST_exercises wid) _ req s eq_refl Hauth d)
    as [-> _].
  split.
  - intros Hno. by apply post_exercises_unowned.
  - intros w Hi Hu. rewrite (post_exercises_owned _ _ _ _ _ Hval Hi Hu).
    exists (fresh_string "e" (db_exercises d)),
           (new_exercise d (requested_exercise req s wid)).
    split; [apply fresh_string_fresh|].
    do 5 (split; [reflexivity|]).
    cbn [new_exercise requested_exercise e_sets e_reps e_weight
         en_sets en_reps en_weight].
    split; [apply integer_coerced|]. split; [apply integer_coerced|].
    split; [apply decimal_coerced|reflexivity].
Qed.

(** C5. The weight is only tested against [undefined].  With no [weight]
    member the request is answered 400 and nothing is stored.  With a name,
    sets and reps that are truthy, any weight that is there passes: the
    answer is 404 or 201 according to the workout check, never 400, and a
    weight of [0] is stored as [0] with status 201 when the caller owns the
    workout. *)
Theorem post_exercises_weight_check req s wid d :
  authenticated getUser req s ->
  (body req !! "weight" = None ->
     serve (POST_exercises wid) req d =
       (respond 400 (error_body "All fields are required"), d)) /\
  (truthy (field (body req) "exercise_name") = true ->
   truthy (field (body req) "sets") = true ->
   truthy (field (body req) "reps") = true ->
   (forall v, field (body req) "weight" = v -> v <> JUndefined ->
      status (serve (POST_exercises wid) req d).1 = 404 \/
      status (serve (POST_exercises wid) req d).1 = 201) /\
   (field (body req) "weight" = JNum (Fin 0 0) ->
    forall w, db_workouts d !! wid = Some w -> w_user_id w = id (req_user s) ->
      exists i e,
        e_weight e = JNum (Fin 0 0) /\
        serve (POST_exercises wid) req d =
          (respond 201 (exercise_body (Some (one (exercise_obj i e)))),
           {| db_workouts := db_workouts d;
              db_exercises := <[i := e]> (db_exercises d);
              db_clock := S (db_clock d) |}))).
Proof.
  intros Hauth. split.
  - intros Hw.
    destruct (authenticated_app date_rank getUser (POST_exercises wid) _ req s eq_refl Hauth d)
      as [-> _].
    assert (Hu : field (body req) "weight" = JUndefined)
      by (unfold field; by rewrite Hw).
    unfold post_exercises. rewrite (bool_decide_eq_true_2 _ Hu).
    by rewrite !orb_true_r.
  - intros Hn Hs Hr.
    destruct (authenticated_app date_rank getUser (POST_exercises wid) _ req s eq_refl Hauth d)
      as [-> _].
    split.
    + intros v <- Hne.
      assert (Hval : passes_validation (body req)) by by repeat split.
      destruct (db_workouts d !! wid) as [w|] eqn:Hi.
      * destruct (decide (w_user_id w = id (req_user s))) as [Hu|Hu].
        -- rewrite (post_exercises_owned _ _ _ _ _ Hval Hi Hu). by right.
        -- rewrite post_exercises_unowned; [by left|done|].
           intros w'. rewrite Hi. by intros [= <-].
      * rewrite post_exercises_unowned; [by left|done|].
        intros w'. by rewrite Hi.
    + intros Hz w Hi Hu.
      assert (Hval : passes_validation (body req))
        by (repeat split; [done..|by rewrite Hz]).
      rewrite (post_exercises_owned _ _ _ _ _ Hval Hi Hu).
      eexists _, _. split; [|reflexivity].
      cbn [new_exercise requested_exercise e_weight en_weight]. by rewrite Hz.
Qed.

(** ** POST /api/workouts *)

Lemma exec_insert_workout r d :
  exec date_rank (from workouts (InsertWorkout r) |> returning |> single) d =
  (ok (one (workout_obj (fresh_string "w" (db_workouts d)) (new_workout d r) no_embed)),
   {| db_workouts := <[fresh_string "w" (db_workouts d) := new_workout d r]> (db_workouts d);
      db_exercises := db_exercises d;
      db_clock := S (db_clock d) |}).
Proof. reflexivity. Qed.

Lemma field_absent (b : gmap string jsval) name :
  b !! name = None -> field b name = JUndefined.
Proof. unfold field. by intros ->. Qed.

(** C7. Without a usable [name] or [workout_date] (the member is absent, or
    its value is falsy, which [!name] does not tell apart) the request is
    answered 400, no query is sent and the store is as it was.  With both,
    one row is added under a key that was free, owned by the caller and
    holding the name, date and notes of the body, and it is returned with
    status 201. *)
Theorem post_workouts_requires_name_and_date req s d :
  authenticated getUser req s ->
  ((body req !! "name" = None \/ body req !! "workout_date" = None \/
    truthy (field (body req) "name") = false \/
    truthy (field (body req) "workout_date") = false) ->
     serve POST_workouts req d =
       (respond 400 (error_body "Name and date are required"), d) /\
     queries POST_workouts req d = []) /\
  (truthy (field (body req) "name") = true ->
   truthy (field (body req) "workout_date") = true ->
     exists i w,
       db_workouts d !! i = None /\
       w_user_id w = id (req_user s) /\
       w = new_workout d
             {| wn_user_id := id (req_user s);
                wn_name := field (body req) "name";
                wn_workout_date := field (body req) "workout_date";
                wn_notes := js_or (field (body req) "notes") JNull |} /\
       (forall n, field (body req) "name" = JStr n -> w_name w = JStr n) /\
       (forall t, field (body req) "workout_date" = JStr t -> w_workout_date w = JStr t) /\
       serve POST_workouts req d =
         (respond 201 (workout_body (Some (one (workout_obj i w no_embed)))),
          {| db_workouts := <[i := w]> (db_workouts d);
             db_exercises := db_exercises d;
             db_clock := S (db_clock d) |})).
Proof.
  intros Hauth.
  destruct (authenticated_app date_rank getUser POST_workouts _ req s eq_refl Hauth d)
    as [-> ->].
  split.
  - intros Hmiss.
    assert (Hf : negb (truthy (field (body req) "name"))
                 || negb (truthy (field (body req) "workout_date")) = true).
    { destruct Hmiss as [H|[H|[H|H]]];
        rewrite ?(field_absent _ _ H), ?H; simpl; by rewrite ?orb_true_r. }
    unfold post_workouts. by rewrite Hf.
  - intros Hn Hd. unfold post_workouts. rewrite Hn, Hd. cbn [negb orb run].
    rewrite exec_insert_workout. cbn [error data ok run].
    eexists _, _. split; [apply fresh_string_fresh|].
    split; [|split; [reflexivity|]]; [reflexivity|].
    split; [|split; [|reflexivity]].
    + intros n Hs. cbn [new_workout w_name wn_name]. by rewrite Hs.
    + intros t Hs. cbn [new_workout w_workout_date wn_workout_date]. by rewrite Hs.
Qed.

(** ** DELETE /api/workouts/:id *)

Lemma exec_delete_workout d i u :
  exec date_rank (from workouts Delete |> eq "id" i |> eq "user_id" u) d =
  (no_data, without_workout d i u).
Proof. reflexivity. Qed.

Lemma without_workout_missing d i u :
  (forall w, db_workouts d !! i = Some w -> w_user_id w <> u) ->
  without_workout d i u = d.
Proof.
  intros Hno. unfold without_workout. rewrite (unscoped_rows _ _ _ Hno).
  destruct d as [ws es c]; cbn [db_workouts db_exercises db_clock] in *. f_equal.
  - apply map_filter_id. intros j w Hj. apply not_true_is_false.
    intros [-> Hu]%workout_matches_scoped. by apply (Hno w).
  - apply map_filter_id. intros j e _. apply lookup_empty.
Qed.

Lemma without_workout_owned d i u w :
  db_workouts d !! i = Some w -> w_user_id w = u ->
  db_workouts (without_workout d i u) = delete i (db_workouts d) /\
  db_exercises (without_workout d i u) =
    filter (fun r => e_workout_id r.2 <> i) (db_exercises d).
Proof.
  intros Hi Hu. unfold without_workout. cbn [db_workouts db_exercises]. split.
  - apply map_eq; intros j. rewrite lookup_delete.
    case_decide as Hj.
    + subst j. apply map_lookup_filter_None. right. intros w' Hw' Hhit.
      simplify_eq. apply not_true_iff_false in Hhit. apply Hhit.
      by apply workout_matches_scoped.
    + destruct (db_workouts d !! j) as [w'|] eqn:Hw'.
      * apply map_lookup_filter_Some. split; [done|]. apply not_true_is_false.
        intros [-> _]%workout_matches_scoped. done.
      * apply map_lookup_filter_None. by left.
  - rewrite (owned_rows _ _ _ _ Hi Hu). apply map_filter_ext.
    intros j e _; cbn. rewrite lookup_singleton_None. naive_solver.
Qed.

(** C8. Deleting a workout is answered 200 with the same message whether or
    not the caller owns a workout under the key, and never 404.  When none
    is owned the store is unchanged; when one is, that row and the exercises
    that reference it are gone.  Either way a second identical request
    gets the same answer and changes nothing. *)
Theorem delete_workout_idempotent req s i d :
  authenticated getUser req s ->
  exists d',
    serve (DELETE_workout i) req d =
      (respond 200 (message_body "Workout deleted successfully"), d') /\
    ((forall w, db_workouts d !! i = Some w -> w_user_id w <> id (req_user s)) ->
       d' = d) /\
    (forall w, db_workouts d !! i = Some w -> w_user_id w = id (req_user s) ->
       db_workouts d' = delete i (db_workouts d) /\
       db_exercises d' = filter (fun r => e_workout_id r.2 <> i) (db_exercises d)) /\
    serve (DELETE_workout i) req d' =
      (respond 200 (message_body "Workout deleted successfully"), d').
Proof.
  intros Hauth.
  assert (Hrun : forall d0, serve (DELETE_workout i) req d0 =
            (respond 200 (message_body "Workout deleted successfully"),
             without_workout d0 i (id (req_user s)))).
  { intros d0.
    destruct (authenticated_app date_rank getUser (DELETE_workout i) _ req s eq_refl Hauth d0)
      as [-> _].
    unfold delete_workout. cbn [run]. by rewrite exec_delete_workout. }
  exists (without_workout d i (id (req_user s))).
  split; [apply Hrun|]. split; [apply without_workout_missing|].
  split; [apply without_workout_owned|].
  rewrite Hrun. f_equal. apply without_workout_missing.
  intros w Hw Hu. unfold without_workout in Hw. cbn [db_workouts] in Hw.
  apply map_lookup_filter_Some in Hw as [_ Hhit].
  apply not_true_iff_false in Hhit. apply Hhit. by apply workout_matches_scoped.
Qed.

(** ** PATCH /api/exercises/:id and DELETE /api/exercises/:id *)

Lemma exercise_matches_id j e i :
  exercise_matches [("id", i)] (j, e) = true <-> j = i.
Proof.
  unfold exercise_matches, exercise_has; simpl.
  rewrite andb_true_iff, bool_decide_eq_true. tauto.
Qed.

Lemma keyed_rows (m : gmap string exercise) i e :
  m !! i = Some e ->
  filter (fun r => exercise_matches [("id", i)] r = true) m = {[ i := e ]}.
Proof.
  intros Hi. apply map_eq; intros j.
  destruct (decide (j = i)) as [->|Hj].
  - rewrite lookup_singleton_eq. apply map_lookup_filter_Some.
    split; [done|]. by apply exercise_matches_id.
  - rewrite lookup_singleton_ne by done. apply map_lookup_filter_None.
    right. intros e' _ Hhit%exercise_matches_id. done.
Qed.

Lemma unkeyed_rows (m : gmap string exercise) i :
  filter (fun r => exercise_matches [("id", i)] r = false) m = delete i m.
Proof.
  apply map_eq; intros j. rewrite lookup_delete. case_decide as Hj.
  - subst j. apply map_lookup_filter_None. right. intros e _ Hhit.
    apply not_true_iff_false in Hhit. apply Hhit. by apply exercise_matches_id.
  - destruct (m !! j) as [e|] eqn:He.
    + apply map_lookup_filter_Some. split; [done|]. apply not_true_is_false.
      intros ->%exercise_matches_id. done.
    + apply map_lookup_filter_None. by left.
Qed.

Lemma rewritten_rows (m : gmap string exercise) p i e :
  m !! i = Some e ->
  map_imap (fun j x => Some (if exercise_matches [("id", i)] (j, x)
                             then patched_exercise p x else x)) m =
  <[ i := patched_exercise p e ]> m.
Proof.
  intros Hi. apply map_eq; intros j. rewrite map_lookup_imap.
  destruct (decide (j = i)) as [->|Hj].
  - rewrite lookup_insert_eq, Hi. cbn [mbind option_bind].
    by rewrite (proj2 (exercise_matches_id i e i) eq_refl).
  - rewrite lookup_insert_ne by done. destruct (m !! j) as [x|]; [|done].
    cbn [mbind option_bind].
    destruct (exercise_matches [("id", i)] (j, x)) eqn:Hhit; [|done].
    by apply exercise_matches_id in Hhit.
Qed.

Lemma exec_delete_exercise d i :
  exec date_rank (from exercises Delete |> eq "id" i) d =
  (no_data, {| db_workouts := db_workouts d;
               db_exercises := delete i (db_exercises d);
               db_clock := db_clock d |}).
Proof.
  unfold exec. replace (columns_known _) with true by reflexivity.
  cbn [q_from from eq]. unfold exec_exercises.
  cbn [q_verb q_eq q_returning from eq Datatypes.app conclude].
  by rewrite unkeyed_rows.
Qed.

Lemma exec_update_exercise d p i e :
  db_exercises d !! i = Some e ->
  exec date_rank
    (from exercises (UpdateExercise p) |> eq "id" i |> returning |> single) d =
  (ok (one (exercise_obj i (patched_exercise p e))),
   {| db_workouts := db_workouts d;
      db_exercises := <[ i := patched_exercise p e ]> (db_exercises d);
      db_clock := db_clock d |}).
Proof.
  intros Hi. unfold exec. replace (columns_known _) with true by reflexivity.
  cbn [q_from from eq returning single]. unfold exec_exercises.
  cbn [q_verb q_eq q_returning from eq returning single Datatypes.app].
  rewrite (keyed_rows _ _ _ Hi), map_fmap_singleton, map_to_list_singleton.
  by rewrite (rewritten_rows _ _ _ _ Hi).
Qed.

Lemma exec_update_exercise_missing d p i :
  db_exercises d !! i = None ->
  exec date_rank
    (from exercises (UpdateExercise p) |> eq "id" i |> returning |> single) d =
  (failed cardinality_error, d).
Proof.
  intros Hi. unfold exec. replace (columns_known _) with true by reflexivity.
  cbn [q_from from eq returning single]. unfold exec_exercises.
  cbn [q_verb q_eq q_returning from eq returning single Datatypes.app].
  assert (Hnone : filter (fun r => exercise_matches [("id", i)] r = true)
                    (db_exercises d) = ∅).
  { apply map_eq; intros j. rewrite lookup_empty.
    apply map_lookup_filter_None. right. intros e Hj Hhit.
    apply exercise_matches_id in Hhit. congruence. }
  by rewrite Hnone, fmap_empty, map_to_list_empty.
Qed.

(** C1 (as the code behaves).  The two exercise mutations filter on the key
    alone.  Whoever owns the row under key [i], an authenticated
    [DELETE /api/exercises/i] sends one delete that is not scoped to the
    caller and removes the row, and an authenticated
    [PATCH /api/exercises/i] sends one update that is not scoped to the
    caller and overwrites the row. *)
Theorem exercise_mutations_ignore_owner req s i e d :
  authenticated getUser req s ->
  db_exercises d !! i = Some e ->
  (queries (DELETE_exercise i) req d = [from exercises Delete |> eq "id" i] /\
   ~ scoped_to (id (req_user s)) (from exercises Delete |> eq "id" i) /\
   serve (DELETE_exercise i) req d =
     (respond 200 (message_body "Exercise deleted successfully"),
      {| db_workouts := db_workouts d;
         db_exercises := delete i (db_exercises d);
         db_clock := db_clock d |})) /\
  (queries (PATCH_exercise i) req d =
     [from exercises (UpdateExercise (coerced (body req)))
        |> eq "id" i |> returning |> single] /\
   ~ scoped_to (id (req_user s))
       (from exercises (UpdateExercise (coerced (body req)))
          |> eq "id" i |> returning |> single) /\
   serve (PATCH_exercise i) req d =
     (respond 200
        (exercise_body
           (Some (one (exercise_obj i (patched_exercise (coerced (body req)) e))))),
      {| db_workouts := db_workouts d;
         db_exercises := <[ i := patched_exercise (coerced (body req)) e ]> (db_exercises d);
         db_clock := db_clock d |})).
Proof.
  intros Hauth Hi. split.
  - destruct (authenticated_app date_rank getUser (DELETE_exercise i) _ req s eq_refl Hauth d)
      as [-> ->].
    unfold delete_exercise. cbn [run sent]. rewrite exec_delete_exercise.
    cbn [error no_data run sent]. split; [done|]. split; [|done].
    unfold scoped_to; cbn. rewrite list_elem_of_singleton. by intros [=].
  - destruct (authenticated_app date_rank getUser (PATCH_exercise i) _ req s eq_refl Hauth d)
      as [-> ->].
    unfold patch_exercise. fold (coerced (body req)). cbn [run sent].
    rewrite (exec_update_exercise _ _ _ _ Hi).
    cbn [error data ok run sent]. split; [done|]. split; [|done].
    unfold scoped_to; cbn. rewrite list_elem_of_singleton. by intros [=].
Qed.

(** ** What [parseInt] and [parseFloat] make of text that is no number *)




(** ** Responses the middleware and the update handler can give *)



(** ** GET /api/workouts *)

Lemma before_list_order (a b : string * workout) :
  before (workout_key date_rank) list_order a b <->
  date_rank (w_workout_date b.2) < date_rank (w_workout_date a.2) \/
  (date_rank (w_workout_date b.2) = date_rank (w_workout_date a.2) /\
   (w_created_at b.2 <= w_created_at a.2)%nat).
Proof.
  unfold before, list_order, sort_key. cbn [map fst snd directed lex_leb].
  replace (workout_key date_rank "workout_date" a)
    with (date_rank (w_workout_date a.2)) by reflexivity.
  replace (workout_key date_rank "workout_date" b)
    with (date_rank (w_workout_date b.2)) by reflexivity.
  replace (workout_key date_rank "created_at" a)
    with (Z.of_nat (w_created_at a.2)) by reflexivity.
  replace (workout_key date_rank "created_at" b)
    with (Z.of_nat (w_created_at b.2)) by reflexivity.
  rewrite !orb_true_iff, !andb_true_iff, !orb_true_iff, !andb_true_iff,
    !Z.ltb_lt, !Z.eqb_eq.
  lia.
Qed.

Lemma list_order_total : Total (before (workout_key date_rank) list_order).
Proof. intros a b. rewrite !before_list_order. lia. Qed.

Lemma list_order_transitive : Transitive (before (workout_key date_rank) list_order).
Proof. intros a b c. rewrite !before_list_order. lia. Qed.

Lemma workout_matches_owner j w u :
  workout_matches [("user_id", u)] (j, w) = true <-> w_user_id w = u.
Proof.
  unfold workout_matches, workout_has; simpl.
  rewrite andb_true_iff, bool_decide_eq_true. tauto.
Qed.

Lemma mapM_listed d (l : list (string * workout)) :
  mapM with_exercise_count (project_workout d star_exercise_count <$> l) =
  Some (listed d <$> l).
Proof.
  induction l as [|r l IH]; [done|].
  rewrite !fmap_cons. cbn [mapM]. rewrite IH.
  unfold project_workout at 1, exercises_of. rewrite length_map_to_list.
  reflexivity.
Qed.

Lemma get_workouts_run req s d :
  run date_rank getUser (get_workouts req s) d =
  (respond 200 (workouts_body (listed d <$> own_workouts date_rank d (id (req_user s)))), d).
Proof.
  unfold get_workouts. cbn [run].
  replace (exec date_rank _ d)
    with (ok (rows (project_workout d star_exercise_count
                      <$> own_workouts date_rank d (id (req_user s)))), d)
    by reflexivity.
  cbn [error data ok]. by rewrite mapM_listed.
Qed.

(** C3. The list route answers 200 with exactly the caller's workouts, each
    once, sorted by date from the latest, workouts of one date by creation
    time from the latest, each with the number of exercise rows that
    reference it as [exercise_count]. *)
Theorem get_workouts_lists_own req s d :
  authenticated getUser req s ->
  exists ws,
    serve GET_workouts req d = (respond 200 (workouts_body ws), d) /\
    (forall lw, lw ∈ ws <->
       exists i w, db_workouts d !! i = Some w /\ w_user_id w = id (req_user s) /\
                   lw = {| lw_row := workout_obj i w (embed_count [exercise_rows d i]);
                           exercise_count := exercise_rows d i |}) /\
    NoDup ((fun lw => record_id (lw_row lw)) <$> ws) /\
    StronglySorted (newest_first date_rank) ws.
Proof.
  intros Hauth.
  destruct (authenticated_app date_rank getUser GET_workouts _ req s eq_refl Hauth d)
    as [-> _].
  rewrite get_workouts_run. eexists; split; [reflexivity|].
  unfold own_workouts, sorted_by.
  set (R := before (workout_key date_rank) list_order).
  set (l := map_to_list _).
  assert (Hperm : merge_sort R l ≡ₚ l) by apply merge_sort_Permutation.
  split; [|split].
  - intros lw. rewrite list_elem_of_fmap. split.
    + intros ([i w] & -> & Hin). rewrite Hperm in Hin. unfold l in Hin.
      apply elem_of_map_to_list, map_lookup_filter_Some in Hin as [Hi Hu].
      apply workout_matches_owner in Hu. by exists i, w.
    + intros (i & w & Hi & Hu & ->). exists (i, w). split; [done|].
      rewrite Hperm. unfold l.
      apply elem_of_map_to_list, map_lookup_filter_Some. split; [done|].
      by apply workout_matches_owner.
  - rewrite <- list_fmap_compose.
    replace (_ <$> merge_sort R l) with ((merge_sort R l).*1)
      by (apply list_fmap_ext; by intros ? [??]).
    rewrite Hperm. apply NoDup_fst_map_to_list.
  - apply StronglySorted_fmap with R.
    + intros a b Hab%before_list_order. exact Hab.
    + apply StronglySorted_merge_sort;
        [apply list_order_transitive|apply list_order_total].
Qed.

End Routes.

(* ===================================================================== *)
(** * The theorems at work in the sample world *)
(* ===================================================================== *)

Lemma alice_authenticated b :
  authenticated Sample.getUser (Sample.as_alice b) Sample.alice_session.
Proof.
  exists "Bearer tok-alice", "tok-alice", Sample.alice.
  repeat split; done.
Qed.

Lemma bob_authenticated b :
  authenticated Sample.getUser (Sample.as_bob b) Sample.bob_session.
Proof.
  exists "Bearer tok-bob", "tok-bob", Sample.bob.
  repeat split; done.
Qed.

(** Bob's token, on the keys of Alice's rows. *)
Lemma exercise_mutations_ignore_owner_witness :
  e_user_id Sample.squat <> id (req_user Sample.bob_session) /\
  run Sample.date_rank Sample.getUser
      (app (DELETE_exercise "e") (Sample.as_bob ∅)) Sample.gym =
    (respond 200 (message_body "Exercise deleted successfully"),
     {| db_workouts := db_workouts Sample.gym;
        db_exercises := delete "e" (db_exercises Sample.gym);
        db_clock := db_clock Sample.gym |}) /\
  run Sample.date_rank Sample.getUser
      (app (PATCH_exercise "e") (Sample.as_bob ∅)) Sample.gym =
    (respond 200
       (exercise_body
          (Some (one (exercise_obj "e"
                        (patched_exercise (coerced ∅) Sample.squat))))),
     {| db_workouts := db_workouts Sample.gym;
        db_exercises :=
          <[ "e" := patched_exercise (coerced ∅) Sample.squat ]>
            (db_exercises Sample.gym);
        db_clock := db_clock Sample.gym |}).
Proof.
  split; [discriminate|].
  pose proof (exercise_mutations_ignore_owner Sample.date_rank Sample.getUser
                (Sample.as_bob ∅) Sample.bob_session "e" Sample.squat Sample.gym
                (bob_authenticated ∅) eq_refl) as [(_ & _ & Hdel) (_ & _ & Hpatch)].
  split; [exact Hdel|exact Hpatch].
Defined.

Lemma authenticateUser_chain_witness :
  handler GET_workouts = Some get_workouts /\
  run Sample.date_rank Sample.getUser
      (app GET_workouts (Sample.request_of None ∅)) Sample.gym =
    (respond 401 (error_body "No token provided"), Sample.gym) /\
  run Sample.date_rank Sample.getUser
      (app GET_workouts (Sample.request_of (Some "Bearer") ∅)) Sample.gym =
    (respond 401 (error_body "Invalid authorization format"), Sample.gym) /\
  run Sample.date_rank Sample.getUser
      (app GET_workouts (Sample.request_of (Some "Bearer down") ∅)) Sample.gym =
    (respond 500 (error_body "Authentication failed"), Sample.gym) /\
  run Sample.date_rank Sample.getUser
      (app GET_workouts (Sample.request_of (Some "Bearer stale") ∅)) Sample.gym =
    (respond 401 (error_body "Invalid token"), Sample.gym) /\
  run Sample.date_rank Sample.getUser
      (app GET_workouts (Sample.as_alice ∅)) Sample.gym =
    run Sample.date_rank Sample.getUser
      (get_workouts (Sample.as_alice ∅) Sample.alice_session) Sample.gym.
Proof.
  pose (chain := fun req =>
    authenticateUser_chain Sample.date_rank Sample.getUser GET_workouts
      get_workouts req Sample.gym eq_refl).
  split; [reflexivity|]. split; [|split; [|split; [|split]]].
  - apply (proj1 (chain (Sample.request_of None ∅))). by left.
  - apply (proj1 (proj2 (chain (Sample.request_of (Some "Bearer") ∅))) "Bearer");
      [reflexivity|discriminate|by left].
  - apply (proj2 (proj2 (chain (Sample.request_of (Some "Bearer down") ∅)))
             "Bearer down" "down"); [reflexivity|reflexivity|discriminate|reflexivity].
  - apply (proj2 (proj2 (chain (Sample.request_of (Some "Bearer stale") ∅)))
             "Bearer stale" "stale" eq_refl eq_refl) with None (Some "invalid JWT");
      [discriminate|reflexivity|by left].
  - apply (proj2 (proj2 (chain (Sample.as_alice ∅)))
             "Bearer tok-alice" "tok-alice" eq_refl eq_refl);
      [discriminate|reflexivity].
Defined.

Lemma get_workouts_lists_own_witness :
  authenticated Sample.getUser (Sample.as_alice ∅) Sample.alice_session /\
  exists ws,
    run Sample.date_rank Sample.getUser (app GET_workouts (Sample.as_alice ∅)) Sample.gym =
      (respond 200 (workouts_body ws), Sample.gym) /\
    (forall lw, lw ∈ ws <->
       exists i w, db_workouts Sample.gym !! i = Some w /\ w_user_id w = "alice" /\
                   lw = {| lw_row := workout_obj i w (embed_count [exercise_rows Sample.gym i]);
                           exercise_count := exercise_rows Sample.gym i |}) /\
    NoDup ((fun lw => record_id (lw_row lw)) <$> ws) /\
    StronglySorted (newest_first Sample.date_rank) ws.
Proof.
  split; [apply alice_authenticated|].
  apply (get_workouts_lists_own Sample.date_rank Sample.getUser
           (Sample.as_alice ∅) Sample.alice_session Sample.gym).
  apply alice_authenticated.
Defined.

Lemma post_exercises_checks_workout_witness :
  authenticated Sample.getUser (Sample.as_alice Demo.mixed_body) Sample.alice_session /\
  passes_validation Demo.mixed_body /\
  db_workouts Sample.gym !! "w1" = Some Sample.bob_run /\
  db_workouts Sample.gym !! "w" = Some Sample.leg_day /\
  run Sample.date_rank Sample.getUser
      (app (POST_exercises "w1") (Sample.as_alice Demo.mixed_body)) Sample.gym =
    (respond 404 (error_body "Workout not found"), Sample.gym) /\
  exists i e,
    db_exercises Sample.gym !! i = None /\
    e_workout_id e = "w" /\ e_user_id e = "alice" /\
    e_sets e = JNum (Fin 3 0) /\ e_reps e = JNum (Fin 12 0) /\
    e_weight e = JNum (Fin 725 (-1)) /\
    run Sample.date_rank Sample.getUser
        (app (POST_exercises "w") (Sample.as_alice Demo.mixed_body)) Sample.gym =
      (respond 201 (exercise_body (Some (one (exercise_obj i e)))),
       {| db_workouts := db_workouts Sample.gym;
          db_exercises := <[i := e]> (db_exercises Sample.gym);
          db_clock := S (db_clock Sample.gym) |}).
Proof.
  assert (Hval : passes_validation Demo.mixed_body)
    by (repeat split; discriminate || reflexivity).
  split; [apply alice_authenticated|]. split; [exact Hval|].
  split; [reflexivity|]. split; [reflexivity|].
  pose (thm := fun wid =>
    post_exercises_checks_workout Sample.date_rank Sample.getUser
      (Sample.as_alice Demo.mixed_body) Sample.alice_session wid Sample.gym
      (alice_authenticated _) Hval).
  split.
  - apply (proj1 (thm "w1")). intros w [= <-]. discriminate.
  - destruct (proj2 (thm "w") Sample.leg_day eq_refl eq_refl)
      as (i & e & Hfree & Hw & Hu & _ & _ & _ & Hsets & Hreps & Hweight & Hrun).
    exists i, e. do 3 (split; [assumption|]). split; [|split; [|split]].
    + rewrite (proj1 (proj2 Hsets) 37 (-1) eq_refl); [|discriminate|lia..].
      vm_compute. reflexivity.
    + rewrite (proj1 (proj2 (proj2 Hreps)) 12 eq_refl); [|discriminate].
      vm_compute. reflexivity.
    + apply (proj1 Hweight (Fin 725 (-1)) eq_refl); [vm_compute; reflexivity|].
      by exists 725, (-1).
    + exact Hrun.
Defined.

Lemma post_exercises_weight_check_witness :
  authenticated Sample.getUser (Sample.as_alice Sample.bodyweight_body) Sample.alice_session /\
  authenticated Sample.getUser (Sample.as_alice Sample.no_weight_body) Sample.alice_session /\
  run Sample.date_rank Sample.getUser
      (app (POST_exercises "w") (Sample.as_alice Sample.no_weight_body)) Sample.gym =
    (respond 400 (error_body "All fields are required"), Sample.gym) /\
  exists i e,
    e_weight e = JNum (Fin 0 0) /\
    run Sample.date_rank Sample.getUser
        (app (POST_exercises "w") (Sample.as_alice Sample.bodyweight_body)) Sample.gym =
      (respond 201 (exercise_body (Some (one (exercise_obj i e)))),
       {| db_workouts := db_workouts Sample.gym;
          db_exercises := <[i := e]> (db_exercises Sample.gym);
          db_clock := S (db_clock Sample.gym) |}).
Proof.
  split; [apply alice_authenticated|]. split; [apply alice_authenticated|].
  split.
  - apply (proj1 (post_exercises_weight_check Sample.date_rank Sample.getUser
                    (Sample.as_alice Sample.no_weight_body) Sample.alice_session
                    "w" Sample.gym (alice_authenticated _))).
    reflexivity.
  - apply (proj2 (proj2 (post_exercises_weight_check Sample.date_rank Sample.getUser
                    (Sample.as_alice Sample.bodyweight_body) Sample.alice_session
                    "w" Sample.gym (alice_authenticated _))
                   eq_refl eq_refl eq_refl) eq_refl Sample.leg_day eq_refl eq_refl).
Defined.

(** Alice asks for a key that holds no row, and for the key of Bob's row. *)
Lemma get_workout_missing_is_500_witness :
  db_workouts Sample.gym !! "nowhere" = None /\
  db_workouts Sample.gym !! "w1" = Some Sample.bob_run /\
  run Sample.date_rank Sample.getUser
      (app (GET_workout "nowhere") (Sample.as_alice ∅)) Sample.gym =
    (respond 500 (error_body cardinality_error), Sample.gym) /\
  run Sample.date_rank Sample.getUser
      (app (GET_workout "w1") (Sample.as_alice ∅)) Sample.gym =
    (respond 500 (error_body cardinality_error), Sample.gym).
Proof.
  split; [reflexivity|]. split; [reflexivity|].
  pose (thm := fun i =>
    get_workout_missing_is_500 Sample.date_rank Sample.getUser
      (Sample.as_alice ∅) Sample.alice_session i Sample.gym (alice_authenticated ∅)).
  split.
  - apply (thm "nowhere"). intros w [=].
  - apply (thm "w1"). intros w [= <-]. discriminate.
Defined.

Lemma post_workouts_requires_name_and_date_witness :
  authenticated Sample.getUser (Sample.as_alice Sample.new_workout_body) Sample.alice_session /\
  (run Sample.date_rank Sample.getUser (app POST_workouts (Sample.as_alice ∅)) Sample.gym =
     (respond 400 (error_body "Name and date are required"), Sample.gym) /\
   sent Sample.date_rank Sample.getUser (app POST_workouts (Sample.as_alice ∅)) Sample.gym = []) /\
  exists i w,
    db_workouts Sample.gym !! i = None /\
    w_user_id w = "alice" /\ w_name w = JStr "Pull Day" /\
    w_workout_date w = JStr "2024-01-05" /\
    run Sample.date_rank Sample.getUser
        (app POST_workouts (Sample.as_alice Sample.new_workout_body)) Sample.gym =
      (respond 201 (workout_body (Some (one (workout_obj i w no_embed)))),
       {| db_workouts := <[i := w]> (db_workouts Sample.gym);
          db_exercises := db_exercises Sample.gym;
          db_clock := S (db_clock Sample.gym) |}).
Proof.
  split; [apply alice_authenticated|]. split.
  - apply (proj1 (post_workouts_requires_name_and_date Sample.date_rank Sample.getUser
                    (Sample.as_alice ∅) Sample.alice_session Sample.gym
                    (alice_authenticated ∅))).
    by left.
  - destruct (proj2 (post_workouts_requires_name_and_date Sample.date_rank Sample.getUser
                       (Sample.as_alice Sample.new_workout_body) Sample.alice_session
                       Sample.gym (alice_authenticated _)) eq_refl eq_refl)
      as (i & w & Hfree & Hu & _ & Hn & Hd & Hrun).
    exists i, w. repeat split; try assumption.
    + by apply Hn.
    + by apply Hd.
Defined.

Lemma delete_workout_idempotent_witness :
  authenticated Sample.getUser (Sample.as_alice ∅) Sample.alice_session /\
  exists d',
    run Sample.date_rank Sample.getUser
        (app (DELETE_workout "w") (Sample.as_alice ∅)) Sample.gym =
      (respond 200 (message_body "Workout deleted successfully"), d') /\
    db_workouts d' = delete "w" (db_workouts Sample.gym) /\
    db_exercises d' = filter (fun r => e_workout_id r.2 <> "w") (db_exercises Sample.gym) /\
    run Sample.date_rank Sample.getUser
        (app (DELETE_workout "w") (Sample.as_alice ∅)) d' =
      (respond 200 (message_body "Workout deleted successfully"), d').
Proof.
  split; [apply alice_authenticated|].
  destruct (delete_workout_idempotent Sample.date_rank Sample.getUser
              (Sample.as_alice ∅) Sample.alice_session "w" Sample.gym
              (alice_authenticated ∅)) as (d' & Hrun & _ & Hown & Hagain).
  exists d'. destruct (Hown Sample.leg_day eq_refl eq_refl) as [Hw He].
  repeat split; assumption.
Defined.



(** A header whose scheme word is not [Bearer], and one without a space. *)
Lemma token_is_second_segment_witness :
  handler GET_workouts = Some get_workouts /\
  app GET_workouts (Sample.request_of (Some "Basic xyz") ∅) =
    GetUser "xyz" (verified "xyz" (get_workouts (Sample.request_of (Some "Basic xyz") ∅))) /\
  app GET_workouts (Sample.request_of (Some "Bearer") ∅) =
    Ret (respond 401 (error_body "Invalid authorization format")).
Proof.
  split; [reflexivity|]. split.
  - apply (proj1 (proj2 (proj2
      (token_is_second_segment GET_workouts get_workouts
         (Sample.request_of (Some "Basic xyz") ∅) "Basic xyz" eq_refl eq_refl)))
      "Basic" "xyz"); [reflexivity|reflexivity|discriminate|reflexivity].
  - apply (proj2 (proj2 (proj2
      (token_is_second_segment GET_workouts get_workouts
         (Sample.request_of (Some "Bearer") ∅) "Bearer" eq_refl eq_refl))));
      [discriminate|reflexivity].
Defined.

(** ** Further runs *)

(** Alice's list: the later workout first, with its zero exercises; Bob's
    workout, dated between the two, is not in it. *)
Example alice_lists_her_workouts :
  (run Sample.date_rank Sample.getUser (app GET_workouts (Sample.as_alice ∅)) Sample.gym).1 =
  respond 200
    (workouts_body
       [ {| lw_row := workout_obj "w0" Sample.push_day (embed_count [0%nat]);
            exercise_count := 0 |};
         {| lw_row := workout_obj "w" Sample.leg_day (embed_count [2%nat]);
            exercise_count := 2 |} ]).
Proof. vm_compute. reflexivity. Qed.

(** An update with an empty body: three [NaN] in the payload, status 200. *)
Example patch_with_empty_body :
  sent Sample.date_rank Sample.getUser
    (app (PATCH_exercise "e") (Sample.as_alice ∅)) Sample.gym =
  [from exercises
     (UpdateExercise {| ep_exercise_name := JUndefined; ep_sets := NaN;
                        ep_reps := NaN; ep_weight := NaN |})
     |> eq "id" "e" |> returning |> single] /\
  status (run Sample.date_rank Sample.getUser
            (app (PATCH_exercise "e") (Sample.as_alice ∅)) Sample.gym).1 = 200.
Proof. split; vm_compute; reflexivity. Qed.

(** A header that is there but empty is answered like a missing one. *)
Example empty_header_is_no_token :
  (run Sample.date_rank Sample.getUser
     (app GET_workouts (Sample.request_of (Some "") ∅)) Sample.gym).1 =
  respond 401 (error_body "No token provided").
Proof. reflexivity. Qed.

(** Two spaces after the scheme leave the second segment empty. *)
Example double_space_is_malformed :
  (run Sample.date_rank Sample.getUser
     (app GET_workouts (Sample.request_of (Some "Bearer  tok-alice") ∅)) Sample.gym).1 =
  respond 401 (error_body "Invalid authorization format").
Proof. reflexivity. Qed.

(** The owner reads her workout with its exercises (the store fixes no
    order among embedded rows). *)
Example alice_reads_leg_day :
  (run Sample.date_rank Sample.getUser
     (app (GET_workout "w") (Sample.as_alice ∅)) Sample.gym).1 =
  respond 200
    (workout_body
       (Some (one (workout_obj "w" Sample.leg_day
                     (embed_rows [("e0", Sample.lunge); ("e", Sample.squat)]))))).
Proof. vm_compute. reflexivity. Qed.

(** Deleting Alice's workout takes its two exercises along. *)
Example delete_cascades :
  db_exercises
    (run Sample.date_rank Sample.getUser
       (app (DELETE_workout "w") (Sample.as_alice ∅)) Sample.gym).2 = ∅.
Proof. vm_compute. reflexivity. Qed.

(* ===================================================================== *)
(** * The whole server: who gets in and what a request can do *)
(* ===================================================================== *)

Section Server.

Variable date_rank : jsval -> Z.
Variable getUser : string -> getUser_reply.

Local Abbreviation serve r req d := (run date_rank getUser (app r req) d).
Local Abbreviation queries r req d := (sent date_rank getUser (app r req) d).

(** The middleware either hands over to the handler with the one session
    the request is entitled to, or ends the request itself. *)
Lemma authenticateUser_cases req next :
  (exists s, authenticated getUser req s /\
     forall d, run date_rank getUser (authenticateUser req next) d =
                 run date_rank getUser (next s) d /\
               sent date_rank getUser (authenticateUser req next) d =
                 sent date_rank getUser (next s) d) \/
  ((forall s, ~ authenticated getUser req s) /\
   exists resp, (status resp = 401 \/ status resp = 500) /\
     is_error (json resp) = true /\
     forall d, run date_rank getUser (authenticateUser req next) d = (resp, d) /\
               sent date_rank getUser (authenticateUser req next) d = []).
Proof.
  pose (none := respond 401 (error_body "No token provided")).
  pose (bad := respond 401 (error_body "Invalid authorization format")).
  pose (down := respond 500 (error_body "Authentication failed")).
  pose (invalid := respond 401 (error_body "Invalid token")).
  destruct (authorization req) as [header|] eqn:Ha.
  2:{ right. split.
      - intros s (h & t & u & Hh & _). congruence.
      - exists none. split; [by left|]. split; [done|].
        intros d. unfold authenticateUser. by rewrite Ha. }
  destruct (split " " header !! 1%nat) as [token|] eqn:Ht.
  2:{ right. split.
      - intros s (h & t & u & Hh & Hs & _). congruence.
      - destruct header as [|c header].
        + exists none. split; [by left|]. split; [done|].
          intros d. unfold authenticateUser. by rewrite Ha.
        + exists bad. split; [by left|]. split; [done|]. intros d.
          by rewrite (authenticateUser_malformed req next _ Ha) by (done || by left). }
  destruct (decide (token = "")) as [->|Hne].
  { right. split.
    - intros s (h & t & u & Hh & Hs & Hn & _). congruence.
    - destruct header as [|c header]; [done|].
      exists bad. split; [by left|]. split; [done|]. intros d.
      by rewrite (authenticateUser_malformed req next _ Ha) by (done || by right). }
  rewrite (authenticateUser_token req next _ _ Ha Ht Hne). cbn [run sent].
  destruct (getUser token) as [|[u|] [e|]] eqn:Hg; cbn [verified].
  - right. split.
    + intros s (h & t & u & Hh & Hs & _ & Hu & _). congruence.
    + exists down. split; [by right|]. split; [done|]. by intros d.
  - right. split.
    + intros s (h & t & u' & Hh & Hs & _ & Hu & _). congruence.
    + exists invalid. split; [by left|]. split; [done|]. by intros d.
  - left. eexists. split; [|by intros d].
    exists header, token, u. by repeat split.
  - right. split.
    + intros s (h & t & u' & Hh & Hs & _ & Hu & _). congruence.
    + exists invalid. split; [by left|]. split; [done|]. by intros d.
  - right. split.
    + intros s (h & t & u' & Hh & Hs & _ & Hu & _). congruence.
    + exists invalid. split; [by left|]. split; [done|]. by intros d.
Qed.

(** ** The store calls of the two routes left *)

Lemma rewritten_workouts (m : gmap string workout) p i u w :
  m !! i = Some w -> w_user_id w = u ->
  map_imap (fun j x => Some (if workout_matches [("id", i); ("user_id", u)] (j, x)
                             then patched_workout p x else x)) m =
  <[ i := patched_workout p w ]> m.
Proof.
  intros Hi Hu. apply map_eq; intros j. rewrite map_lookup_imap.
  destruct (decide (j = i)) as [->|Hj].
  - rewrite lookup_insert_eq, Hi. cbn [mbind option_bind].
    by rewrite (proj2 (workout_matches_scoped i w i u) (conj eq_refl Hu)).
  - rewrite lookup_insert_ne by done. destruct (m !! j) as [x|]; [|done].
    cbn [mbind option_bind].
    destruct (workout_matches _ (j, x)) eqn:Hhit; [|done].
    apply workout_matches_scoped in Hhit as [-> _]. done.
Qed.

Lemma exec_update_workout d p i u w :
  db_workouts d !! i = Some w -> w_user_id w = u ->
  exec date_rank
    (from workouts (UpdateWorkout p) |> eq "id" i |> eq "user_id" u
       |> returning |> single) d =
  (ok (one (workout_obj i (patched_workout p w) no_embed)),
   {| db_workouts := <[ i := patched_workout p w ]> (db_workouts d);
      db_exercises := db_exercises d;
      db_clock := db_clock d |}).
Proof.
  intros Hi Hu. unfold exec. replace (columns_known _) with true by reflexivity.
  cbn [q_from from eq returning single]. unfold exec_workouts.
  cbn [q_verb q_eq q_returning from eq returning single Datatypes.app].
  rewrite (owned_rows _ _ _ _ Hi Hu), map_fmap_singleton, map_to_list_singleton.
  by rewrite (rewritten_workouts _ _ _ _ _ Hi Hu).
Qed.

Lemma exec_update_workout_missing d p i u :
  (forall w, db_workouts d !! i = Some w -> w_user_id w <> u) ->
  exec date_rank
    (from workouts (UpdateWorkout p) |> eq "id" i |> eq "user_id" u
       |> returning |> single) d =
  (failed cardinality_error, d).
Proof.
  intros Hno. unfold exec. replace (columns_known _) with true by reflexivity.
  cbn [q_from from eq returning single]. unfold exec_workouts.
  cbn [q_verb q_eq q_returning from eq returning single Datatypes.app].
  by rewrite (unscoped_rows _ _ _ Hno), fmap_empty, map_to_list_empty.
Qed.

Lemma get_exercises_run wid req s d :
  run date_rank getUser (get_exercises wid req s) d =
  (respond 200
     (exercises_body (Some (rows (project_exercise <$> workout_exercises d wid)))),
   d).
Proof. reflexivity. Qed.

Lemma without_workout_gone d i u w :
  db_workouts d !! i = Some w -> w_user_id w = u ->
  without_workout d i u =
  {| db_workouts := delete i (db_workouts d);
     db_exercises := filter (fun r => e_workout_id r.2 <> i) (db_exercises d);
     db_clock := db_clock d |}.
Proof.
  intros Hi Hu. destruct (without_workout_owned getUser d i u w Hi Hu) as [Hw He].
  unfold without_workout in *. cbn [db_workouts db_exercises] in Hw, He.
  by rewrite Hw, He.
Qed.

Lemma validation_decided (b : gmap string jsval) :
  negb (truthy (field b "exercise_name")) || negb (truthy (field b "sets"))
  || negb (truthy (field b "reps")) || bool_decide (field b "weight" = JUndefined)
  = false ->
  passes_validation b.
Proof.
  rewrite !orb_false_iff, !negb_false_iff, bool_decide_eq_false.
  unfold passes_validation. tauto.
Qed.

(** What a handler does to the store is one step on behalf of its caller. *)
Lemma handler_touches r h req s d :
  handler r = Some h ->
  touches (id (req_user s)) d (run date_rank getUser (h req s) d).2.
Proof.
  intros Hh. destruct r; cbn [handler] in Hh; simplify_eq.
  - rewrite get_workouts_run. constructor.
  - unfold get_workout. cbn [run]. rewrite exec_lookup.
    destruct (db_workouts d !! id_param) as [w|]; [case_bool_decide|]; constructor.
  - unfold post_workouts.
    destruct (negb _ || negb _); [constructor|].
    cbn [run]. rewrite exec_insert_workout. cbn [error data ok run snd].
    apply adds_workout; [apply fresh_string_fresh|reflexivity].
  - unfold patch_workout. fold (workout_changes req). cbn [run].
    destruct (db_workouts d !! id_param) as [w|] eqn:Hi.
    + destruct (decide (w_user_id w = id (req_user s))) as [Hu|Hu].
      * rewrite (exec_update_workout _ _ _ _ _ Hi Hu). cbn [error data ok run snd].
        by eapply edits_workout.
      * rewrite exec_update_workout_missing; [constructor|].
        intros w'. rewrite Hi. by intros [= <-].
    + rewrite exec_update_workout_missing; [constructor|].
      intros w'. by rewrite Hi.
  - unfold delete_workout. cbn [run]. rewrite exec_delete_workout.
    cbn [error no_data run snd].
    destruct (db_workouts d !! id_param) as [w|] eqn:Hi.
    + destruct (decide (w_user_id w = id (req_user s))) as [Hu|Hu].
      * rewrite (without_workout_gone _ _ _ _ Hi Hu). by eapply drops_workout.
      * rewrite without_workout_missing; [constructor|].
        intros w'. rewrite Hi. by intros [= <-].
    + rewrite without_workout_missing; [constructor|].
      intros w'. by rewrite Hi.
  - rewrite get_exercises_run. constructor.
  - destruct (negb (truthy (field (body req) "exercise_name"))
              || negb (truthy (field (body req) "sets"))
              || negb (truthy (field (body req) "reps"))
              || bool_decide (field (body req) "weight" = JUndefined)) eqn:Hv.
    { unfold post_exercises. rewrite Hv. constructor. }
    apply validation_decided in Hv.
    destruct (db_workouts d !! workoutId) as [w|] eqn:Hi.
    + destruct (decide (w_user_id w = id (req_user s))) as [Hu|Hu].
      * rewrite (post_exercises_owned _ _ _ _ _ _ _ Hv Hi Hu). cbn [snd].
        eapply adds_exercise; [apply fresh_string_fresh|exact Hi|exact Hu|done].
      * rewrite post_exercises_unowned; [constructor|done|].
        intros w'. rewrite Hi. by intros [= <-].
    + rewrite post_exercises_unowned; [constructor|done|].
      intros w'. by rewrite Hi.
  - unfold patch_exercise. fold (coerced (body req)). cbn [run].
    destruct (db_exercises d !! id_param) as [e|] eqn:Hi.
    + rewrite (exec_update_exercise date_rank getUser _ _ _ _ Hi).
      cbn [error data ok run snd].
      by eapply edits_exercise.
    + rewrite (exec_update_exercise_missing date_rank getUser _ _ _ Hi). constructor.
  - unfold delete_exercise. cbn [run].
    rewrite (exec_delete_exercise date_rank getUser).
    cbn [error no_data run snd]. constructor.
Qed.

(** Every request moves the store by at most one step, taken on behalf of
    the user its token resolves to. *)
Lemma request_touches r req d :
  (serve r req d).2 = d \/
  exists s, authenticated getUser req s /\
            touches (id (req_user s)) d (serve r req d).2.
Proof.
  unfold app. destruct (handler r) as [h|] eqn:Hh; [|by left].
  destruct (authenticateUser_cases req (h req))
    as [(s & Hs & Hrun)|(_ & resp & _ & _ & Hrun)].
  - right. exists s. split; [done|]. rewrite (proj1 (Hrun d)).
    by apply handler_touches with r.
  - left. by rewrite (proj1 (Hrun d)).
Qed.

(** A request is entitled to one session at most. *)
Lemma authenticated_unique req s s' :
  authenticated getUser req s -> authenticated getUser req s' -> s = s'.
Proof.
  intros (h & t & u & Hh & Ht & _ & Hu & ->) (h' & t' & u' & Hh' & Ht' & _ & Hu' & ->).
  congruence.
Qed.

Lemma handler_client r h req s a q :
  handler r = Some h -> issues (h req s) a q -> a = req_supabase s.
Proof.
  intros Hh Hq. destruct r; cbn [handler] in Hh; simplify_eq;
    unfold get_workouts, get_workout, post_workouts, patch_workout,
      delete_workout, get_exercises, post_exercises, patch_exercise,
      delete_exercise, caught in Hq;
    repeat match goal with
    | H : issues (if ?b then _ else _) _ _ |- _ => destruct b
    | H : issues (match ?x with _ => _ end) _ _ |- _ => destruct x
    | H : issues (Ret _) _ _ |- _ => inversion H
    | H : issues (Store _ _ _) _ _ |- _ => inversion H; clear H; subst
    end; reflexivity.
Qed.

(** X1. A request that the middleware does not let through never reaches
    the store: no query is sent, the store is as it was, and the answer is
    an error body with status 401 or 500. *)
Theorem rejected_requests_reach_no_store r h req d :
  handler r = Some h ->
  (forall s, ~ authenticated getUser req s) ->
  queries r req d = [] /\ (serve r req d).2 = d /\
  (status (serve r req d).1 = 401 \/ status (serve r req d).1 = 500) /\
  is_error (json (serve r req d).1) = true.
Proof.
  intros Hh Hno. rewrite (app_protected _ _ _ Hh).
  destruct (authenticateUser_cases req (h req))
    as [(s & Hs & _)|(_ & resp & Hst & Herr & Hrun)].
  - by destruct (Hno s).
  - destruct (Hrun d) as [-> ->]. by repeat split.
Qed.

(** X2. Every query a request sends goes through a client that presents
    [Bearer] followed by the very token the identity service was asked
    about, which is the second segment of the request's header. *)
Theorem store_calls_present_the_verified_token r req a q :
  issues (app r req) a q ->
  exists header token,
    authorization req = Some header /\
    split " " header !! 1%nat = Some token /\ token <> "" /\
    verifies (app r req) token /\
    a = "Bearer " +:+ token.
Proof.
  unfold app. destruct (handler r) as [h|] eqn:Hh; [|by inversion 1].
  intros Hq. destruct (authorization req) as [header|] eqn:Ha.
  2:{ unfold authenticateUser in Hq. rewrite Ha in Hq. inversion Hq. }
  destruct (split " " header !! 1%nat) as [token|] eqn:Ht.
  2:{ destruct header as [|c header].
      - unfold authenticateUser in Hq. rewrite Ha in Hq. inversion Hq.
      - rewrite (authenticateUser_malformed req _ _ Ha) in Hq by (done || by left).
        inversion Hq. }
  destruct (decide (token = "")) as [->|Hne].
  { destruct header as [|c header]; [done|].
    rewrite (authenticateUser_malformed req _ _ Ha) in Hq by (done || by right).
    inversion Hq. }
  rewrite (authenticateUser_token req _ _ _ Ha Ht Hne) in Hq |- *.
  exists header, token. repeat split; try done; [constructor|].
  inversion Hq as [| |t k g a' q' Hk]; subst. unfold verified in Hk.
  destruct g as [|[u|] [e|]]; try (inversion Hk; fail).
  by apply (handler_client _ _ _ _ _ _ Hh) in Hk.
Qed.

Lemma get_handler_reads r h req s d :
  is_get r = true -> handler r = Some h ->
  (run date_rank getUser (h req s) d).2 = d.
Proof.
  intros Hg Hh. destruct r; try discriminate; cbn [handler] in Hh; simplify_eq.
  - by rewrite get_workouts_run.
  - unfold get_workout. cbn [run]. rewrite exec_lookup.
    by destruct (db_workouts d !! id_param) as [w|]; [case_bool_decide|].
  - by rewrite get_exercises_run.
Qed.

(** X3. A GET never changes the store, whoever sends it and whatever the
    store holds. *)
Theorem get_routes_only_read r req d :
  is_get r = true -> (serve r req d).2 = d.
Proof.
  intros Hg. unfold app. destruct (handler r) as [h|] eqn:Hh; [|done].
  destruct (authenticateUser_cases req (h req))
    as [(s & _ & Hrun)|(_ & resp & _ & _ & Hrun)].
  - rewrite (proj1 (Hrun d)). by apply get_handler_reads with r.
  - by rewrite (proj1 (Hrun d)).
Qed.

Lemma touches_keeps_others u d d' :
  touches u d d' ->
  forall i w, db_workouts d !! i = Some w -> w_user_id w <> u ->
              db_workouts d' !! i = Some w.
Proof.
  intros Hstep i w Hi Hu.
  destruct Hstep as [|i0 w0 Hfree|i0 w0 w0' Hi0|i0 w0 Hi0| | |];
    cbn [db_workouts]; try done.
  - rewrite lookup_insert_ne; [done|congruence].
  - rewrite lookup_insert_ne; [done|]. intros ->. congruence.
  - rewrite lookup_delete_ne; [done|]. intros ->. congruence.
Qed.

(** X4. No request changes or removes a workout that belongs to someone
    other than its caller, on any route. *)
Theorem other_users_workouts_stay r req s d i w :
  authenticated getUser req s ->
  db_workouts d !! i = Some w -> w_user_id w <> id (req_user s) ->
  db_workouts (serve r req d).2 !! i = Some w.
Proof.
  intros Hs Hi Hu.
  destruct (request_touches r req d) as [->|(s' & Hs' & Hstep)]; [done|].
  rewrite (authenticated_unique _ _ _ Hs' Hs) in Hstep.
  by apply (touches_keeps_others _ _ _ Hstep).
Qed.

Lemma touches_consistent u d d' :
  touches u d d' -> consistent d -> consistent d'.
Proof.
  intros Hstep Hc j e.
  destruct Hstep as [|i w Hfree Hw|i w w' Hi Hw Hw' _|i w Hi Hw
                     |i e0 w Hfree Hw Hu He|i e0 e0' Hi Hwid Huid _|i];
    cbn [db_workouts db_exercises].
  - apply Hc.
  - intros (w0 & Hw0 & Hu0)%Hc. exists w0. split; [|done].
    rewrite lookup_insert_ne; [done|congruence].
  - intros (w0 & Hw0 & Hu0)%Hc.
    destruct (decide (i = e_workout_id e)) as [->|Hne].
    + exists w'. rewrite lookup_insert_eq. split; [done|]. congruence.
    + exists w0. by rewrite lookup_insert_ne.
  - intros [He Hk]%map_lookup_filter_Some. cbn in Hk.
    destruct (Hc _ _ He) as (w0 & Hw0 & Hu0). exists w0.
    by rewrite lookup_delete_ne.
  - destruct (decide (i = j)) as [->|Hne].
    + rewrite lookup_insert_eq. intros [= <-]. exists w. split; congruence.
    + rewrite lookup_insert_ne by done. apply Hc.
  - destruct (decide (i = j)) as [->|Hne].
    + rewrite lookup_insert_eq. intros [= <-].
      destruct (Hc _ _ Hi) as (w0 & Hw0 & Hu0). exists w0. split; congruence.
    + rewrite lookup_insert_ne by done. apply Hc.
  - intros [_ He]%lookup_delete_Some. by apply (Hc j).
Qed.

(** X5. Every request, on every route and whatever its outcome, keeps the
    store consistent: each exercise still references a workout that exists
    and belongs to the exercise's owner. *)
Theorem requests_keep_the_store_consistent r req d :
  consistent d -> consistent (serve r req d).2.
Proof.
  intros Hc. destruct (request_touches r req d) as [->|(s & _ & Hstep)]; [done|].
  by apply (touches_consistent _ _ _ Hstep).
Qed.

(** ** PATCH /api/workouts/:id *)

Lemma served_by r h req s d :
  handler r = Some h -> authenticated getUser req s ->
  serve r req d = run date_rank getUser (h req s) d /\
  queries r req d = sent date_rank getUser (h req s) d.
Proof. intros Hh Hs. by apply authenticated_app. Qed.

(** X6. An update of a workout the caller owns is answered 200 with the
    changed row and changes that row alone.  Owner and creation time stay,
    [updated_at] becomes the server's clock reading, a member given as text
    replaces the stored value (an empty name too: nothing is validated),
    and a member the body does not have leaves the stored value alone. *)
Theorem patch_workout_rewrites_own_row req s i w d :
  authenticated getUser req s ->
  db_workouts d !! i = Some w -> w_user_id w = id (req_user s) ->
  exists w',
    serve (PATCH_workout i) req d =
      (respond 200 (workout_body (Some (one (workout_obj i w' no_embed)))),
       {| db_workouts := <[ i := w' ]> (db_workouts d);
          db_exercises := db_exercises d;
          db_clock := db_clock d |}) /\
    w_user_id w' = w_user_id w /\ w_created_at w' = w_created_at w /\
    w_updated_at w' = JStr (now req) /\
    (forall t, field (body req) "name" = JStr t -> w_name w' = JStr t) /\
    (forall t, field (body req) "workout_date" = JStr t -> w_workout_date w' = JStr t) /\
    (forall t, field (body req) "notes" = JStr t -> w_notes w' = JStr t) /\
    (body req !! "name" = None -> w_name w' = w_name w) /\
    (body req !! "workout_date" = None -> w_workout_date w' = w_workout_date w) /\
    (body req !! "notes" = None -> w_notes w' = w_notes w).
Proof.
  intros Hs Hi Hu. exists (patched_workout (workout_changes req) w).
  destruct (served_by (PATCH_workout i) _ req s d eq_refl Hs) as [-> _].
  unfold patch_workout. fold (workout_changes req). cbn [run].
  rewrite (exec_update_workout _ _ _ _ _ Hi Hu). cbn [error data ok run].
  split; [done|]. split; [done|]. split; [done|]. split; [done|].
  cbn [patched_workout workout_changes w_name w_workout_date w_notes
       wp_name wp_workout_date wp_notes].
  repeat split; try (intros t ->; reflexivity);
    intros ->%field_absent; reflexivity.
Qed.

(** X7. An update of a workout the caller does not own, or of a key that
    holds nothing, is answered 500 with the store's message and changes
    nothing: the handler has no 404 of its own. *)
Theorem patch_workout_missing_is_500 req s i d :
  authenticated getUser req s ->
  (forall w, db_workouts d !! i = Some w -> w_user_id w <> id (req_user s)) ->
  serve (PATCH_workout i) req d = (respond 500 (error_body cardinality_error), d).
Proof.
  intros Hs Hno.
  destruct (served_by (PATCH_workout i) _ req s d eq_refl Hs) as [-> _].
  unfold patch_workout. cbn [run].
  by rewrite (exec_update_workout_missing _ _ _ _ Hno).
Qed.

(** ** GET /api/workouts/:workoutId/exercises *)

Lemma exercise_matches_workout j e wid :
  exercise_matches [("workout_id", wid)] (j, e) = true <-> e_workout_id e = wid.
Proof.
  unfold exercise_matches, exercise_has; simpl.
  rewrite andb_true_iff, bool_decide_eq_true. intuition.
Qed.

Lemma before_created (a b : string * exercise) :
  before exercise_key [("created_at", true)] a b <->
  (e_created_at a.2 <= e_created_at b.2)%nat.
Proof.
  unfold before, sort_key, exercise_key. cbn [map fst snd directed lex_leb].
  rewrite orb_true_iff, andb_true_iff, Z.ltb_lt, Z.eqb_eq. lia.
Qed.

Lemma created_total : Total (before exercise_key [("created_at", true)]).
Proof. intros a b. rewrite !before_created. lia. Qed.

Lemma created_transitive : Transitive (before exercise_key [("created_at", true)]).
Proof. intros a b c. rewrite !before_created. lia. Qed.

Lemma workout_exercises_elem d wid i e :
  (i, e) ∈ workout_exercises d wid <->
  db_exercises d !! i = Some e /\ e_workout_id e = wid.
Proof.
  unfold workout_exercises, sorted_by. rewrite merge_sort_Permutation.
  rewrite elem_of_map_to_list, map_lookup_filter_Some.
  by rewrite exercise_matches_workout.
Qed.

(** X8. The exercise list of a workout is answered 200 with every exercise
    row that references the key, each once, from the earliest created to
    the latest, and the store is not changed.  Neither the owner of the
    workout nor that of the rows is looked at, and a key no row references
    gives an empty list, not a 404. *)
Theorem get_exercises_lists_by_workout_only req s wid d :
  authenticated getUser req s ->
  exists es,
    serve (GET_exercises wid) req d =
      (respond 200
         (exercises_body (Some (rows ((fun r => exercise_obj r.1 r.2) <$> es)))),
       d) /\
    (forall i e, (i, e) ∈ es <->
       db_exercises d !! i = Some e /\ e_workout_id e = wid) /\
    NoDup es.*1 /\
    StronglySorted (fun a b => (e_created_at a.2 <= e_created_at b.2)%nat) es /\
    ((forall i e, db_exercises d !! i = Some e -> e_workout_id e <> wid) ->
     es = []).
Proof.
  intros Hs. exists (workout_exercises d wid).
  destruct (served_by (GET_exercises wid) _ req s d eq_refl Hs) as [-> _].
  rewrite get_exercises_run. split; [done|].
  split; [apply workout_exercises_elem|]. split; [|split].
  - unfold workout_exercises, sorted_by. rewrite merge_sort_Permutation.
    apply NoDup_fst_map_to_list.
  - unfold workout_exercises, sorted_by.
    rewrite <- (list_fmap_id (merge_sort _ _)).
    apply StronglySorted_fmap with (before exercise_key [("created_at", true)]).
    + intros a b Hab. by apply before_created.
    + apply StronglySorted_merge_sort;
        [apply created_transitive|apply created_total].
  - intros Hno. destruct (workout_exercises d wid) as [|[i e] es] eqn:Hes; [done|].
    assert (Hin : (i, e) ∈ workout_exercises d wid) by (rewrite Hes; left).
    apply workout_exercises_elem in Hin as [Hi Hw]. by destruct (Hno i e).
Qed.

(** ** How the routes compose *)

Lemma listed_keys d u i :
  i ∈ (fun lw => record_id (lw_row lw)) <$> (listed d <$> own_workouts date_rank d u) <->
  exists w, db_workouts d !! i = Some w /\ w_user_id w = u.
Proof.
  rewrite <- list_fmap_compose, list_elem_of_fmap.
  unfold own_workouts, sorted_by. split.
  - intros ([j w] & -> & Hin). rewrite merge_sort_Permutation in Hin.
    apply elem_of_map_to_list, map_lookup_filter_Some in Hin as [Hj Hu].
    apply (workout_matches_owner getUser) in Hu. by exists w.
  - intros (w & Hi & Hu). exists (i, w). split; [done|].
    rewrite merge_sort_Permutation.
    apply elem_of_map_to_list, map_lookup_filter_Some. split; [done|].
    by apply (workout_matches_owner getUser).
Qed.

Lemma post_workouts_run req s d :
  truthy (field (body req) "name") = true ->
  truthy (field (body req) "workout_date") = true ->
  run date_rank getUser (post_workouts req s) d =
  (respond 201
     (workout_body
        (Some (one (workout_obj (fresh_string "w" (db_workouts d))
                      (new_workout d (requested_workout req s)) no_embed)))),
   {| db_workouts :=
        <[fresh_string "w" (db_workouts d) := new_workout d (requested_workout req s)]>
          (db_workouts d);
      db_exercises := db_exercises d;
      db_clock := S (db_clock d) |}).
Proof.
  intros Hn Hd. unfold post_workouts. rewrite Hn, Hd. cbn [negb orb run].
  by rewrite exec_insert_workout.
Qed.

(** X9. A workout that was created can be read back.  After a successful
    POST, a GET of the returned key by the same user is answered 200 with
    the very row the POST returned, the list of that user contains the key,
    and the list of any other user does not. *)
Theorem created_workout_is_read_back req s d :
  authenticated getUser req s ->
  truthy (field (body req) "name") = true ->
  truthy (field (body req) "workout_date") = true ->
  exists i w d',
    serve POST_workouts req d =
      (respond 201 (workout_body (Some (one (workout_obj i w no_embed)))), d') /\
    forall req' s', authenticated getUser req' s' ->
      (id (req_user s') = id (req_user s) ->
         serve (GET_workout i) req' d' =
           (respond 200
              (workout_body
                 (Some (one (workout_obj i w (embed_rows (exercises_of d' i)))))),
            d')) /\
      exists ws,
        serve GET_workouts req' d' = (respond 200 (workouts_body ws), d') /\
        (i ∈ (fun lw => record_id (lw_row lw)) <$> ws <->
         id (req_user s') = id (req_user s)).
Proof.
  intros Hs Hn Hd.
  destruct (served_by POST_workouts _ req s d eq_refl Hs) as [-> _].
  rewrite (post_workouts_run _ _ _ Hn Hd).
  set (i := fresh_string "w" (db_workouts d)).
  set (w := new_workout d (requested_workout req s)).
  set (d' := Build_db _ _ _).
  assert (Hi : db_workouts d' !! i = Some w) by apply lookup_insert_eq.
  exists i, w, d'. split; [done|]. intros req' s' Hs'. split.
  - intros Hsame.
    apply (get_workout_found date_rank getUser req' s' i w d' Hs' Hi).
    by rewrite Hsame.
  - destruct (served_by GET_workouts _ req' s' d' eq_refl Hs') as [-> _].
    rewrite get_workouts_run. eexists. split; [done|].
    rewrite listed_keys. rewrite Hi. split.
    + by intros (w0 & [= <-] & <-).
    + intros Hsame. by exists w.
Qed.

Lemma exercise_rows_grow (m : gmap string exercise) i e k :
  m !! i = None ->
  size (filter (fun r => e_workout_id r.2 = k) (<[i := e]> m)) =
  if decide (e_workout_id e = k)
  then S (size (filter (fun r => e_workout_id r.2 = k) m))
  else size (filter (fun r => e_workout_id r.2 = k) m).
Proof.
  intros Hi. case_decide as Hk.
  - rewrite map_filter_insert_True by done.
    apply map_size_insert_None, map_lookup_filter_None. by left.
  - rewrite map_filter_insert_False by done. by rewrite (delete_id _ _ Hi).
Qed.

(** X10. An exercise that was added is listed and counted.  After a
    successful POST the exercise list of the workout contains the returned
    row, the number of exercise rows of that workout has grown by one, and
    that of every other workout is what it was. *)
Theorem added_exercise_is_listed_and_counted req s wid w d :
  authenticated getUser req s ->
  passes_validation (body req) ->
  db_workouts d !! wid = Some w -> w_user_id w = id (req_user s) ->
  exists i e d',
    serve (POST_exercises wid) req d =
      (respond 201 (exercise_body (Some (one (exercise_obj i e)))), d') /\
    (forall req' s', authenticated getUser req' s' ->
       exists es,
         serve (GET_exercises wid) req' d' =
           (respond 200 (exercises_body (Some (rows es))), d') /\
         exercise_obj i e ∈ es) /\
    exercise_rows d' wid = S (exercise_rows d wid) /\
    (forall k, k <> wid -> exercise_rows d' k = exercise_rows d k).
Proof.
  intros Hs Hv Hi Hu.
  destruct (served_by (POST_exercises wid) _ req s d eq_refl Hs) as [-> _].
  rewrite (post_exercises_owned _ _ _ _ _ _ _ Hv Hi Hu).
  set (i := fresh_string "e" (db_exercises d)).
  set (e := new_exercise d (requested_exercise req s wid)).
  assert (Hfree : db_exercises d !! i = None) by apply fresh_string_fresh.
  set (d' := Build_db _ _ _).
  exists i, e, d'. split; [reflexivity|]. split; [|split].
  - intros req' s' Hs'.
    destruct (served_by (GET_exercises wid) _ req' s' d' eq_refl Hs') as [-> _].
    rewrite get_exercises_run. eexists. split; [reflexivity|].
    apply (list_elem_of_fmap_2 project_exercise _ (i, e)).
    apply workout_exercises_elem. cbn [d' db_exercises].
    by rewrite lookup_insert_eq.
  - unfold exercise_rows. cbn [d' db_exercises].
    rewrite (exercise_rows_grow _ _ _ _ Hfree). by rewrite decide_True.
  - intros k Hk. unfold exercise_rows. cbn [d' db_exercises].
    rewrite (exercise_rows_grow _ _ _ _ Hfree). by rewrite decide_False.
Qed.

Lemma delete_workout_run req s i d :
  run date_rank getUser (delete_workout i req s) d =
  (respond 200 (message_body "Workout deleted successfully"),
   without_workout d i (id (req_user s))).
Proof. unfold delete_workout. cbn [run]. by rewrite exec_delete_workout. Qed.

(** X11. A workout that was deleted is gone with its exercises.  After its
    owner's DELETE the key holds nothing, the exercise list of the key is
    empty for every caller, and no list of workouts contains the key. *)
Theorem deleted_workout_is_gone_with_its_exercises req s i w d :
  authenticated getUser req s ->
  db_workouts d !! i = Some w -> w_user_id w = id (req_user s) ->
  exists d',
    serve (DELETE_workout i) req d =
      (respond 200 (message_body "Workout deleted successfully"), d') /\
    db_workouts d' !! i = None /\
    forall req' s', authenticated getUser req' s' ->
      serve (GET_exercises i) req' d' =
        (respond 200 (exercises_body (Some (rows []))), d') /\
      exists ws,
        serve GET_workouts req' d' = (respond 200 (workouts_body ws), d') /\
        i ∉ (fun lw => record_id (lw_row lw)) <$> ws.
Proof.
  intros Hs Hi Hu.
  destruct (served_by (DELETE_workout i) _ req s d eq_refl Hs) as [-> _].
  rewrite delete_workout_run, (without_workout_gone _ _ _ _ Hi Hu).
  set (d' := Build_db _ _ _).
  assert (Hgone : db_workouts d' !! i = None) by apply lookup_delete_eq.
  exists d'. split; [done|]. split; [done|]. intros req' s' Hs'. split.
  - destruct (served_by (GET_exercises i) _ req' s' d' eq_refl Hs') as [-> _].
    rewrite get_exercises_run.
    destruct (workout_exercises d' i) as [|[j e] es] eqn:Hes; [done|].
    assert (Hin : (j, e) ∈ workout_exercises d' i) by (rewrite Hes; left).
    apply workout_exercises_elem in Hin as [Hj Hw]. cbn [d' db_exercises] in Hj.
    by apply map_lookup_filter_Some in Hj as [_ Hne].
  - destruct (served_by GET_workouts _ req' s' d' eq_refl Hs') as [-> _].
    rewrite get_workouts_run. eexists. split; [done|].
    rewrite listed_keys, Hgone. by intros (w0 & [=] & _).
Qed.

(** X12. Creating a workout and deleting it again leaves the tables of a
    consistent store as they were; only the store's clock has moved. *)
Theorem create_then_delete_restores_the_tables req s d :
  authenticated getUser req s ->
  truthy (field (body req) "name") = true ->
  truthy (field (body req) "workout_date") = true ->
  consistent d ->
  exists i w d1,
    serve POST_workouts req d =
      (respond 201 (workout_body (Some (one (workout_obj i w no_embed)))), d1) /\
    forall req' s', authenticated getUser req' s' ->
      id (req_user s') = id (req_user s) ->
      serve (DELETE_workout i) req' d1 =
        (respond 200 (message_body "Workout deleted successfully"),
         {| db_workouts := db_workouts d;
            db_exercises := db_exercises d;
            db_clock := S (db_clock d) |}).
Proof.
  intros Hs Hn Hd Hc.
  destruct (served_by POST_workouts _ req s d eq_refl Hs) as [-> _].
  rewrite (post_workouts_run _ _ _ Hn Hd).
  set (i := fresh_string "w" (db_workouts d)).
  set (w := new_workout d (requested_workout req s)).
  assert (Hfree : db_workouts d !! i = None) by apply fresh_string_fresh.
  set (d1 := Build_db _ _ _).
  exists i, w, d1. split; [reflexivity|]. intros req' s' Hs' Hsame.
  destruct (served_by (DELETE_workout i) _ req' s' d1 eq_refl Hs') as [-> _].
  rewrite delete_workout_run.
  rewrite (without_workout_gone d1 i _ w);
    cbn [d1 db_workouts db_exercises db_clock];
    [|apply lookup_insert_eq|by rewrite Hsame].
  rewrite (delete_insert_id _ _ _ Hfree). do 2 f_equal.
  apply map_filter_id. intros j e He Href. cbn in Href.
  destruct (Hc j e He) as (w0 & Hw0 & _). congruence.
Qed.

(** ** Answers *)




(** X14. An exercise with a falsy name, falsy sets or reps (zero sets, an
    empty name, a missing member) or without a weight is answered 400
    before anything is asked of the store. *)
Theorem post_exercises_rejects_before_the_store req s wid d :
  authenticated getUser req s ->
  truthy (field (body req) "exercise_name") = false \/
  truthy (field (body req) "sets") = false \/
  truthy (field (body req) "reps") = false \/
  body req !! "weight" = None ->
  serve (POST_exercises wid) req d =
    (respond 400 (error_body "All fields are required"), d) /\
  queries (POST_exercises wid) req d = [].
Proof.
  intros Hs Hbad.
  destruct (served_by (POST_exercises wid) _ req s d eq_refl Hs) as [-> ->].
  assert (Hf : negb (truthy (field (body req) "exercise_name"))
               || negb (truthy (field (body req) "sets"))
               || negb (truthy (field (body req) "reps"))
               || bool_decide (field (body req) "weight" = JUndefined) = true).
  { destruct Hbad as [H|[H|[H|H]]].
    - by rewrite H.
    - rewrite H. cbn. by rewrite orb_true_r.
    - rewrite H. cbn. by rewrite !orb_true_r.
    - rewrite (bool_decide_eq_true_2 _ (field_absent _ _ H)).
      by rewrite !orb_true_r. }
  unfold post_exercises. by rewrite Hf.
Qed.

End Server.

(* ===================================================================== *)
(** * The frontend against the server *)
(* ===================================================================== *)

Section Frontend.

Variable date_rank : jsval -> Z.
Variable getUser : string -> getUser_reply.
Variable server_time : string.

Local Abbreviation server := (backend date_rank getUser).

Lemma bearer_segments access_token :
  split " " (bearer access_token) !! 1%nat = split " " access_token !! 0%nat.
Proof.
  unfold bearer.
  change ("Bearer " +:+ access_token) with ("Bearer" +:+ String " " access_token).
  rewrite split_cons_spaceless by reflexivity. cbn.
  by destruct (split " " access_token).
Qed.

Lemma signed_in_authenticated access_token u b :
  signed_in getUser access_token u ->
  authenticated getUser
    {| authorization := Some (bearer access_token); body := b; now := server_time |}
    {| req_supabase := bearer access_token; req_user := u |}.
Proof.
  intros (Hs & Hne & Hu). exists (bearer access_token), access_token, u.
  repeat split; try done.
  rewrite bearer_segments, (split_spaceless _ Hs). done.
Qed.

(** X15. The header the frontend builds and the middleware's reading of it
    fit together: the identity service is asked about the access token up
    to its first space, so about the whole token when it has none; the
    handler then works through a client presenting the very header that
    came in.  With an empty access token the request is answered 401
    "Invalid authorization format". *)
Theorem frontend_header_round_trip r h access_token b :
  handler r = Some h ->
  let req := {| authorization := Some (bearer access_token); body := b;
                now := server_time |} in
  split " " (bearer access_token) !! 1%nat = split " " access_token !! 0%nat /\
  (spaceless access_token = true -> access_token <> "" ->
     app r req = GetUser access_token (verified access_token (h req)) /\
     forall u, getUser access_token = getUser_resolves (Some u) None ->
       forall d, run date_rank getUser (app r req) d =
                 run date_rank getUser
                   (h req {| req_supabase := bearer access_token; req_user := u |}) d) /\
  (access_token = "" ->
     app r req = Ret (respond 401 (error_body "Invalid authorization format"))).
Proof.
  intros Hh req. split; [apply bearer_segments|]. split.
  - intros Hs Hne. rewrite (app_protected _ _ _ Hh). split.
    + apply authenticateUser_token with (bearer access_token); [done| |done].
      by rewrite bearer_segments, (split_spaceless _ Hs).
    + intros u Hu d.
      rewrite <- (app_protected _ _ _ Hh).
      apply (authenticated_app date_rank getUser r h req _ Hh).
      by apply signed_in_authenticated.
  - intros ->. rewrite (app_protected _ _ _ Hh).
    by apply authenticateUser_malformed with (bearer ""); [| |right].
Qed.

(** ** ExerciseForm *)

Lemma exercise_data_fields f :
  let b := json_data (exercise_data f) in
  field b "exercise_name" = JStr (f_exercise f) /\
  field b "sets" = json_num (parseInt (JStr (f_sets f))) /\
  field b "reps" = json_num (parseInt (JStr (f_reps f))) /\
  field b "weight" = json_num (parseFloat (JStr (f_weight f))).
Proof.
  unfold field, json_data, exercise_data. rewrite !lookup_omap.
  repeat split; by simplify_map_eq.
Qed.

Lemma filled_in f :
  negb (str_truthy (f_exercise f)) || negb (str_truthy (f_sets f))
  || negb (str_truthy (f_reps f)) || negb (str_truthy (f_weight f)) = false <->
  f_exercise f <> "" /\ f_sets f <> "" /\ f_reps f <> "" /\ f_weight f <> "".
Proof.
  rewrite !orb_false_iff, !negb_false_iff.
  destruct (f_exercise f), (f_sets f), (f_reps f), (f_weight f); cbn;
    intuition congruence.
Qed.

(** X16. The exercise form and the server do not check the same thing.
    With an input left empty the form sends nothing.  Otherwise it sends
    what [parseInt] and [parseFloat] read, as JSON carries it, and the
    server refuses sets or reps that arrive as zero or as [null] (the input
    read as no number, or as one beyond the largest double) with 400, which
    the form reports while keeping its inputs; the weight is never a reason
    for 400.  When sets and reps arrive as non-zero numbers and the user
    owns the workout, the row is stored and handed to the list, the inputs
    are emptied, and a weight that reads as no number is stored as
    [null]. *)
Theorem exercise_form_and_server access_token u wid f d :
  signed_in getUser access_token u ->
  let o := handleAdd server server_time access_token wid f d in
  ((f_exercise f = "" \/ f_sets f = "" \/ f_reps f = "" \/ f_weight f = "") ->
     o = {| state_after := f; alert := Some "Please fill in all fields";
            handed := None; store_after := d |}) /\
  (f_exercise f <> "" -> f_sets f <> "" -> f_reps f <> "" -> f_weight f <> "" ->
   (truthy (json_num (parseInt (JStr (f_sets f)))) = false \/
    truthy (json_num (parseInt (JStr (f_reps f)))) = false ->
      o = {| state_after := {| f_exercise := f_exercise f; f_sets := f_sets f;
                               f_reps := f_reps f; f_weight := f_weight f;
                               f_loading := false |};
             alert := Some "Error adding exercise: Request failed with status code 400";
             handed := None; store_after := d |}) /\
   (truthy (json_num (parseInt (JStr (f_sets f)))) = true ->
    truthy (json_num (parseInt (JStr (f_reps f)))) = true ->
    forall w, db_workouts d !! wid = Some w -> w_user_id w = id u ->
      exists i e,
        db_exercises d !! i = None /\
        e_workout_id e = wid /\ e_user_id e = id u /\
        e_exercise_name e = JStr (f_exercise f) /\
        (parseFloat (JStr (f_weight f)) = NaN -> e_weight e = JNull) /\
        o = {| state_after := emptied; alert := None;
               handed := Some (Some (one (exercise_obj i e)));
               store_after :=
                 {| db_workouts := db_workouts d;
                    db_exercises := <[i := e]> (db_exercises d);
                    db_clock := S (db_clock d) |} |})).
Proof.
  intros Hin o. subst o. unfold handleAdd. split.
  - intros Hempty.
    destruct (negb _ || negb _ || negb _ || negb _) eqn:Hf; [done|].
    apply filled_in in Hf. tauto.
  - intros H1 H2 H3 H4.
    rewrite (proj2 (filled_in f)) by done.
    unfold call, backend.
    set (req := Build_request _ _ _).
    set (s := {| req_supabase := bearer access_token; req_user := u |}).
    assert (Hs : authenticated getUser req s) by by apply signed_in_authenticated.
    destruct (authenticated_app date_rank getUser (POST_exercises wid) _ req s eq_refl Hs d)
      as [Hrun _].
    destruct (exercise_data_fields f) as (Fn & Fs & Fr & Fw).
    split.
    + intros Hzero.
      assert (Hbad : negb (truthy (field (body req) "exercise_name"))
                     || negb (truthy (field (body req) "sets"))
                     || negb (truthy (field (body req) "reps"))
                     || bool_decide (field (body req) "weight" = JUndefined) = true).
      { cbn [req body]. rewrite Fs, Fr.
        destruct Hzero as [-> | ->]; cbn; by rewrite ?orb_true_r. }
      rewrite Hrun. unfold post_exercises. rewrite Hbad. reflexivity.
    + intros Hsets Hreps w Hw Hu.
      assert (Hval : passes_validation (body req)).
      { unfold passes_validation. cbn [req body].
        rewrite Fn, Fs, Fr, Fw.
        repeat split; try done.
        - by destruct (f_exercise f).
        - by destruct (parseFloat _). }
      rewrite Hrun, (post_exercises_owned date_rank getUser req s wid d w Hval Hw Hu).
      exists (fresh_string "e" (db_exercises d)),
             (new_exercise d (requested_exercise req s wid)).
      split; [apply fresh_string_fresh|].
      split; [reflexivity|]. split; [reflexivity|].
      split; [|split; [|reflexivity]].
      * cbn [new_exercise requested_exercise e_exercise_name en_exercise_name
             req body]. by rewrite Fn.
      * intros Hnan.
        cbn [new_exercise requested_exercise e_weight en_weight req body].
        rewrite Fw, Hnan. reflexivity.
Qed.

(** ** CreateWorkoutModal *)

Lemma workout_data_fields f :
  let b := json_data (workout_data f) in
  field b "name" = JStr (c_name f) /\
  field b "workout_date" = JStr (c_date f) /\
  field b "notes" = JStr (c_notes f).
Proof.
  unfold field, json_data, workout_data. rewrite !lookup_omap.
  repeat split; by simplify_map_eq.
Qed.

Lemma str_truthy_filled s : str_truthy s = true <-> s <> "".
Proof. destruct s; cbn; intuition congruence. Qed.

Lemma create_with_date access_token u f d :
  signed_in getUser access_token u -> c_name f <> "" -> c_date f <> "" ->
  let i := fresh_string "w" (db_workouts d) in
  let w := {| w_user_id := id u;
              w_name := JStr (c_name f);
              w_workout_date := JStr (c_date f);
              w_notes := if str_truthy (c_notes f) then JStr (c_notes f) else JNull;
              w_created_at := db_clock d;
              w_updated_at := JNull |} in
  handleCreate server server_time access_token f d =
    {| state_after := {| c_name := c_name f; c_date := c_date f;
                         c_notes := c_notes f; c_loading := false |};
       alert := None;
       handed := Some (Some (one (workout_obj i w no_embed)));
       store_after := {| db_workouts := <[i := w]> (db_workouts d);
                         db_exercises := db_exercises d;
                         db_clock := S (db_clock d) |} |}.
Proof.
  intros Hin Hn Hd i w. unfold handleCreate.
  rewrite (proj2 (str_truthy_filled _) Hn). cbn [negb].
  unfold call, backend.
  set (req := Build_request _ _ _).
  set (s := {| req_supabase := bearer access_token; req_user := u |}).
  assert (Hs : authenticated getUser req s) by by apply signed_in_authenticated.
  destruct (authenticated_app date_rank getUser POST_workouts _ req s eq_refl Hs d)
    as [-> _].
  destruct (workout_data_fields f) as (Fn & Fd & Fo).
  rewrite (post_workouts_run date_rank getUser req s d).
  - cbn [resolves status respond json andb Z.leb Z.ltb Z.compare Pos.compare
         Pos.compare_cont].
    replace (new_workout d (requested_workout req s)) with w; [done|].
    unfold new_workout, requested_workout, w.
    cbn [wn_user_id wn_name wn_workout_date wn_notes req body s req_user].
    rewrite Fn, Fd, Fo. cbn. f_equal. unfold js_or. cbn [truthy].
    by destruct (str_truthy (c_notes f)).
  - cbn [req body]. rewrite Fn. cbn. by apply str_truthy_filled.
  - cbn [req body]. rewrite Fd. cbn. by apply str_truthy_filled.
Qed.

Lemma create_without_date access_token u f d :
  signed_in getUser access_token u -> c_name f <> "" -> c_date f = "" ->
  handleCreate server server_time access_token f d =
    {| state_after := {| c_name := c_name f; c_date := c_date f;
                         c_notes := c_notes f; c_loading := false |};
       alert := Some "Error creating workout: Request failed with status code 400";
       handed := None; store_after := d |}.
Proof.
  intros Hin Hn Hd. unfold handleCreate.
  rewrite (proj2 (str_truthy_filled _) Hn). cbn [negb].
  unfold call, backend.
  set (req := Build_request _ _ _).
  set (s := {| req_supabase := bearer access_token; req_user := u |}).
  assert (Hs : authenticated getUser req s) by by apply signed_in_authenticated.
  destruct (authenticated_app date_rank getUser POST_workouts _ req s eq_refl Hs d)
    as [-> _].
  destruct (workout_data_fields f) as (Fn & Fd & Fo).
  unfold post_workouts. cbn [req body]. rewrite Fn, Fd, Hd. cbn [truthy str_truthy].
  rewrite orb_true_r. reflexivity.
Qed.

Lemma create_without_name access_token f d :
  c_name f = "" ->
  handleCreate server server_time access_token f d =
    {| state_after := f; alert := Some "Please enter a workout name";
       handed := None; store_after := d |}.
Proof. intros Hn. unfold handleCreate. by rewrite Hn. Qed.

(** X17. The workout form checks the name, the server the name and the
    date.  Without a name the form sends nothing.  With a name and an empty
    date the server answers 400, which the form reports, and nothing is
    stored.  With both, a row of the signed-in user is stored under a free
    key with the name and date as typed, empty notes as [null], and the
    stored row is what the form hands to the dashboard. *)
Theorem workout_form_and_server access_token u f d :
  signed_in getUser access_token u ->
  let o := handleCreate server server_time access_token f d in
  (c_name f = "" ->
     o = {| state_after := f; alert := Some "Please enter a workout name";
            handed := None; store_after := d |}) /\
  (c_name f <> "" -> c_date f = "" ->
     alert o = Some "Error creating workout: Request failed with status code 400" /\
     handed o = None /\ store_after o = d) /\
  (c_name f <> "" -> c_date f <> "" ->
     exists i w,
       db_workouts d !! i = None /\
       w_user_id w = id u /\ w_name w = JStr (c_name f) /\
       w_workout_date w = JStr (c_date f) /\
       w_notes w = (if decide (c_notes f = "") then JNull else JStr (c_notes f)) /\
       alert o = None /\
       handed o = Some (Some (one (workout_obj i w no_embed))) /\
       store_after o = {| db_workouts := <[i := w]> (db_workouts d);
                          db_exercises := db_exercises d;
                          db_clock := S (db_clock d) |}).
Proof.
  intros Hin o. subst o. split; [|split].
  - apply create_without_name.
  - intros Hn Hd. by rewrite (create_without_date _ _ _ _ Hin Hn Hd).
  - intros Hn Hd. rewrite (create_with_date _ _ _ _ Hin Hn Hd).
    eexists (fresh_string "w" (db_workouts d)), (Build_workout _ _ _ _ _ _).
    split; [apply fresh_string_fresh|].
    do 3 (split; [reflexivity|]). split; [|done].
    cbn. destruct (c_notes f); by cbn.
Qed.

(** ** Dashboard *)

Lemma listed_ids d u :
  item_id <$> (listed_item <$> (listed d <$> own_workouts date_rank d u)) =
  Some <$> (own_workouts date_rank d u).*1.
Proof. rewrite <- !list_fmap_compose. apply list_fmap_ext. by intros ? [??]. Qed.

Lemma own_keys_once d u : NoDup (own_workouts date_rank d u).*1.
Proof.
  unfold own_workouts, sorted_by. rewrite merge_sort_Permutation.
  apply NoDup_fst_map_to_list.
Qed.

Lemma own_keys d u i :
  i ∈ (own_workouts date_rank d u).*1 <->
  exists w, db_workouts d !! i = Some w /\ w_user_id w = u.
Proof.
  rewrite list_elem_of_fmap. unfold own_workouts, sorted_by. split.
  - intros ([j w] & -> & Hin). rewrite merge_sort_Permutation in Hin.
    apply elem_of_map_to_list, map_lookup_filter_Some in Hin as [Hj Hu].
    apply (workout_matches_owner getUser) in Hu. by exists w.
  - intros (w & Hi & Hu). exists (i, w). split; [done|].
    rewrite merge_sort_Permutation.
    apply elem_of_map_to_list, map_lookup_filter_Some. split; [done|].
    by apply (workout_matches_owner getUser).
Qed.

Lemma fetch_run access_token u st d :
  signed_in getUser access_token u ->
  fetchWorkouts server server_time access_token st d =
    Some ({| shown := listed_item <$> (listed d <$> own_workouts date_rank d (id u));
             selectedWorkout := selectedWorkout st;
             showCreateModal := showCreateModal st;
             loading := false |}, d).
Proof.
  intros Hin. unfold fetchWorkouts, call, backend.
  set (req := Build_request _ _ _).
  set (s := {| req_supabase := bearer access_token; req_user := u |}).
  assert (Hs : authenticated getUser req s) by by apply signed_in_authenticated.
  destruct (authenticated_app date_rank getUser GET_workouts _ req s eq_refl Hs d)
    as [-> _].
  by rewrite (get_workouts_run date_rank getUser).
Qed.

Lemma fetch_in_step u d st :
  shown st = listed_item <$> (listed d <$> own_workouts date_rank d u) ->
  in_step u st d.
Proof.
  intros Hst. unfold in_step. rewrite Hst, listed_ids. split; [|split].
  - intros i. rewrite <- own_keys. split.
    + by intros (j & [= ->] & Hj)%list_elem_of_fmap.
    + intros Hi. by apply list_elem_of_fmap_2.
  - apply NoDup_fmap_2; [|apply own_keys_once]. by intros ?? [=].
  - by intros (j & [=] & _)%list_elem_of_fmap.
Qed.

Lemma delete_run access_token u i d :
  signed_in getUser access_token u ->
  handleDelete server server_time true access_token i d =
    (true, None, without_workout d i (id u)).
Proof.
  intros Hin. unfold handleDelete, call, backend. cbn [negb].
  set (req := Build_request _ _ _).
  set (s := {| req_supabase := bearer access_token; req_user := u |}).
  assert (Hs : authenticated getUser req s) by by apply signed_in_authenticated.
  destruct (authenticated_app date_rank getUser (DELETE_workout i) _ req s eq_refl Hs d)
    as [-> _].
  by rewrite (delete_workout_run date_rank getUser).
Qed.

Lemma filtered_ids i (l : list item) :
  item_id <$> filter (fun w => item_id w <> Some i) l =
  filter (fun o => o <> Some i) (item_id <$> l).
Proof.
  induction l as [|w l IH]; [done|].
  rewrite fmap_cons, !filter_cons.
  destruct (decide (item_id w <> Some i)); by rewrite ?fmap_cons, IH.
Qed.

Lemma without_workout_lookup d i u j :
  (exists w, db_workouts (without_workout d i u) !! j = Some w /\ w_user_id w = u) <->
  j <> i /\ exists w, db_workouts d !! j = Some w /\ w_user_id w = u.
Proof.
  destruct (db_workouts d !! i) as [wi|] eqn:Hi;
    [destruct (decide (w_user_id wi = u)) as [Hu|Hu]|].
  - rewrite (without_workout_gone getUser d i u wi Hi Hu). cbn [db_workouts].
    split.
    + intros (w & Hj & Hw). apply lookup_delete_Some in Hj as [Hne Hj].
      split; [done|]. by exists w.
    + intros (Hne & w & Hj & Hw). exists w. split; [|done].
      by apply lookup_delete_Some.
  - rewrite without_workout_missing by (intros w; rewrite Hi; by intros [= <-]).
    split; [|tauto]. intros (w & Hj & Hw). split; [|by exists w].
    intros ->. rewrite Hi in Hj. congruence.
  - rewrite without_workout_missing by (intros w; rewrite Hi; by intros [=]).
    split; [|tauto]. intros (w & Hj & Hw). split; [|by exists w].
    intros ->. rewrite Hi in Hj. congruence.
Qed.

Lemma delete_in_step u i st d :
  in_step u st d -> in_step u (handleDeleteWorkout i st) (without_workout d i u).
Proof.
  intros (Hids & Hnd & Hnone). unfold in_step, handleDeleteWorkout. cbn [shown].
  rewrite filtered_ids. split; [|split].
  - intros j. rewrite list_elem_of_filter, without_workout_lookup, Hids.
    split; intros [Hne H]; (split; [congruence|done]).
  - by apply NoDup_filter.
  - rewrite list_elem_of_filter. tauto.
Qed.

Lemma create_in_step u i w o st d :
  in_step u st d -> db_workouts d !! i = None -> w_user_id w = u ->
  in_step u
    {| shown := created_item (Some (one (workout_obj i w o))) :: shown st;
       selectedWorkout := Some (created_item (Some (one (workout_obj i w o))));
       showCreateModal := false; loading := loading st |}
    {| db_workouts := <[i := w]> (db_workouts d);
       db_exercises := db_exercises d;
       db_clock := S (db_clock d) |}.
Proof.
  intros (Hids & Hnd & Hnone) Hfree Hu. unfold in_step. cbn [shown db_workouts].
  rewrite fmap_cons. cbn [item_id]. split; [|split].
  - intros j. rewrite elem_of_cons, Hids. split.
    + intros [[= ->]|(w' & Hj & Hw')].
      * exists w. by rewrite lookup_insert_eq.
      * exists w'. rewrite lookup_insert_ne; [done|]. intros ->. congruence.
    + intros (w' & Hj & Hw'). apply lookup_insert_Some in Hj as [[-> ->]|[Hne Hj]].
      * by left.
      * right. by exists w'.
  - apply NoDup_cons. split; [|done].
    rewrite Hids. intros (w' & Hj & _). congruence.
  - rewrite elem_of_cons. intros [[=]|H]. done.
Qed.

(** X18. The dashboard stays in step with the store.  Loading the list
    succeeds and shows the keys of exactly the signed-in user's workouts,
    each once; creating a workout through the modal and deleting one
    through its card keep it so, whatever the form holds, whichever key is
    deleted and whether or not the user confirms. *)
Theorem dashboard_stays_in_step access_token u :
  signed_in getUser access_token u ->
  (forall st d, exists st',
     fetchWorkouts server server_time access_token st d = Some (st', d) /\
     in_step (id u) st' d) /\
  (forall f st d, in_step (id u) st d ->
     let '(st', o) := create_clicked server server_time access_token f st d in
     in_step (id u) st' (store_after o)) /\
  (forall confirmed i st d, in_step (id u) st d ->
     let '(st', _, d') :=
       delete_clicked server server_time confirmed access_token i st d in
     in_step (id u) st' d').
Proof.
  intros Hin. split; [|split].
  - intros st d. eexists. split; [by apply fetch_run|].
    by eapply fetch_in_step.
  - intros f st d Hst. unfold create_clicked.
    destruct (decide (c_name f = "")) as [Hn|Hn];
      [|destruct (decide (c_date f = "")) as [Hd|Hd]].
    + by rewrite create_without_name.
    + by rewrite (create_without_date _ _ _ _ Hin Hn Hd).
    + rewrite (create_with_date _ _ _ _ Hin Hn Hd).
      cbn [handed store_after handleWorkoutCreated shown selectedWorkout loading].
      apply create_in_step; [done|apply fresh_string_fresh|done].
  - intros [] i st d Hst; unfold delete_clicked.
    + rewrite (delete_run _ _ _ _ Hin). by apply delete_in_step.
    + done.
Qed.

(** X19. The workout shown in detail is always one the store holds for the
    signed-in user.  While the dashboard is in step with the store and its
    selection is one of the listed objects, creating and deleting through
    the dashboard keep the selection listed, so its key is that of a stored
    workout of the user; a created workout becomes the selection, and a
    confirmed deletion of the selected key clears it. *)
Theorem selection_is_a_stored_workout access_token u st d :
  signed_in getUser access_token u ->
  in_step (id u) st d -> selection_listed st ->
  (forall f,
     let '(st', o) := create_clicked server server_time access_token f st d in
     selection_listed st' /\
     (forall w, selectedWorkout st' = Some w ->
        exists i row, item_id w = Some i /\
          db_workouts (store_after o) !! i = Some row /\ w_user_id row = id u) /\
     (forall w, handed o = Some w -> selectedWorkout st' = Some (created_item w))) /\
  (forall confirmed i,
     let '(st', _, d') :=
       delete_clicked server server_time confirmed access_token i st d in
     selection_listed st' /\
     (forall w, selectedWorkout st' = Some w ->
        exists j row, item_id w = Some j /\
          db_workouts d' !! j = Some row /\ w_user_id row = id u) /\
     (confirmed = true ->
      forall w, selectedWorkout st = Some w -> item_id w = Some i ->
                selectedWorkout st' = None)).
Proof.
  intros Hin Hst Hsel.
  assert (Hstored : forall st' d', in_step (id u) st' d' -> selection_listed st' ->
            forall w, selectedWorkout st' = Some w ->
              exists i row, item_id w = Some i /\
                db_workouts d' !! i = Some row /\ w_user_id row = id u).
  { intros st' d' (Hids & _ & Hnone) Hsel' w Hw.
    apply Hsel' in Hw. apply (list_elem_of_fmap_2 item_id) in Hw.
    destruct (item_id w) as [i|] eqn:Hi; [|done].
    apply Hids in Hw as (row & Hrow & Hu). by exists i, row. }
  split.
  - intros f. unfold create_clicked.
    destruct (decide (c_name f = "")) as [Hn|Hn];
      [|destruct (decide (c_date f = "")) as [Hd|Hd]].
    + rewrite create_without_name by done. cbn [handed store_after].
      split; [done|]. split; [by apply Hstored|done].
    + rewrite (create_without_date _ _ _ _ Hin Hn Hd). cbn [handed store_after].
      split; [done|]. split; [by apply Hstored|done].
    + rewrite (create_with_date _ _ _ _ Hin Hn Hd).
      cbn [handed store_after handleWorkoutCreated shown selectedWorkout loading].
      match goal with |- selection_listed ?st' /\ _ =>
        assert (Hsel' : selection_listed st')
      end.
      { intros w [= <-]. cbn [shown]. apply elem_of_cons. by left. }
      split; [exact Hsel'|]. split.
      * intros w Hw. eapply Hstored; [|exact Hsel'|exact Hw].
        apply create_in_step; [done|apply fresh_string_fresh|done].
      * by intros w [= <-].
  - intros [] i; unfold delete_clicked.
    + rewrite (delete_run _ _ _ _ Hin).
      assert (Hsel' : selection_listed (handleDeleteWorkout i st)).
      { intros w. unfold handleDeleteWorkout. cbn [selectedWorkout shown].
        destruct (selectedWorkout st) as [w0|] eqn:Hw0; [|done].
        case_bool_decide as Hid; [done|]. intros [= <-].
        apply list_elem_of_filter. split; [done|]. by apply Hsel. }
      split; [exact Hsel'|]. split.
      * intros w Hw. eapply Hstored; [|exact Hsel'|exact Hw].
        by apply delete_in_step.
      * intros _ w Hw Hid. unfold handleDeleteWorkout. cbn [selectedWorkout].
        rewrite Hw. by rewrite bool_decide_eq_true_2.
    + split; [done|]. split; [by apply Hstored|done].
Qed.

(** ** WorkoutDetail *)

Lemma add_outcome access_token u wid f d :
  signed_in getUser access_token u ->
  let o := handleAdd server server_time access_token wid f d in
  (handed o = None /\ store_after o = d) \/
  (exists i e,
     db_exercises d !! i = None /\ e_workout_id e = wid /\
     handed o = Some (Some (one (exercise_obj i e))) /\
     store_after o = {| db_workouts := db_workouts d;
                        db_exercises := <[i := e]> (db_exercises d);
                        db_clock := S (db_clock d) |}).
Proof.
  intros Hin o. subst o. unfold handleAdd.
  destruct (negb _ || negb _ || negb _ || negb _); [by left|].
  unfold call, backend.
  set (req := Build_request _ _ _).
  set (s := {| req_supabase := bearer access_token; req_user := u |}).
  assert (Hs : authenticated getUser req s) by by apply signed_in_authenticated.
  destruct (authenticated_app date_rank getUser (POST_exercises wid) _ req s eq_refl Hs d)
    as [-> _].
  destruct (negb (truthy (field (body req) "exercise_name"))
            || negb (truthy (field (body req) "sets"))
            || negb (truthy (field (body req) "reps"))
            || bool_decide (field (body req) "weight" = JUndefined)) eqn:Hbad.
  - unfold post_exercises. rewrite Hbad. by left.
  - apply validation_decided in Hbad.
    destruct (db_workouts d !! wid) as [w|] eqn:Hw;
      [destruct (decide (w_user_id w = id u)) as [Hu|Hu]|].
    + rewrite (post_exercises_owned date_rank getUser req s wid d w Hbad Hw Hu).
      right. exists (fresh_string "e" (db_exercises d)),
                    (new_exercise d (requested_exercise req s wid)).
      split; [apply fresh_string_fresh|]. by repeat split.
    + rewrite (post_exercises_unowned date_rank getUser req s wid d Hbad);
        [by left|]. intros w'. rewrite Hw. by intros [= <-].
    + rewrite (post_exercises_unowned date_rank getUser req s wid d Hbad);
        [by left|]. intros w'. by rewrite Hw.
Qed.

Lemma fetched_ids d wid :
  entry_id <$> (fetched_entry <$> (project_exercise <$> workout_exercises d wid)) =
  Some <$> (workout_exercises d wid).*1.
Proof. rewrite <- !list_fmap_compose. apply list_fmap_ext. by intros ? [??]. Qed.

Lemma fetch_exercises_run access_token u workout st d :
  signed_in getUser access_token u ->
  fetchExercises server server_time access_token workout st d =
    Some ({| exercises_shown :=
               fetched_entry <$> (project_exercise <$>
                                    workout_exercises d (path_id workout));
             detail_loading := false |}, d).
Proof.
  intros Hin. unfold fetchExercises, call, backend.
  set (req := Build_request _ _ _).
  set (s := {| req_supabase := bearer access_token; req_user := u |}).
  assert (Hs : authenticated getUser req s) by by apply signed_in_authenticated.
  destruct (authenticated_app date_rank getUser (GET_exercises (path_id workout)) _
              req s eq_refl Hs d) as [-> _].
  by rewrite (get_exercises_run date_rank getUser).
Qed.

Lemma fetched_in_step wid d st :
  exercises_shown st =
    fetched_entry <$> (project_exercise <$> workout_exercises d wid) ->
  detail_in_step wid st d.
Proof.
  intros Hst. unfold detail_in_step. rewrite Hst, fetched_ids. split; [|split].
  - intros i. split.
    + intros (j & [= ->] & ([j' e] & -> & Hj)%list_elem_of_fmap)%list_elem_of_fmap.
      apply (workout_exercises_elem getUser) in Hj as [Hj He]. by exists e.
    + intros (e & Hi & He). apply list_elem_of_fmap_2.
      apply list_elem_of_fmap. exists (i, e). split; [done|].
      by apply (workout_exercises_elem getUser).
  - apply NoDup_fmap_2; [by intros ?? [=]|].
    unfold workout_exercises, sorted_by. rewrite merge_sort_Permutation.
    apply NoDup_fst_map_to_list.
  - by intros (j & [=] & _)%list_elem_of_fmap.
Qed.

Lemma exercise_delete_run access_token u i d :
  signed_in getUser access_token u ->
  ExercisesList_handleDelete server server_time true access_token i d =
    (true, None, {| db_workouts := db_workouts d;
                    db_exercises := delete i (db_exercises d);
                    db_clock := db_clock d |}).
Proof.
  intros Hin. unfold ExercisesList_handleDelete, call, backend. cbn [negb].
  set (req := Build_request _ _ _).
  set (s := {| req_supabase := bearer access_token; req_user := u |}).
  assert (Hs : authenticated getUser req s) by by apply signed_in_authenticated.
  destruct (authenticated_app date_rank getUser (DELETE_exercise i) _ req s eq_refl Hs d)
    as [-> _].
  unfold delete_exercise. cbn [run].
  by rewrite (exec_delete_exercise date_rank getUser).
Qed.

Lemma filtered_entry_ids i (l : list entry) :
  entry_id <$> filter (fun e => entry_id e <> Some i) l =
  filter (fun o => o <> Some i) (entry_id <$> l).
Proof.
  induction l as [|e l IH]; [done|].
  rewrite fmap_cons, !filter_cons.
  destruct (decide (entry_id e <> Some i)); by rewrite ?fmap_cons, IH.
Qed.

Lemma exercise_delete_in_step wid i st d :
  detail_in_step wid st d ->
  detail_in_step wid (handleDeleteExercise i st)
    {| db_workouts := db_workouts d;
       db_exercises := delete i (db_exercises d);
       db_clock := db_clock d |}.
Proof.
  intros (Hids & Hnd & Hnone). unfold detail_in_step, handleDeleteExercise.
  cbn [exercises_shown db_exercises]. rewrite filtered_entry_ids. split; [|split].
  - intros j. rewrite list_elem_of_filter, Hids. split.
    + intros (Hne & e & Hj & He). exists e. split; [|done].
      apply lookup_delete_Some. split; [congruence|done].
    + intros (e & [Hne Hj]%lookup_delete_Some & He).
      split; [congruence|by exists e].
  - by apply NoDup_filter.
  - rewrite list_elem_of_filter. tauto.
Qed.

Lemma exercise_add_in_step wid i e st d :
  detail_in_step wid st d -> db_exercises d !! i = None -> e_workout_id e = wid ->
  detail_in_step wid
    (handleExerciseAdded (Some (one (exercise_obj i e))) st)
    {| db_workouts := db_workouts d;
       db_exercises := <[i := e]> (db_exercises d);
       db_clock := S (db_clock d) |}.
Proof.
  intros (Hids & Hnd & Hnone) Hfree He. unfold detail_in_step, handleExerciseAdded.
  cbn [exercises_shown db_exercises]. rewrite fmap_app. cbn [fmap list_fmap entry_id].
  split; [|split].
  - intros j. rewrite elem_of_app, list_elem_of_singleton, Hids. split.
    + intros [(e' & Hj & He')|[= ->]].
      * exists e'. rewrite lookup_insert_ne; [done|]. intros ->. congruence.
      * exists e. by rewrite lookup_insert_eq.
    + intros (e' & Hj & He'). apply lookup_insert_Some in Hj as [[-> ->]|[Hne Hj]].
      * by right.
      * left. by exists e'.
  - apply NoDup_app. split; [done|]. split; [|apply NoDup_singleton].
    intros o Ho ->%list_elem_of_singleton.
    apply Hids in Ho as (e' & Hj & _). congruence.
  - rewrite elem_of_app, list_elem_of_singleton. intros [H|[=]]. done.
Qed.

Lemma detail_length wid st d :
  detail_in_step wid st d -> length (exercises_shown st) = exercise_rows d wid.
Proof.
  intros (Hids & Hnd & Hnone). unfold exercise_rows.
  rewrite <- (length_fmap entry_id).
  trans (length (Some <$> (map_to_list
           (filter (fun r => e_workout_id r.2 = wid) (db_exercises d))).*1));
    [|by rewrite !length_fmap, length_map_to_list].
  apply Permutation_length, NoDup_Permutation; [done| |].
  - apply NoDup_fmap_2; [by intros ?? [=]|apply NoDup_fst_map_to_list].
  - intros [i|]; [|split; [done|by intros (j & [=] & _)%list_elem_of_fmap]].
    rewrite Hids. split.
    + intros (e & Hi & He). apply list_elem_of_fmap_2.
      apply list_elem_of_fmap. exists (i, e). split; [done|].
      by apply elem_of_map_to_list, map_lookup_filter_Some.
    + intros (j & [= ->] & ([j' e] & -> & Hj)%list_elem_of_fmap)%list_elem_of_fmap.
      apply elem_of_map_to_list, map_lookup_filter_Some in Hj as [Hj He].
      by exists e.
Qed.

(** X20. The detail view stays in step with the store.  Loading the
    exercises of a workout succeeds and shows the keys of exactly the
    exercise rows that reference it, each once, whoever owns the workout;
    adding through the form and deleting through the list keep it so,
    whatever the form holds and whichever key is deleted; and in that
    state the number the view shows is the number of those rows. *)
Theorem detail_stays_in_step access_token u workout :
  signed_in getUser access_token u ->
  (forall st d, exists st',
     fetchExercises server server_time access_token workout st d = Some (st', d) /\
     detail_in_step (path_id workout) st' d) /\
  (forall f st d, detail_in_step (path_id workout) st d ->
     let '(st', o) := add_clicked server server_time access_token workout f st d in
     detail_in_step (path_id workout) st' (store_after o)) /\
  (forall confirmed i st d, detail_in_step (path_id workout) st d ->
     let '(st', _, d') :=
       exercise_delete_clicked server server_time confirmed access_token i st d in
     detail_in_step (path_id workout) st' d') /\
  (forall st d, detail_in_step (path_id workout) st d ->
     length (exercises_shown st) = exercise_rows d (path_id workout)).
Proof.
  intros Hin. split; [|split; [|split]].
  - intros st d. eexists. split; [by apply (fetch_exercises_run access_token u)|].
    by eapply fetched_in_step.
  - intros f st d Hst. unfold add_clicked.
    destruct (add_outcome access_token u (path_id workout) f d Hin)
      as [[-> ->]|(i & e & Hfree & He & -> & ->)]; [done|].
    by apply exercise_add_in_step.
  - intros [] i st d Hst; unfold exercise_delete_clicked.
    + rewrite (exercise_delete_run _ _ _ _ Hin). by apply exercise_delete_in_step.
    + done.
  - apply detail_length.
Qed.

(** ** Numbers from the form to the row *)

(** X21. Whole numbers survive the two conversions on their way from the
    form to the row.  The form sends what [parseInt] reads from its sets
    and reps inputs, a double, and the server applies [parseInt] again to
    the number that arrives; when what the form read is a whole number
    other than zero and below 10^21 in size, negative ones included, the
    row stored for an owned workout holds exactly that number. *)
Theorem form_integers_are_stored_as_read access_token u wid w f d ms xs mr xr :
  signed_in getUser access_token u ->
  f_exercise f <> "" -> f_weight f <> "" ->
  parseInt (JStr (f_sets f)) = Fin ms xs -> parseInt (JStr (f_reps f)) = Fin mr xr ->
  ms <> 0 -> mr <> 0 -> 0 <= xs -> 0 <= xr ->
  Z.abs ms * 10 ^ xs < 10 ^ 21 -> Z.abs mr * 10 ^ xr < 10 ^ 21 ->
  db_workouts d !! wid = Some w -> w_user_id w = id u ->
  let o := handleAdd server server_time access_token wid f d in
  exists i e,
    handed o = Some (Some (one (exercise_obj i e))) /\
    db_exercises (store_after o) !! i = Some e /\
    e_sets e = JNum (Fin ms xs) /\ e_reps e = JNum (Fin mr xr).
Proof.
  intros Hin Hname Hweight Hsets Hreps Hms Hmr Hxs Hxr Hbs Hbr Hw Hu o. subst o.
  unfold handleAdd.
  assert (Hfs : f_sets f <> "") by (intros Hs; by rewrite Hs in Hsets).
  assert (Hfr : f_reps f <> "") by (intros Hr; by rewrite Hr in Hreps).
  assert (Hds : is_double (Fin ms xs)) by (rewrite <- Hsets; apply parseInt_is_double).
  assert (Hdr : is_double (Fin mr xr)) by (rewrite <- Hreps; apply parseInt_is_double).
  rewrite (proj2 (filled_in f)) by done.
  unfold call, backend.
  set (req := Build_request _ _ _).
  set (s := {| req_supabase := bearer access_token; req_user := u |}).
  assert (Hs : authenticated getUser req s) by by apply signed_in_authenticated.
  destruct (authenticated_app date_rank getUser (POST_exercises wid) _ req s eq_refl Hs d)
    as [-> _].
  destruct (exercise_data_fields f) as (Fn & Fs & Fr & Fw).
  rewrite Hsets in Fs. rewrite Hreps in Fr.
  assert (Hval : passes_validation (body req)).
  { unfold passes_validation. cbn [req body]. rewrite Fn, Fs, Fr, Fw.
    cbn [json_num truthy num_truthy].
    rewrite !(proj2 (Z.eqb_neq _ _)) by done.
    repeat split; try done.
    - by apply str_truthy_filled.
    - by destruct (parseFloat _). }
  rewrite (post_exercises_owned date_rank getUser req s wid d w Hval Hw Hu).
  exists (fresh_string "e" (db_exercises d)),
         (new_exercise d (requested_exercise req s wid)).
  split; [reflexivity|]. split; [apply lookup_insert_eq|].
  cbn [new_exercise requested_exercise e_sets e_reps en_sets en_reps req body].
  rewrite Fs, Fr. cbn [json_num].
  by rewrite !parseInt_whole.
Qed.

End Frontend.

(* ===================================================================== *)
(** * The server and the frontend in the sample world *)
(* ===================================================================== *)

Lemma gym_consistent : consistent Sample.gym.
Proof.
  intros i e Hi. unfold Sample.gym in Hi. cbn [db_exercises] in Hi.
  apply lookup_insert_Some in Hi as [[<- <-]|[_ Hi]]; [by exists Sample.leg_day|].
  apply lookup_singleton_Some in Hi as [<- <-]. by exists Sample.leg_day.
Qed.

Lemma alice_signed_in : signed_in Sample.getUser "tok-alice" Sample.alice.
Proof. repeat split; done. Qed.

Lemma no_header_rejected s : ~ authenticated Sample.getUser Demo.no_header s.
Proof. by intros (header & token & u & [=] & _). Qed.

(** A request without a header. *)
Lemma rejected_requests_reach_no_store_witness :
  handler GET_workouts = Some get_workouts /\
  sent Sample.date_rank Sample.getUser (app GET_workouts Demo.no_header) Sample.gym = [] /\
  (run Sample.date_rank Sample.getUser (app GET_workouts Demo.no_header) Sample.gym).2 =
    Sample.gym /\
  is_error (json (run Sample.date_rank Sample.getUser
                    (app GET_workouts Demo.no_header) Sample.gym).1) = true.
Proof.
  split; [reflexivity|].
  destruct (rejected_requests_reach_no_store Sample.date_rank Sample.getUser
              GET_workouts get_workouts Demo.no_header Sample.gym eq_refl
              no_header_rejected) as (Hq & Hd & _ & He).
  repeat split; assumption.
Defined.

(** The one store call of Alice's list request. *)
Lemma store_calls_present_the_verified_token_witness :
  exists q,
    issues (app GET_workouts (Sample.as_alice ∅)) "Bearer tok-alice" q /\
    exists header token,
      authorization (Sample.as_alice ∅) = Some header /\
      split " " header !! 1%nat = Some token /\ token <> "" /\
      verifies (app GET_workouts (Sample.as_alice ∅)) token /\
      "Bearer tok-alice" = "Bearer " +:+ token.
Proof.
  assert (Hq : { q | issues (app GET_workouts (Sample.as_alice ∅))
                            "Bearer tok-alice" q }).
  { eexists.
    apply (issues_after_getUser "tok-alice" _
             (getUser_resolves (Some Sample.alice) None)).
    apply issues_here. }
  destruct Hq as [q Hq]. exists q. split; [exact Hq|].
  exact (store_calls_present_the_verified_token GET_workouts (Sample.as_alice ∅)
           "Bearer tok-alice" q Hq).
Defined.

Lemma get_routes_only_read_witness :
  is_get (GET_workout "w") = true /\
  (run Sample.date_rank Sample.getUser
     (app (GET_workout "w") (Sample.as_alice ∅)) Sample.gym).2 = Sample.gym.
Proof.
  split; [reflexivity|].
  exact (get_routes_only_read Sample.date_rank Sample.getUser (GET_workout "w")
           (Sample.as_alice ∅) Sample.gym eq_refl).
Defined.

(** Alice sends a DELETE for the key of Bob's workout. *)
Lemma other_users_workouts_stay_witness :
  authenticated Sample.getUser (Sample.as_alice ∅) Sample.alice_session /\
  db_workouts Sample.gym !! "w1" = Some Sample.bob_run /\
  w_user_id Sample.bob_run <> id (req_user Sample.alice_session) /\
  db_workouts (run Sample.date_rank Sample.getUser
                 (app (DELETE_workout "w1") (Sample.as_alice ∅)) Sample.gym).2 !! "w1" =
    Some Sample.bob_run.
Proof.
  assert (Hu : w_user_id Sample.bob_run <> id (req_user Sample.alice_session))
    by discriminate.
  split; [apply alice_authenticated|]. split; [reflexivity|]. split; [exact Hu|].
  exact (other_users_workouts_stay Sample.date_rank Sample.getUser
           (DELETE_workout "w1") (Sample.as_alice ∅) Sample.alice_session Sample.gym
           "w1" Sample.bob_run (alice_authenticated ∅) eq_refl Hu).
Defined.

Lemma requests_keep_the_store_consistent_witness :
  consistent Sample.gym /\
  consistent (run Sample.date_rank Sample.getUser
                (app (DELETE_workout "w") (Sample.as_alice ∅)) Sample.gym).2.
Proof.
  split; [exact gym_consistent|].
  exact (requests_keep_the_store_consistent Sample.date_rank Sample.getUser
           (DELETE_workout "w") (Sample.as_alice ∅) Sample.gym gym_consistent).
Defined.

(** Alice renames her workout; the date and the notes are not sent. *)
Lemma patch_workout_rewrites_own_row_witness :
  authenticated Sample.getUser (Sample.as_alice Demo.rename_body) Sample.alice_session /\
  db_workouts Sample.gym !! "w" = Some Sample.leg_day /\
  exists w',
    run Sample.date_rank Sample.getUser
        (app (PATCH_workout "w") (Sample.as_alice Demo.rename_body)) Sample.gym =
      (respond 200 (workout_body (Some (one (workout_obj "w" w' no_embed)))),
       {| db_workouts := <[ "w" := w' ]> (db_workouts Sample.gym);
          db_exercises := db_exercises Sample.gym;
          db_clock := db_clock Sample.gym |}) /\
    w_name w' = JStr "Legs" /\
    w_workout_date w' = JStr "2024-01-01" /\
    w_updated_at w' = JStr "2024-02-01T08:00:00.000Z".
Proof.
  split; [apply alice_authenticated|]. split; [reflexivity|].
  destruct (patch_workout_rewrites_own_row Sample.date_rank Sample.getUser
              (Sample.as_alice Demo.rename_body) Sample.alice_session "w"
              Sample.leg_day Sample.gym (alice_authenticated _) eq_refl eq_refl)
    as (w' & Hrun & _ & _ & Hat & Hname & _ & _ & _ & Hdate & _).
  exists w'. split; [exact Hrun|]. split; [|split].
  - apply Hname. reflexivity.
  - rewrite Hdate; reflexivity.
  - exact Hat.
Defined.

(** Alice sends a PATCH for the key of Bob's workout. *)
Lemma patch_workout_missing_is_500_witness :
  authenticated Sample.getUser (Sample.as_alice Demo.rename_body) Sample.alice_session /\
  db_workouts Sample.gym !! "w1" = Some Sample.bob_run /\
  run Sample.date_rank Sample.getUser
      (app (PATCH_workout "w1") (Sample.as_alice Demo.rename_body)) Sample.gym =
    (respond 500 (error_body cardinality_error), Sample.gym).
Proof.
  split; [apply alice_authenticated|]. split; [reflexivity|].
  apply (patch_workout_missing_is_500 Sample.date_rank Sample.getUser
           (Sample.as_alice Demo.rename_body) Sample.alice_session "w1" Sample.gym
           (alice_authenticated _)).
  intros w [= <-]. discriminate.
Defined.

(** Bob reads the exercises of Alice's workout. *)
Lemma get_exercises_lists_by_workout_only_witness :
  authenticated Sample.getUser (Sample.as_bob ∅) Sample.bob_session /\
  exists es,
    run Sample.date_rank Sample.getUser
        (app (GET_exercises "w") (Sample.as_bob ∅)) Sample.gym =
      (respond 200
         (exercises_body (Some (rows ((fun r => exercise_obj r.1 r.2) <$> es)))),
       Sample.gym) /\
    ("e", Sample.squat) ∈ es /\ ("e0", Sample.lunge) ∈ es /\ NoDup es.*1.
Proof.
  split; [apply bob_authenticated|].
  destruct (get_exercises_lists_by_workout_only Sample.date_rank Sample.getUser
              (Sample.as_bob ∅) Sample.bob_session "w" Sample.gym
              (bob_authenticated ∅)) as (es & Hrun & Hin & Hnd & _).
  exists es. split; [exact Hrun|]. split; [|split; [|exact Hnd]].
  - apply Hin. split; reflexivity.
  - apply Hin. split; reflexivity.
Defined.

(** Alice creates a workout and reads it back; Bob's list does not show it. *)
Lemma created_workout_is_read_back_witness :
  authenticated Sample.getUser (Sample.as_alice Sample.new_workout_body)
    Sample.alice_session /\
  exists i w d',
    run Sample.date_rank Sample.getUser
        (app POST_workouts (Sample.as_alice Sample.new_workout_body)) Sample.gym =
      (respond 201 (workout_body (Some (one (workout_obj i w no_embed)))), d') /\
    run Sample.date_rank Sample.getUser (app (GET_workout i) (Sample.as_alice ∅)) d' =
      (respond 200
         (workout_body
            (Some (one (workout_obj i w (embed_rows (exercises_of d' i)))))),
       d') /\
    exists ws,
      run Sample.date_rank Sample.getUser (app GET_workouts (Sample.as_bob ∅)) d' =
        (respond 200 (workouts_body ws), d') /\
      i ∉ (fun lw => record_id (lw_row lw)) <$> ws.
Proof.
  split; [apply alice_authenticated|].
  destruct (created_workout_is_read_back Sample.date_rank Sample.getUser
              (Sample.as_alice Sample.new_workout_body) Sample.alice_session
              Sample.gym (alice_authenticated _) eq_refl eq_refl)
    as (i & w & d' & Hrun & Hback).
  exists i, w, d'. split; [exact Hrun|]. split.
  - apply (proj1 (Hback (Sample.as_alice ∅) Sample.alice_session
                    (alice_authenticated ∅))). reflexivity.
  - destruct (proj2 (Hback (Sample.as_bob ∅) Sample.bob_session
                       (bob_authenticated ∅))) as (ws & Hlist & Hi).
    exists ws. split; [exact Hlist|]. rewrite Hi. discriminate.
Defined.

(** Alice adds a plank to her leg day; Bob's exercise list of it shows it. *)
Lemma added_exercise_is_listed_and_counted_witness :
  authenticated Sample.getUser (Sample.as_alice Sample.bodyweight_body)
    Sample.alice_session /\
  passes_validation Sample.bodyweight_body /\
  db_workouts Sample.gym !! "w" = Some Sample.leg_day /\
  exists i e d',
    run Sample.date_rank Sample.getUser
        (app (POST_exercises "w") (Sample.as_alice Sample.bodyweight_body)) Sample.gym =
      (respond 201 (exercise_body (Some (one (exercise_obj i e)))), d') /\
    (exists es,
       run Sample.date_rank Sample.getUser (app (GET_exercises "w") (Sample.as_bob ∅)) d' =
         (respond 200 (exercises_body (Some (rows es))), d') /\
       exercise_obj i e ∈ es) /\
    exercise_rows d' "w" = 3%nat /\
    exercise_rows d' "w0" = 0%nat.
Proof.
  assert (Hval : passes_validation Sample.bodyweight_body)
    by (repeat split; discriminate || reflexivity).
  split; [apply alice_authenticated|]. split; [exact Hval|]. split; [reflexivity|].
  destruct (added_exercise_is_listed_and_counted Sample.date_rank Sample.getUser
              (Sample.as_alice Sample.bodyweight_body) Sample.alice_session "w"
              Sample.leg_day Sample.gym (alice_authenticated _) Hval eq_refl eq_refl)
    as (i & e & d' & Hrun & Hlist & Hcount & Hothers).
  exists i, e, d'. split; [exact Hrun|]. split; [|split].
  - exact (Hlist (Sample.as_bob ∅) Sample.bob_session (bob_authenticated ∅)).
  - rewrite Hcount. reflexivity.
  - rewrite (Hothers "w0") by discriminate. reflexivity.
Defined.

(** Alice deletes her leg day; nobody finds it or its exercises again. *)
Lemma deleted_workout_is_gone_with_its_exercises_witness :
  authenticated Sample.getUser (Sample.as_alice ∅) Sample.alice_session /\
  db_workouts Sample.gym !! "w" = Some Sample.leg_day /\
  exists d',
    run Sample.date_rank Sample.getUser
        (app (DELETE_workout "w") (Sample.as_alice ∅)) Sample.gym =
      (respond 200 (message_body "Workout deleted successfully"), d') /\
    db_workouts d' !! "w" = None /\
    run Sample.date_rank Sample.getUser (app (GET_exercises "w") (Sample.as_bob ∅)) d' =
      (respond 200 (exercises_body (Some (rows []))), d').
Proof.
  split; [apply alice_authenticated|]. split; [reflexivity|].
  destruct (deleted_workout_is_gone_with_its_exercises Sample.date_rank Sample.getUser
              (Sample.as_alice ∅) Sample.alice_session "w" Sample.leg_day Sample.gym
              (alice_authenticated ∅) eq_refl eq_refl)
    as (d' & Hrun & Hgone & Hafter).
  exists d'. split; [exact Hrun|]. split; [exact Hgone|].
  exact (proj1 (Hafter (Sample.as_bob ∅) Sample.bob_session (bob_authenticated ∅))).
Defined.

(** Alice creates a workout and deletes it again. *)
Lemma create_then_delete_restores_the_tables_witness :
  authenticated Sample.getUser (Sample.as_alice Sample.new_workout_body)
    Sample.alice_session /\
  consistent Sample.gym /\
  exists i w d1,
    run Sample.date_rank Sample.getUser
        (app POST_workouts (Sample.as_alice Sample.new_workout_body)) Sample.gym =
      (respond 201 (workout_body (Some (one (workout_obj i w no_embed)))), d1) /\
    run Sample.date_rank Sample.getUser (app (DELETE_workout i) (Sample.as_alice ∅)) d1 =
      (respond 200 (message_body "Workout deleted successfully"),
       {| db_workouts := db_workouts Sample.gym;
          db_exercises := db_exercises Sample.gym;
          db_clock := S (db_clock Sample.gym) |}).
Proof.
  split; [apply alice_authenticated|]. split; [exact gym_consistent|].
  destruct (create_then_delete_restores_the_tables Sample.date_rank Sample.getUser
              (Sample.as_alice Sample.new_workout_body) Sample.alice_session
              Sample.gym (alice_authenticated _) eq_refl eq_refl gym_consistent)
    as (i & w & d1 & Hrun & Hdel).
  exists i, w, d1. split; [exact Hrun|].
  exact (Hdel (Sample.as_alice ∅) Sample.alice_session (alice_authenticated ∅) eq_refl).
Defined.


(** Zero sets. *)
Lemma post_exercises_rejects_before_the_store_witness :
  authenticated Sample.getUser (Sample.as_alice Demo.zero_sets_body)
    Sample.alice_session /\
  truthy (field Demo.zero_sets_body "sets") = false /\
  run Sample.date_rank Sample.getUser
      (app (POST_exercises "w") (Sample.as_alice Demo.zero_sets_body)) Sample.gym =
    (respond 400 (error_body "All fields are required"), Sample.gym) /\
  sent Sample.date_rank Sample.getUser
      (app (POST_exercises "w") (Sample.as_alice Demo.zero_sets_body)) Sample.gym = [].
Proof.
  split; [apply alice_authenticated|]. split; [reflexivity|].
  apply (post_exercises_rejects_before_the_store Sample.date_rank Sample.getUser
           (Sample.as_alice Demo.zero_sets_body) Sample.alice_session "w" Sample.gym
           (alice_authenticated _)).
  right. left. reflexivity.
Defined.

(** ** The frontend *)

Lemma blank_in_step : in_step "alice" Demo.blank Sample.empty_db.
Proof.
  split; [|split].
  - intros i. split.
    + by intros ?%elem_of_nil.
    + by intros (w & [=] & _).
  - constructor.
  - by intros ?%elem_of_nil.
Qed.

(** The header built from Alice's token, and from an empty token. *)
Lemma frontend_header_round_trip_witness :
  handler GET_workouts = Some get_workouts /\
  app GET_workouts (Sample.request_of (Some (bearer "tok-alice")) ∅) =
    GetUser "tok-alice"
      (verified "tok-alice"
         (get_workouts (Sample.request_of (Some (bearer "tok-alice")) ∅))) /\
  app GET_workouts (Sample.request_of (Some (bearer "")) ∅) =
    Ret (respond 401 (error_body "Invalid authorization format")).
Proof.
  split; [reflexivity|]. split.
  - apply (proj1 (proj2 (frontend_header_round_trip Sample.date_rank Sample.getUser
                           "2024-02-01T08:00:00.000Z" GET_workouts get_workouts
                           "tok-alice" ∅ eq_refl)));
      [reflexivity|discriminate].
  - apply (proj2 (proj2 (frontend_header_round_trip Sample.date_rank Sample.getUser
                           "2024-02-01T08:00:00.000Z" GET_workouts get_workouts
                           "" ∅ eq_refl))).
    reflexivity.
Defined.

(** Alice's form with sets "0", and with sets "3", for her leg day. *)
Lemma exercise_form_and_server_witness :
  signed_in Sample.getUser "tok-alice" Sample.alice /\
  handleAdd (backend Sample.date_rank Sample.getUser) "2024-02-01T08:00:00.000Z"
      "tok-alice" "w" Demo.no_sets Sample.gym =
    {| state_after := Demo.no_sets;
       alert := Some "Error adding exercise: Request failed with status code 400";
       handed := None; store_after := Sample.gym |} /\
  exists i e,
    db_exercises Sample.gym !! i = None /\ e_workout_id e = "w" /\
    handleAdd (backend Sample.date_rank Sample.getUser) "2024-02-01T08:00:00.000Z"
        "tok-alice" "w" Demo.plank Sample.gym =
      {| state_after := emptied; alert := None;
         handed := Some (Some (one (exercise_obj i e)));
         store_after :=
           {| db_workouts := db_workouts Sample.gym;
              db_exercises := <[i := e]> (db_exercises Sample.gym);
              db_clock := S (db_clock Sample.gym) |} |}.
Proof.
  split; [exact alice_signed_in|].
  pose (thm := fun f =>
    exercise_form_and_server Sample.date_rank Sample.getUser
      "2024-02-01T08:00:00.000Z" "tok-alice" Sample.alice "w" f Sample.gym
      alice_signed_in).
  split.
  - apply (proj1 (proj2 (thm Demo.no_sets) ltac:(discriminate) ltac:(discriminate)
                    ltac:(discriminate) ltac:(discriminate))).
    left. reflexivity.
  - destruct (proj2 (proj2 (thm Demo.plank) ltac:(discriminate) ltac:(discriminate)
                       ltac:(discriminate) ltac:(discriminate))
                eq_refl eq_refl Sample.leg_day eq_refl eq_refl)
      as (i & e & Hfree & Hw & _ & _ & _ & Hrun).
    exists i, e. repeat split; assumption.
Defined.

(** Alice's form without a date, and with one. *)
Lemma workout_form_and_server_witness :
  signed_in Sample.getUser "tok-alice" Sample.alice /\
  store_after (handleCreate (backend Sample.date_rank Sample.getUser)
                 "2024-02-01T08:00:00.000Z" "tok-alice" Demo.undated Sample.gym) =
    Sample.gym /\
  exists i w,
    db_workouts Sample.gym !! i = None /\
    w_user_id w = "alice" /\ w_name w = JStr "Pull Day" /\ w_notes w = JNull /\
    handed (handleCreate (backend Sample.date_rank Sample.getUser)
              "2024-02-01T08:00:00.000Z" "tok-alice" Demo.pull_day Sample.gym) =
      Some (Some (one (workout_obj i w no_embed))).
Proof.
  split; [exact alice_signed_in|].
  pose (thm := fun f =>
    workout_form_and_server Sample.date_rank Sample.getUser
      "2024-02-01T08:00:00.000Z" "tok-alice" Sample.alice f Sample.gym
      alice_signed_in).
  split.
  - apply (proj1 (proj2 (thm Demo.undated)) ltac:(discriminate) eq_refl).
  - destruct (proj2 (proj2 (thm Demo.pull_day)) ltac:(discriminate) ltac:(discriminate))
      as (i & w & Hfree & Hu & Hn & _ & Hnotes & _ & Hh & _).
    exists i, w. repeat split; assumption.
Defined.

(** Alice's dashboard loads her list. *)
Lemma dashboard_stays_in_step_witness :
  signed_in Sample.getUser "tok-alice" Sample.alice /\
  exists st',
    fetchWorkouts (backend Sample.date_rank Sample.getUser) "2024-02-01T08:00:00.000Z"
      "tok-alice" Demo.blank Sample.gym = Some (st', Sample.gym) /\
    in_step "alice" st' Sample.gym.
Proof.
  split; [exact alice_signed_in|].
  exact (proj1 (dashboard_stays_in_step Sample.date_rank Sample.getUser
                  "2024-02-01T08:00:00.000Z" "tok-alice" Sample.alice alice_signed_in)
           Demo.blank Sample.gym).
Defined.

(** Alice creates her first workout from an empty dashboard. *)
Lemma selection_is_a_stored_workout_witness :
  signed_in Sample.getUser "tok-alice" Sample.alice /\
  in_step "alice" Demo.blank Sample.empty_db /\
  selection_listed Demo.blank /\
  selection_listed
    (create_clicked (backend Sample.date_rank Sample.getUser)
       "2024-02-01T08:00:00.000Z" "tok-alice" Demo.pull_day Demo.blank
       Sample.empty_db).1.
Proof.
  assert (Hsel : selection_listed Demo.blank) by (intros w [=]).
  split; [exact alice_signed_in|]. split; [exact blank_in_step|].
  split; [exact Hsel|].
  pose proof (proj1 (selection_is_a_stored_workout Sample.date_rank Sample.getUser
                       "2024-02-01T08:00:00.000Z" "tok-alice" Sample.alice Demo.blank
                       Sample.empty_db alice_signed_in blank_in_step Hsel)
                Demo.pull_day) as Hthm.
  destruct (create_clicked _ _ _ _ _ _) as [st' o]. exact (proj1 Hthm).
Defined.

(** Bob opens Alice's leg day. *)
Lemma detail_stays_in_step_witness :
  signed_in Sample.getUser "tok-bob" Sample.bob /\
  exists st',
    fetchExercises (backend Sample.date_rank Sample.getUser) "2024-02-01T08:00:00.000Z"
      "tok-bob" (created_item (Some (one (workout_id_obj "w"))))
      {| exercises_shown := []; detail_loading := true |} Sample.gym =
      Some (st', Sample.gym) /\
    detail_in_step "w" st' Sample.gym /\
    length (exercises_shown st') = 2%nat.
Proof.
  assert (Hbob : signed_in Sample.getUser "tok-bob" Sample.bob)
    by (repeat split; done).
  split; [exact Hbob|].
  destruct (detail_stays_in_step Sample.date_rank Sample.getUser
              "2024-02-01T08:00:00.000Z" "tok-bob" Sample.bob
              (created_item (Some (one (workout_id_obj "w")))) Hbob)
    as (Hfetch & _ & _ & Hlen).
  destruct (Hfetch {| exercises_shown := []; detail_loading := true |} Sample.gym)
    as (st' & Hrun & Hstep).
  exists st'. split; [exact Hrun|]. split; [exact Hstep|].
  rewrite (Hlen st' Sample.gym Hstep). reflexivity.
Defined.

(** Sets typed as [2^53 + 1]: the form reads [2^53], and that is stored. *)
Lemma form_integers_are_stored_as_read_witness :
  signed_in Sample.getUser "tok-alice" Sample.alice /\
  parseInt (JStr (f_sets Demo.beyond_exact)) = Fin 9007199254740992 0 /\
  parseInt (JStr (f_reps Demo.beyond_exact)) = Fin 1 0 /\
  db_workouts Sample.gym !! "w" = Some Sample.leg_day /\
  exists i e,
    handed (handleAdd (backend Sample.date_rank Sample.getUser)
              "2024-02-01T08:00:00.000Z" "tok-alice" "w" Demo.beyond_exact
              Sample.gym) =
      Some (Some (one (exercise_obj i e))) /\
    e_sets e = JNum (Fin 9007199254740992 0) /\ e_reps e = JNum (Fin 1 0).
Proof.
  assert (Hsets : parseInt (JStr (f_sets Demo.beyond_exact)) = Fin 9007199254740992 0)
    by (vm_compute; reflexivity).
  assert (Hreps : parseInt (JStr (f_reps Demo.beyond_exact)) = Fin 1 0)
    by (vm_compute; reflexivity).
  split; [exact alice_signed_in|]. split; [exact Hsets|]. split; [exact Hreps|].
  split; [reflexivity|].
  destruct (form_integers_are_stored_as_read Sample.date_rank Sample.getUser
              "2024-02-01T08:00:00.000Z" "tok-alice" Sample.alice "w" Sample.leg_day
              Demo.beyond_exact Sample.gym 9007199254740992 0 1 0 alice_signed_in
              ltac:(discriminate) ltac:(discriminate) Hsets Hreps
              ltac:(discriminate) ltac:(discriminate) ltac:(lia) ltac:(lia)
              eq_refl eq_refl eq_refl eq_refl)
    as (i & e & Hh & _ & Hs & Hr).
  exists i, e. repeat split; assumption.
Defined.
